(** * PrintSphere: pricing engine and order-number allocation

    Shallow embedding of
    - [client/src/lib/pricing.ts]: [calculateDocumentPrintingPrice],
      [calculateTarpaulinPrintingPrice], [calculateLaminationPrice];
    - [client/src/components/pos/StandardServiceForm.tsx]: the flat
      [unitPrice * quantity] total of a standard service;
    - [server/storage.ts]: [MemStorage] and [DatabaseStorage], their
      order, order-item and inventory functions;
    - [server/routes.ts]: the order routes.

    Numbers.  A JavaScript [number] is modelled as an exact rational
    ([Qc], canonical rationals with Leibniz equality) or [NaN].  Rounding
    of doubles and overflow to the infinities are outside the model.

    Objects.  A rule table is a plain object: a lookup finds the table's
    own properties and, for the names every object inherits, the members
    of [Object.prototype]. *)

From Stdlib Require Import QArith Qcanon Qround Ascii.
From stdpp Require Import base numbers gmap strings list pretty.

Local Open Scope Qc_scope.

(** ** JavaScript numbers and values *)

Module Js.

Inductive number : Type :=
| Num (q : Qc)
| NaN.

#[global] Instance number_eq_dec : EqDecision number.
Proof. solve_decision. Defined.

Definition add (a b : number) : number :=
  match a, b with
  | Num x, Num y => Num (x + y)
  | _, _ => NaN
  end.

Definition mul (a b : number) : number :=
  match a, b with
  | Num x, Num y => Num (x * y)
  | _, _ => NaN
  end.

(** [a / b]; a zero divisor (an infinity or NaN in JavaScript) is mapped
    to [NaN].  The calculators only divide behind a [> 0] guard or by a
    literal. *)
Definition div (a b : number) : number :=
  match a, b with
  | Num x, Num y => if decide (y = 0) then NaN else Num (x / y)
  | _, _ => NaN
  end.

(** [a > b]: false as soon as one side is NaN. *)
Definition gt (a b : number) : bool :=
  match a, b with
  | Num x, Num y => bool_decide (y < x)
  | _, _ => false
  end.

Definition isNaN (a : number) : bool :=
  match a with
  | Num _ => false
  | NaN => true
  end.

(** Truthiness of a number: [0] and [NaN] are falsy. *)
Definition truthy (a : number) : bool :=
  match a with
  | Num q => bool_decide (q ≠ 0)
  | NaN => false
  end.

(** Truthiness of a string: only the empty string is falsy. *)
Definition truthy_str (s : string) : bool :=
  bool_decide (s ≠ "").

(** [a || b] on numbers. *)
Definition or_else (a b : number) : number :=
  if truthy a then a else b.

(** The idiom [x && !isNaN(Number(x)) ? Number(x) : d] of pricing.ts;
    [Number] is the identity on a value that already is a number. *)
Definition safe_number (x d : number) : number :=
  if truthy x && negb (isNaN x) then x else d.

(** What reading a property of a rule set, and arithmetic on it, can
    give: a number; [undefined] (the property is missing); a function or
    object (a member of [Object.prototype]); or the string that adding
    such a member to anything produces.  The text of that string starts
    with the other operand and goes on with the source of the member, so
    it never reads as a number. *)
Inductive value : Type :=
| VNumber (n : number)
| VUndefined
| VObject
| VString.

Coercion VNumber : number >-> value.

#[global] Instance value_eq_dec : EqDecision value.
Proof. solve_decision. Defined.

(** [Number(v)], the conversion that [*], [/] and a numeric [+] apply. *)
Definition to_number (v : value) : number :=
  match v with
  | VNumber n => n
  | VUndefined | VObject | VString => NaN
  end.

(** [a + b]: string concatenation as soon as one operand is an object
    or a string, the sum of the two numbers otherwise. *)
Definition plus (a b : value) : value :=
  match a, b with
  | (VObject | VString), _ | _, (VObject | VString) => VString
  | _, _ => VNumber (add (to_number a) (to_number b))
  end.

(** [a * b] *)
Definition times (a b : value) : value :=
  VNumber (mul (to_number a) (to_number b)).

(** [a / b] *)
Definition divide (a b : value) : value :=
  VNumber (div (to_number a) (to_number b)).

(** The names that every plain object inherits from [Object.prototype]. *)
Definition Object_prototype : list string :=
  ["constructor"; "__defineGetter__"; "__defineSetter__"; "hasOwnProperty";
   "__lookupGetter__"; "__lookupSetter__"; "isPrototypeOf";
   "propertyIsEnumerable"; "toString"; "valueOf"; "__proto__";
   "toLocaleString"].

(** [table[key]] on a plain object whose own properties are the numbers
    of [table]: the own property, else the inherited member, else
    [undefined]. *)
Definition member (table : gmap string Qc) (key : string) : value :=
  match table !! key with
  | Some q => VNumber (Num q)
  | None => if bool_decide (key ∈ Object_prototype) then VObject
            else VUndefined
  end.

(** A numeric property that may be missing from its object. *)
Definition prop (p : option Qc) : value :=
  match p with
  | Some q => VNumber (Num q)
  | None => VUndefined
  end.

(** An argument of object type as a caller may pass it. *)
Inductive arg (A : Type) : Type :=
| Undefined
| Null
| Object (a : A).

Arguments Undefined {A}.
Arguments Null {A}.
Arguments Object {A} a.

(** A default parameter [x = d]: the default replaces [undefined] and
    nothing else; [None] is [null]. *)
Definition default_parameter {A} (d : A) (x : arg A) : option A :=
  match x with
  | Undefined => Some d
  | Null => None
  | Object a => Some a
  end.

Inductive thrown : Type :=
| TypeError.

(** [o.p]: reading a property of [null] throws. *)
Definition dot {A B} (o : option A) (p : A → B) : thrown + B :=
  match o with
  | Some a => inr (p a)
  | None => inl TypeError
  end.

(** [table[key]]: indexing a table that is [undefined] throws. *)
Definition at_key (table : option (gmap string Qc)) (key : string)
    : thrown + value :=
  match table with
  | Some t => inr (member t key)
  | None => inl TypeError
  end.

End Js.

Export Js.

Infix "+j" := Js.add (at level 50, left associativity).
Infix "*j" := Js.mul (at level 40, left associativity).
Infix "/j" := Js.div (at level 40, left associativity).

(** Evaluation that stops at the first throw. *)
Notation "'let!' x := m 'in' k" :=
  (match m with inr x => k | inl e => inl e end)
  (at level 10, x name, m at level 100, k at level 200).

(** Decimal literals of the source. *)
Definition dec (n : Z) (d : positive) : Qc := Q2Qc (n # d).
Notation "'#' z" := (Qc_of_Z z) (at level 1, format "# z").

(** ** pricing.ts *)

Module Pricing.

Record DocumentPrintingParams : Type := {
  paperSize : string;
  paperType : string;
  copies : number;
  colorMode : string;
}.

Record TarpaulinPrintingParams : Type := {
  width : number;
  height : number;
  eyelets : number;
  rope : bool;
  stand : bool;
}.

Record LaminationParams : Type := {
  size : string;
  quantity : number;
}.

Record DocumentAnalysis : Type := {
  pageCount : number;
  colorPages : number;
  bwPages : number;
}.

(** Rule sets as pricing.ts types them (the types of the three members
    of [defaultPricingRules]): every rate and every table is there. *)
Record DocumentRules : Type := {
  colorPageRate : Qc;
  blackPageRate : Qc;
  paperTypes : gmap string Qc;
  paperSizes : gmap string Qc;
  colorModes : gmap string Qc;
  doc_basePrice : Qc;
}.

Record TarpaulinRules : Type := {
  tarp_basePrice : Qc;
  tarp_eyelets : Qc;
  tarp_rope : Qc;
  tarp_stand : Qc;
}.

Record LaminationRules : Type := {
  sizes : gmap string Qc;
  lam_basePrice : Qc;
}.

Module defaultPricingRules.

Definition document : DocumentRules := {|
  colorPageRate := #2;
  blackPageRate := #1;
  paperTypes :=
    <["Standard" := #0]> (<["Glossy" := #1]> (<["Matte" := dec 15 10]>
      (<["High Quality" := #2]> ∅)));
  paperSizes :=
    <["A4" := #1]> (<["Letter" := dec 105 100]> (<["Long" := dec 12 10]>
      (<["A5" := dec 7 10]> ∅)));
  colorModes :=
    <["Black & White" := #1]> (<["Color" := #2]>
      (<["Auto Detect" := dec 15 10]> ∅));
  doc_basePrice := #8;
|}.

Definition tarpaulin : TarpaulinRules := {|
  tarp_basePrice := #25;
  tarp_eyelets := #10;
  tarp_rope := #50;
  tarp_stand := #200;
|}.

Definition lamination : LaminationRules := {|
  sizes :=
    <["ID Size" := #1]> (<["Big ID" := dec 15 10]> (<["A4" := dec 25 10]>
      (<["Long" := #2]> (<["A5" := dec 18 10]> ∅))));
  lam_basePrice := #25;
|}.

End defaultPricingRules.

(** Rule sets as the calculators receive them.  The forms pass
    [selectedService.pricingRules], which is typed [any] and comes from
    a [jsonb] column: an object on which any property may be missing
    (the service form starts from [{}]), or [null]. *)

Module DocumentObject.
Record t : Type := {
  colorPageRate : option Qc;
  blackPageRate : option Qc;
  paperTypes : option (gmap string Qc);
  paperSizes : option (gmap string Qc);
  colorModes : option (gmap string Qc);
  basePrice : option Qc;
}.
End DocumentObject.

Module TarpaulinObject.
Record t : Type := {
  basePrice : option Qc;
  eyelets : option Qc;
  rope : option Qc;
  stand : option Qc;
}.
End TarpaulinObject.

Module LaminationObject.
Record t : Type := {
  sizes : option (gmap string Qc);
  basePrice : option Qc;
}.
End LaminationObject.

(** A typed rule set as the object it is. *)
Definition of_document (r : DocumentRules) : DocumentObject.t := {|
  DocumentObject.colorPageRate := Some (colorPageRate r);
  DocumentObject.blackPageRate := Some (blackPageRate r);
  DocumentObject.paperTypes := Some (paperTypes r);
  DocumentObject.paperSizes := Some (paperSizes r);
  DocumentObject.colorModes := Some (colorModes r);
  DocumentObject.basePrice := Some (doc_basePrice r);
|}.

Definition of_tarpaulin (r : TarpaulinRules) : TarpaulinObject.t := {|
  TarpaulinObject.basePrice := Some (tarp_basePrice r);
  TarpaulinObject.eyelets := Some (tarp_eyelets r);
  TarpaulinObject.rope := Some (tarp_rope r);
  TarpaulinObject.stand := Some (tarp_stand r);
|}.

Definition of_lamination (r : LaminationRules) : LaminationObject.t := {|
  LaminationObject.sizes := Some (sizes r);
  LaminationObject.basePrice := Some (lam_basePrice r);
|}.

(** Entries of a [breakdown] object.  The [dimensions] entry of the
    tarpaulin breakdown is the template [`${w} × ${h} ft`]; its two
    numbers are kept, the rendering is not modelled. *)
Inductive bvalue : Type :=
| BVal (v : value)
| BDimensions (w h : number).

Record PriceResult : Type := {
  unitPrice : value;
  total : value;
  breakdown : list (string * bvalue);
}.

Definition zero_result : PriceResult :=
  {| unitPrice := Num 0; total := Num 0; breakdown := [] |}.

(** [paperType && rules.paperTypes[paperType] !== undefined
      ? rules.paperTypes[paperType] : 0.0] *)
Definition paperTypeRate (rules : option DocumentObject.t)
    (paperType : string) : thrown + value :=
  if truthy_str paperType then
    let! paperTypes := dot rules DocumentObject.paperTypes in
    let! entry := at_key paperTypes paperType in
    inr (if decide (entry = VUndefined) then VNumber (Num 0) else entry)
  else inr (VNumber (Num 0)).

Definition calculateDocumentPrintingPrice
    (params : option DocumentPrintingParams)
    (rules_arg : arg DocumentObject.t)
    (documentAnalysis : option DocumentAnalysis) : thrown + PriceResult :=
  let rules :=
    default_parameter (of_document defaultPricingRules.document) rules_arg in
  match params with
  | None => inr zero_result
  | Some params =>
    let copiesCount := safe_number (copies params) (Num 1) in
    let! paperTypeRate := paperTypeRate rules (paperType params) in
    match bool_decide (colorMode params = "Auto Detect"), documentAnalysis with
    | true, Some documentAnalysis =>
      let colorPages := or_else (colorPages documentAnalysis) (Num 0) in
      let bwPages := or_else (bwPages documentAnalysis) (Num 0) in
      let totalPages := colorPages +j bwPages in
      let! rules_colorPageRate := dot rules DocumentObject.colorPageRate in
      let colorPageRate := plus (prop rules_colorPageRate) paperTypeRate in
      let! rules_blackPageRate := dot rules DocumentObject.blackPageRate in
      let blackPageRate := plus (prop rules_blackPageRate) paperTypeRate in
      let colorPagesTotal := times colorPages colorPageRate in
      let bwPagesTotal := times bwPages blackPageRate in
      let totalPerCopy := plus colorPagesTotal bwPagesTotal in
      let total := times totalPerCopy copiesCount in
      let unitPrice :=
        if gt totalPages (Num 0) then divide totalPerCopy totalPages
        else VNumber (Num 0) in
      inr {| unitPrice := unitPrice;
             total := total;
             breakdown :=
               [("colorPages", BVal colorPages);
                ("bwPages", BVal bwPages);
                ("totalPages", BVal totalPages);
                ("colorPageRate", BVal colorPageRate);
                ("blackPageRate", BVal blackPageRate);
                ("colorPagesTotal", BVal colorPagesTotal);
                ("bwPagesTotal", BVal bwPagesTotal);
                ("totalPerCopy", BVal totalPerCopy);
                ("copies", BVal copiesCount)] |}
    | _, _ =>
      let! baseRate :=
        if bool_decide (colorMode params = "Color") then
          let! rules_colorPageRate := dot rules DocumentObject.colorPageRate in
          inr (prop rules_colorPageRate)
        else if bool_decide (colorMode params = "Black & White") then
          let! rules_blackPageRate := dot rules DocumentObject.blackPageRate in
          inr (prop rules_blackPageRate)
        else
          let! rules_colorPageRate := dot rules DocumentObject.colorPageRate in
          let! rules_blackPageRate := dot rules DocumentObject.blackPageRate in
          inr (divide (plus (prop rules_colorPageRate)
                            (prop rules_blackPageRate))
                      (Num #2)) in
      let pageRate := plus baseRate paperTypeRate in
      let totalPerCopy := pageRate in
      let total := times totalPerCopy copiesCount in
      inr {| unitPrice := pageRate;
             total := total;
             breakdown :=
               [("baseRate", BVal baseRate);
                ("paperTypeRate", BVal paperTypeRate);
                ("pageRate", BVal pageRate);
                ("copies", BVal copiesCount)] |}
    end
  end.

Definition calculateTarpaulinPrintingPrice
    (params : option TarpaulinPrintingParams)
    (rules_arg : arg TarpaulinObject.t) : thrown + PriceResult :=
  let rules :=
    default_parameter (of_tarpaulin defaultPricingRules.tarpaulin)
      rules_arg in
  match params with
  | None => inr zero_result
  | Some params =>
    let safeWidth := safe_number (width params) (Num 0) in
    let safeHeight := safe_number (height params) (Num 0) in
    let area := safeWidth *j safeHeight in
    let! rules_basePrice := dot rules TarpaulinObject.basePrice in
    let baseCost := times area (prop rules_basePrice) in
    let safeEyelets := safe_number (eyelets params) (Num 0) in
    let! rules_eyelets := dot rules TarpaulinObject.eyelets in
    let eyeletCost := times safeEyelets (prop rules_eyelets) in
    let! ropeCost :=
      if rope params then
        let! rules_rope := dot rules TarpaulinObject.rope in
        inr (prop rules_rope)
      else inr (VNumber (Num 0)) in
    let! standCost :=
      if stand params then
        let! rules_stand := dot rules TarpaulinObject.stand in
        inr (prop rules_stand)
      else inr (VNumber (Num 0)) in
    let total := plus (plus (plus baseCost eyeletCost) ropeCost) standCost in
    inr {| unitPrice := baseCost;
           total := total;
           breakdown :=
             [("dimensions", BDimensions safeWidth safeHeight);
              ("area", BVal area);
              ("baseCost", BVal baseCost);
              ("eyeletCost", BVal eyeletCost);
              ("eyelets", BVal safeEyelets);
              ("ropeCost", BVal ropeCost);
              ("standCost", BVal standCost)] |}
  end.

(** [size && rules.sizes[size] !== undefined ? rules.sizes[size] : 1.0] *)
Definition sizeMultiplier (rules : option LaminationObject.t)
    (size : string) : thrown + value :=
  if truthy_str size then
    let! sizes := dot rules LaminationObject.sizes in
    let! entry := at_key sizes size in
    inr (if decide (entry = VUndefined) then VNumber (Num 1) else entry)
  else inr (VNumber (Num 1)).

Definition calculateLaminationPrice
    (params : option LaminationParams)
    (rules_arg : arg LaminationObject.t) : thrown + PriceResult :=
  let rules :=
    default_parameter (of_lamination defaultPricingRules.lamination)
      rules_arg in
  match params with
  | None => inr zero_result
  | Some params =>
    let! sizeMultiplier := sizeMultiplier rules (size params) in
    let safeQuantity := safe_number (quantity params) (Num 1) in
    let! rules_basePrice := dot rules LaminationObject.basePrice in
    let unitPrice := times (prop rules_basePrice) sizeMultiplier in
    let total := times unitPrice safeQuantity in
    inr {| unitPrice := unitPrice;
           total := total;
           breakdown :=
             [("basePrice", BVal (prop rules_basePrice));
              ("sizeMultiplier", BVal sizeMultiplier);
              ("quantity", BVal safeQuantity)] |}
  end.

(** StandardServiceForm.tsx, [onSubmit]:
    [unitPrice = selectedService.basePrice; total = unitPrice * quantity]. *)
Definition standardTotal (basePrice : Qc) (quantity : number) : number :=
  Num basePrice *j quantity.

End Pricing.

(** ** JavaScript strings, dates and maps used by storage.ts *)

Module JsString.

(** [String(n)] / [n.toString()] of an integer. *)
Definition toString (n : Z) : string := pretty n.

Fixpoint repeat_char (n : nat) (c : Ascii.ascii) : string :=
  match n with
  | O => ""
  | S n' => String c (repeat_char n' c)
  end.

(** [s.padStart(len, fill)] for a one-character [fill]. *)
Definition padStart (len : nat) (fill : Ascii.ascii) (s : string) : string :=
  repeat_char (len - String.length s) fill +:+ s.

(** [s.substr(-k)]: the last [k] characters (all of [s] when shorter). *)
Definition substr_last (k : nat) (s : string) : string :=
  String.substring (String.length s - k) k s.

End JsString.

Module JsDate.

(** A [Date] seen through its local-time getters. *)
Record Date : Type := {
  getFullYear : Z;
  getMonth : Z;
  getDate : Z;
  getHours : Z;
  getMinutes : Z;
  getSeconds : Z;
  getMilliseconds : Z;
}.

#[global] Instance Date_eq_dec : EqDecision Date.
Proof. solve_decision. Defined.

(** [d.setHours(h, m, s, ms)] *)
Definition setHours (d : Date) (h m s ms : Z) : Date :=
  {| getFullYear := getFullYear d; getMonth := getMonth d;
     getDate := getDate d; getHours := h; getMinutes := m;
     getSeconds := s; getMilliseconds := ms |}.

(** [d.toDateString()] renders weekday, month, day and year; two dates
    have the same rendering exactly when they agree on this triple. *)
Definition toDateString (d : Date) : Z * Z * Z :=
  (getFullYear d, getMonth d, getDate d).

Definition fields (d : Date) : list Z :=
  [getFullYear d; getMonth d; getDate d; getHours d; getMinutes d;
   getSeconds d; getMilliseconds d].

Fixpoint lex_lt (a b : list Z) : bool :=
  match a, b with
  | x :: a', y :: b' =>
    if bool_decide (x < y)%Z then true
    else if bool_decide (x = y) then lex_lt a' b'
    else false
  | _, _ => false
  end.

(** Chronological comparison of two timestamps. *)
Definition before (a b : Date) : bool := lex_lt (fields a) (fields b).

End JsDate.

Module JsMap.

(** A JavaScript [Map<number, V>]: entries in insertion order. *)
Definition t (V : Type) : Type := list (Z * V).

Definition get {V} (k : Z) (m : t V) : option V :=
  snd <$> List.find (λ e, bool_decide (fst e = k)) m.

(** [m.set(k, v)]: overwrite in place when [k] is present, else append. *)
Fixpoint set {V} (k : Z) (v : V) (m : t V) : t V :=
  match m with
  | [] => [(k, v)]
  | (k', v') :: m' =>
    if bool_decide (k' = k) then (k, v) :: m' else (k', v') :: set k v m'
  end.

Definition values {V} (m : t V) : list V := snd <$> m.

End JsMap.

(** ** shared/schema.ts: rows and insert shapes

    Of the [orders] and [order_items] tables the columns that are
    [notNull] without a default are kept; the optional columns are
    copied through unchanged by every function below and are absent
    (null) in the orders considered here.  A [real] column is taken to
    hold the number it is given.  [orderId] is [None] where the property
    is [undefined], as in the items that [seedInitialData] creates. *)

Module InsertOrder.
Record t : Type := {
  orderNumber : string;
  total : Qc;
  createdBy : Z;
}.
End InsertOrder.

Module Order.
Record t : Type := {
  id : Z;
  orderNumber : string;
  total : Qc;
  createdBy : Z;
  createdAt : JsDate.Date;
}.
End Order.

Module InsertOrderItem.
Record t : Type := {
  orderId : option Z;
  serviceId : Z;
  quantity : Z;
  unitPrice : Qc;
  amount : Qc;
}.
End InsertOrderItem.

Module OrderItem.
Record t : Type := {
  id : Z;
  orderId : option Z;
  serviceId : Z;
  quantity : Z;
  unitPrice : Qc;
  amount : Qc;
}.
End OrderItem.

(** ** server/storage.ts *)

Module Storage.

Import JsString JsDate.

(** What one call reads from its surroundings: the successive results of
    [new Date()], numbered in program order from 0, and the value
    returned by [Math.random()].  For a call that inserts into the
    database, [newDate env 3] is the time that [defaultNow()] gives the
    row. *)
Record Env : Type := {
  newDate : nat → Date;
  mathRandom : Qc;
}.

(** The surroundings after [k] readings of the clock. *)
Definition later (k : nat) (env : Env) : Env :=
  {| newDate := λ n, newDate env (k + n); mathRandom := mathRandom env |}.

Inductive exn : Type :=
| ZodError
| NumericValueOutOfRange
| NotNullViolation (column : string)
| UniqueViolation (column : string)
| ForeignKeyViolation (column : string).

#[global] Instance exn_eq_dec : EqDecision exn.
Proof. solve_decision. Defined.

(** The part of [IStorage] used by order intake. *)
Class IStorage (S : Type) : Type := {
  getOrder : Z → S → option Order.t;
  createOrder : Env → InsertOrder.t → S → S * (exn + Order.t);
  getOrderItems : Z → S → list OrderItem.t;
  createOrderItem : InsertOrderItem.t → S → S * (exn + OrderItem.t);
}.

(** [`${year}${month}${day}`] as computed in both [createOrder]s. *)
Definition dateString (date : Date) : string :=
  let year := substr_last 2 (toString (getFullYear date)) in
  let month := padStart 2 "0"%char (toString (getMonth date + 1)) in
  let day := padStart 2 "0"%char (toString (getDate date)) in
  year +:+ month +:+ day.

(** [String(count + 1).padStart(4, '0')] for a number [count]. *)
Definition sequentialNum (count : Z) : string :=
  padStart 4 "0"%char (toString (count + 1)).

(** [Math.floor(Math.random() * 1000).toString().padStart(3, '0')] *)
Definition randomSuffix (random : Qc) : string :=
  padStart 3 "0"%char (toString (Qfloor (random * #1000)%Qc)).

(** *** [class MemStorage] *)

Module MemStorage.

Record t : Type := {
  orders : JsMap.t Order.t;
  orderItems : JsMap.t OrderItem.t;
  orderCurrentId : Z;
  orderItemCurrentId : Z;
  orderNumbers : gset string;
}.

Definition getOrder (id : Z) (this : t) : option Order.t :=
  JsMap.get id (orders this).

(** [Array.from(this.orders.values()).filter(order =>
      new Date(order.createdAt).toDateString() === date.toDateString()).length] *)
Definition todayOrders (this : t) (date : Date) : Z :=
  Z.of_nat (length (filter
    (λ order, toDateString (Order.createdAt order) = toDateString date)
    (JsMap.values (orders this)))).

(** The order number [createOrder] settles on. *)
Definition allocate (this : t) (env : Env) (orderNumber : string) : string :=
  if negb (truthy_str orderNumber) || bool_decide (orderNumber ∈ orderNumbers this)
  then
    let date := newDate env 1 in
    let dateString := dateString date in
    let todayOrders := todayOrders this date in
    let sequentialNum := sequentialNum todayOrders in
    let orderNumber := "ORD-" +:+ dateString +:+ "-" +:+ sequentialNum in
    if bool_decide (orderNumber ∈ orderNumbers this) then
      let randomSuffix := randomSuffix (mathRandom env) in
      "ORD-" +:+ dateString +:+ "-" +:+ sequentialNum +:+ "-" +:+ randomSuffix
    else orderNumber
  else orderNumber.

Definition createOrder (env : Env) (insertOrder : InsertOrder.t) (this : t)
    : t * (exn + Order.t) :=
  let id := orderCurrentId this in
  let now := newDate env 0 in
  let orderNumber := allocate this env (InsertOrder.orderNumber insertOrder) in
  let order := {|
    Order.id := id;
    Order.orderNumber := orderNumber;
    Order.total := InsertOrder.total insertOrder;
    Order.createdBy := InsertOrder.createdBy insertOrder;
    Order.createdAt := now |} in
  ({| orders := JsMap.set id order (orders this);
      orderItems := orderItems this;
      orderCurrentId := id + 1;
      orderItemCurrentId := orderItemCurrentId this;
      orderNumbers := {[ orderNumber ]} ∪ orderNumbers this |},
   inr order).

(** [item.orderId === orderId]: an item without order id matches no id. *)
Definition getOrderItems (orderId : Z) (this : t) : list OrderItem.t :=
  filter (λ item, OrderItem.orderId item = Some orderId)
         (JsMap.values (orderItems this)).

Definition createOrderItem (insertOrderItem : InsertOrderItem.t) (this : t)
    : t * (exn + OrderItem.t) :=
  let id := orderItemCurrentId this in
  let orderItem := {|
    OrderItem.id := id;
    OrderItem.orderId := InsertOrderItem.orderId insertOrderItem;
    OrderItem.serviceId := InsertOrderItem.serviceId insertOrderItem;
    OrderItem.quantity := InsertOrderItem.quantity insertOrderItem;
    OrderItem.unitPrice := InsertOrderItem.unitPrice insertOrderItem;
    OrderItem.amount := InsertOrderItem.amount insertOrderItem |} in
  ({| orders := orders this;
      orderItems := JsMap.set id orderItem (orderItems this);
      orderCurrentId := orderCurrentId this;
      orderItemCurrentId := id + 1;
      orderNumbers := orderNumbers this |},
   inr orderItem).

(** The sample orders of [seedInitialData].  [createOrder] is called
    without [await]: [order1] is the promise, whose [id] is [undefined],
    and so is the [orderId] of each sample item.  Each sample number is
    supplied and free, so each [createOrder] reads the clock once: the
    second one starts one reading later, the third one two. *)
Definition seedInitialData (env : Env) (this : t) : t :=
  let this := (createOrder env
    {| InsertOrder.orderNumber := "ORD-2023-0041";
       InsertOrder.total := #750; InsertOrder.createdBy := 1 |} this).1 in
  let this := (createOrderItem
    {| InsertOrderItem.orderId := None; InsertOrderItem.serviceId := 2;
       InsertOrderItem.quantity := 1; InsertOrderItem.unitPrice := #750;
       InsertOrderItem.amount := #750 |} this).1 in
  let this := (createOrder (later 1 env)
    {| InsertOrder.orderNumber := "ORD-2023-0040";
       InsertOrder.total := #250; InsertOrder.createdBy := 2 |} this).1 in
  let this := (createOrderItem
    {| InsertOrderItem.orderId := None; InsertOrderItem.serviceId := 3;
       InsertOrderItem.quantity := 10; InsertOrderItem.unitPrice := #25;
       InsertOrderItem.amount := #250 |} this).1 in
  let this := (createOrder (later 2 env)
    {| InsertOrder.orderNumber := "ORD-2023-0039";
       InsertOrder.total := #625; InsertOrder.createdBy := 2 |} this).1 in
  (createOrderItem
    {| InsertOrderItem.orderId := None; InsertOrderItem.serviceId := 4;
       InsertOrderItem.quantity := 5; InsertOrderItem.unitPrice := #125;
       InsertOrderItem.amount := #625 |} this).1.

(** [new MemStorage()]: the constructor initialises the fields and then
    seeds. *)
Definition new (env : Env) : t :=
  seedInitialData env
    {| orders := [];
       orderItems := [];
       orderCurrentId := 1;
       orderItemCurrentId := 1;
       orderNumbers := ∅ |}.

#[global] Instance storage : IStorage t := {|
  Storage.getOrder := getOrder;
  Storage.createOrder := createOrder;
  Storage.getOrderItems := getOrderItems;
  Storage.createOrderItem := createOrderItem;
|}.

End MemStorage.

(** *** PostgreSQL column types *)

Module Pg.

(** The values of an [integer] column. *)
Definition int4 (z : Z) : Prop := (-2147483648 ≤ z ≤ 2147483647)%Z.

#[global] Instance int4_dec (z : Z) : Decision (int4 z).
Proof. unfold int4. apply _. Defined.

(** A parameter bound to an [integer] column, when there is one. *)
Definition binds (z : option Z) : bool :=
  match z with
  | Some z => bool_decide (int4 z)
  | None => true
  end.

End Pg.

(** *** [class DatabaseStorage]

    The [orders] and [order_items] tables with what shared/schema.ts
    declares for them: [integer] columns, [notNull], [unique] on
    [order_number], and the foreign keys [created_by], [order_id] and
    [service_id].  A parameter that does not fit its [integer] column
    fails the statement before it runs; otherwise a [serial] column draws
    its value before the constraints are checked, the unique constraint
    before the foreign keys. *)

Module DatabaseStorage.

Record t : Type := {
  orders : list Order.t;
  orderItems : list OrderItem.t;
  orders_id_seq : Z;
  order_items_id_seq : Z;
  services : gset Z;
  users : gset Z;
}.

Definition getOrder (id : Z) (db : t) : option Order.t :=
  List.find (λ o, bool_decide (Order.id o = id)) (orders db).

(** [select count( * ) from orders
     where created_at > todayStart and created_at < todayEnd]: the
    [count] of the one row returned.  It is a [bigint], which the driver
    hands over as its decimal string. *)
Definition countToday (db : t) (todayStart todayEnd : Date) : string :=
  toString (Z.of_nat (length (filter
    (λ o, before todayStart (Order.createdAt o)
          && before (Order.createdAt o) todayEnd = true)
    (orders db)))).

(** A string or a number. *)
Inductive string_or_number : Type :=
| CountString (s : string)
| CountNumber (n : Z).

(** [todayOrders[0]?.count || 0] *)
Definition count_or_0 (count : string) : string_or_number :=
  if truthy_str count then CountString count else CountNumber 0.

(** [String(count + 1).padStart(4, '0')]: on a string, [+ 1] appends
    the character 1. *)
Definition sequentialNum (count : string_or_number) : string :=
  padStart 4 "0"%char
    match count with
    | CountString s => s +:+ toString 1
    | CountNumber n => toString (n + 1)
    end.

(** The number made up when none was supplied. *)
Definition candidate (env : Env) (db : t) : string :=
  let date := newDate env 0 in
  let dateString := dateString date in
  let todayStart := setHours (newDate env 1) 0 0 0 0 in
  let todayEnd := setHours (newDate env 2) 23 59 59 999 in
  let count := count_or_0 (countToday db todayStart todayEnd) in
  let sequentialNum := sequentialNum count in
  "ORD-" +:+ dateString +:+ "-" +:+ sequentialNum.

(** [db.insert(orders).values(insertOrder).returning()] *)
Definition insert_order (env : Env) (insertOrder : InsertOrder.t) (db : t)
    : t * (exn + Order.t) :=
  let id := orders_id_seq db in
  let order := {|
    Order.id := id;
    Order.orderNumber := InsertOrder.orderNumber insertOrder;
    Order.total := InsertOrder.total insertOrder;
    Order.createdBy := InsertOrder.createdBy insertOrder;
    Order.createdAt := newDate env 3 |} in
  let db' rows := {|
    orders := rows;
    orderItems := orderItems db;
    orders_id_seq := id + 1;
    order_items_id_seq := order_items_id_seq db;
    services := services db;
    users := users db |} in
  if negb (bool_decide (Pg.int4 (InsertOrder.createdBy insertOrder)))
  then (db, inl NumericValueOutOfRange)
  else if bool_decide (InsertOrder.orderNumber insertOrder
                         ∈ Order.orderNumber <$> orders db)
  then (db' (orders db), inl (UniqueViolation "order_number"))
  else if negb (bool_decide (InsertOrder.createdBy insertOrder ∈ users db))
  then (db' (orders db), inl (ForeignKeyViolation "created_by"))
  else (db' (orders db ++ [order]), inr order).

Definition createOrder (env : Env) (insertOrder : InsertOrder.t) (db : t)
    : t * (exn + Order.t) :=
  let insertOrder :=
    if negb (truthy_str (InsertOrder.orderNumber insertOrder)) then
      {| InsertOrder.orderNumber := candidate env db;
         InsertOrder.total := InsertOrder.total insertOrder;
         InsertOrder.createdBy := InsertOrder.createdBy insertOrder |}
    else insertOrder in
  insert_order env insertOrder db.

Definition getOrderItems (orderId : Z) (db : t) : list OrderItem.t :=
  filter (λ item, OrderItem.orderId item = Some orderId) (orderItems db).

(** [db.insert(orderItems).values(insertOrderItem).returning()] *)
Definition createOrderItem (insertOrderItem : InsertOrderItem.t) (db : t)
    : t * (exn + OrderItem.t) :=
  let id := order_items_id_seq db in
  let db' rows := {|
    orders := orders db;
    orderItems := rows;
    orders_id_seq := orders_id_seq db;
    order_items_id_seq := id + 1;
    services := services db;
    users := users db |} in
  if negb (Pg.binds (InsertOrderItem.orderId insertOrderItem)
           && bool_decide (Pg.int4 (InsertOrderItem.serviceId insertOrderItem))
           && bool_decide (Pg.int4 (InsertOrderItem.quantity insertOrderItem)))
  then (db, inl NumericValueOutOfRange)
  else
    match InsertOrderItem.orderId insertOrderItem with
    | None => (db' (orderItems db), inl (NotNullViolation "order_id"))
    | Some orderId =>
      let orderItem := {|
        OrderItem.id := id;
        OrderItem.orderId := Some orderId;
        OrderItem.serviceId := InsertOrderItem.serviceId insertOrderItem;
        OrderItem.quantity := InsertOrderItem.quantity insertOrderItem;
        OrderItem.unitPrice := InsertOrderItem.unitPrice insertOrderItem;
        OrderItem.amount := InsertOrderItem.amount insertOrderItem |} in
      if negb (bool_decide (orderId ∈ Order.id <$> orders db))
      then (db' (orderItems db), inl (ForeignKeyViolation "order_id"))
      else if negb (bool_decide (InsertOrderItem.serviceId insertOrderItem
                                   ∈ services db))
      then (db' (orderItems db), inl (ForeignKeyViolation "service_id"))
      else (db' (orderItems db ++ [orderItem]), inr orderItem)
    end.

#[global] Instance storage : IStorage t := {|
  Storage.getOrder := getOrder;
  Storage.createOrder := createOrder;
  Storage.getOrderItems := getOrderItems;
  Storage.createOrderItem := createOrderItem;
|}.

End DatabaseStorage.

End Storage.

(** ** server/routes.ts: [POST /api/orders]

    The routes call the [storage] that storage.ts exports, a
    [DatabaseStorage]; the handler is written against [IStorage]. *)

Module Routes.

Import Storage.

(** The JSON body after [const { items, ...orderData } = req.body]: a
    required column may be missing; [items] is [None] when it is not an
    array. *)
Record RawOrder : Type := {
  orderNumber : option string;
  total : option Qc;
}.

Record RawItem : Type := {
  serviceId : option Z;
  quantity : option Z;
  unitPrice : option Qc;
  amount : option Qc;
}.

Record Body : Type := {
  orderData : RawOrder;
  items : option (list RawItem);
}.

Inductive Response : Type :=
| Status201 (order : Order.t) (items : list OrderItem.t)
| Status400
| Status500.

(** Computations of the handler: they update the store and either return
    or throw.  What was written before a throw stays written. *)
Definition M (S A : Type) : Type := S → S * (exn + A).

Definition ret {S A} (a : A) : M S A := λ s, (s, inr a).

Definition throw {S A} (e : exn) : M S A := λ s, (s, inl e).

Definition bind {S A B} (m : M S A) (k : A → M S B) : M S B :=
  λ s, match m s with
       | (s', inr a) => k a s'
       | (s', inl e) => (s', inl e)
       end.

Notation "'let*' x := m 'in' k" := (bind m (λ x, k))
  (at level 10, x name, m at level 100, k at level 200).

(** [insertOrderSchema.parse(orderData)], after
    [orderData.createdBy = user.id]. *)
Definition insertOrderSchema_parse {S} (createdBy : Z) (o : RawOrder)
    : M S InsertOrder.t :=
  match orderNumber o, total o with
  | Some n, Some t =>
    ret {| InsertOrder.orderNumber := n; InsertOrder.total := t;
           InsertOrder.createdBy := createdBy |}
  | _, _ => throw ZodError
  end.

(** [insertOrderItemSchema.parse(item)], after [item.orderId = order.id]. *)
Definition insertOrderItemSchema_parse {S} (orderId : Z) (i : RawItem)
    : M S InsertOrderItem.t :=
  match serviceId i, quantity i, unitPrice i, amount i with
  | Some s, Some q, Some u, Some a =>
    ret {| InsertOrderItem.orderId := Some orderId;
           InsertOrderItem.serviceId := s;
           InsertOrderItem.quantity := q;
           InsertOrderItem.unitPrice := u;
           InsertOrderItem.amount := a |}
  | _, _, _, _ => throw ZodError
  end.

(** The [for (const item of items)] loop; [orderItems] accumulates the
    created rows. *)
Fixpoint createItems {S : Type} `{!IStorage S} (order : Order.t) (items : list RawItem)
    (orderItems : list OrderItem.t) : M S (list OrderItem.t) :=
  match items with
  | [] => ret orderItems
  | item :: items' =>
    let* validatedItemData :=
      insertOrderItemSchema_parse (Order.id order) item in
    let* orderItem := createOrderItem validatedItemData in
    createItems order items' (orderItems ++ [orderItem])
  end.

Definition handleZodError (err : exn) : Response :=
  match err with
  | ZodError => Status400
  | _ => Status500
  end.

Definition postOrders {S : Type} `{!IStorage S} (env : Env) (userId : Z) (body : Body)
    : S → S * Response :=
  λ s,
  let attempt : M S Response :=
    let* validatedOrderData :=
      insertOrderSchema_parse userId (orderData body) in
    let* order := createOrder env validatedOrderData in
    let* orderItems := createItems order (default [] (items body)) [] in
    ret (Status201 order orderItems) in
  match attempt s with
  | (s', inr response) => (s', response)
  | (s', inl err) => (s', handleZodError err)
  end.

End Routes.

(** ** Vocabulary of the statements *)

Module Intake.


End Intake.

Module Terms.

Import Pricing.

Definition mkDoc (ps pt : string) (c : number) (cm : string)
    : DocumentPrintingParams :=
  {| paperSize := ps; paperType := pt; copies := c; colorMode := cm |}.

Definition mkAnalysis (pc cp bw : number) : DocumentAnalysis :=
  {| pageCount := pc; colorPages := cp; bwPages := bw |}.

Definition mkTarp (w h e : number) (rp st : bool) : TarpaulinPrintingParams :=
  {| width := w; height := h; eyelets := e; rope := rp; stand := st |}.

Definition mkLam (sz : string) (q : number) : LaminationParams :=
  {| size := sz; quantity := q |}.

(** A typed rule set passed as the [rules] argument. *)
Definition docRules (r : DocumentRules) : arg DocumentObject.t :=
  Object (of_document r).

Definition tarpRules (r : TarpaulinRules) : arg TarpaulinObject.t :=
  Object (of_tarpaulin r).

Definition lamRules (r : LaminationRules) : arg LaminationObject.t :=
  Object (of_lamination r).

(** The object [{}]. *)
Definition no_document_rules : DocumentObject.t :=
  {| DocumentObject.colorPageRate := None;
     DocumentObject.blackPageRate := None;
     DocumentObject.paperTypes := None; DocumentObject.paperSizes := None;
     DocumentObject.colorModes := None; DocumentObject.basePrice := None |}.

Definition no_tarpaulin_rules : TarpaulinObject.t :=
  {| TarpaulinObject.basePrice := None; TarpaulinObject.eyelets := None;
     TarpaulinObject.rope := None; TarpaulinObject.stand := None |}.

Definition no_lamination_rules : LaminationObject.t :=
  {| LaminationObject.sizes := None; LaminationObject.basePrice := None |}.

(** The call returned, and what it returned satisfies [P]. *)
Definition returns {A : Type} (outcome : thrown + A) (P : A → Prop) : Prop :=
  match outcome with
  | inr a => P a
  | inl _ => False
  end.

(** A rule set with one table replaced. *)
Definition with_paperTypes (r : DocumentRules) (m : gmap string Qc)
    : DocumentRules :=
  {| colorPageRate := colorPageRate r; blackPageRate := blackPageRate r;
     paperTypes := m; paperSizes := paperSizes r;
     colorModes := colorModes r; doc_basePrice := doc_basePrice r |}.

Definition with_sizes (r : LaminationRules) (m : gmap string Qc)
    : LaminationRules :=
  {| sizes := m; lam_basePrice := lam_basePrice r |}.

(** [a <= b] on finite numbers; it holds of nothing else. *)
Definition le_num (a b : value) : Prop :=
  match a, b with
  | VNumber (Num x), VNumber (Num y) => x ≤ y
  | _, _ => False
  end.

Definition Qcmax (x y : Qc) : Qc := if decide (x ≤ y) then y else x.

(** The count the calculators multiply by: a zero count is read as one. *)
Definition effective (c : Qc) : Qc := if decide (c = 0) then 1 else c.

(** The key is listed in the table, or names no member of
    [Object.prototype]: a lookup finds the table's entry or nothing. *)
Definition own_or_absent (table : gmap string Qc) (key : string) : Prop :=
  is_Some (table !! key) ∨ key ∉ Object_prototype.

(** The surcharge of a paper type and the multiplier of a lamination
    size as section 4.1 of the specification defines them: the entry of
    the table, and the neutral value when there is none (or no type or
    size is named). *)
Definition surcharge (r : DocumentRules) (pt : string) : Qc :=
  if truthy_str pt then default 0 (paperTypes r !! pt) else 0.

Definition multiplier (r : LaminationRules) (sz : string) : Qc :=
  if truthy_str sz then default 1 (sizes r !! sz) else 1.

(** The terms of the formulas, as section 4.1 of the specification
    writes them. *)
Definition perCopyTotal (r : DocumentRules) (pt : string) (cp bw : Qc) : Qc :=
  cp * (colorPageRate r + surcharge r pt)
  + bw * (blackPageRate r + surcharge r pt).

Definition baseRate (r : DocumentRules) (cm : string) : Qc :=
  if decide (cm = "Color") then colorPageRate r
  else if decide (cm = "Black & White") then blackPageRate r
  else (colorPageRate r + blackPageRate r) / #2.

Definition pageRate (r : DocumentRules) (pt cm : string) : Qc :=
  baseRate r cm + surcharge r pt.

Definition tarpaulinBase (r : TarpaulinRules) (w h : Qc) : Qc :=
  w * h * tarp_basePrice r.

Definition tarpaulinTotal (r : TarpaulinRules) (w h e : Qc) (rp st : bool) : Qc :=
  w * h * tarp_basePrice r + e * tarp_eyelets r
  + (if rp then tarp_rope r else 0) + (if st then tarp_stand r else 0).

Definition laminationUnit (r : LaminationRules) (sz : string) : Qc :=
  lam_basePrice r * multiplier r sz.

(** Rule sets without negative entries. *)
Definition nonneg_document (r : DocumentRules) : Prop :=
  0 ≤ colorPageRate r ∧ 0 ≤ blackPageRate r
  ∧ map_Forall (λ _ v, 0 ≤ v) (paperTypes r).

Definition nonneg_tarpaulin (r : TarpaulinRules) : Prop :=
  0 ≤ tarp_eyelets r ∧ 0 ≤ tarp_rope r ∧ 0 ≤ tarp_stand r.

Definition nonneg_lamination (r : LaminationRules) : Prop :=
  0 ≤ lam_basePrice r ∧ map_Forall (λ _ v, 0 ≤ v) (sizes r).

(** A page analysis, when there is one, counts pages: finite and not
    negative. *)
Definition counts_pages (a : option DocumentAnalysis) : Prop :=
  match a with
  | None => True
  | Some a =>
    ∃ cp bw, colorPages a = Num cp ∧ bwPages a = Num bw ∧ 0 ≤ cp ∧ 0 ≤ bw
  end.

(** The conditions under which a calculator throws: the rule set is
    [null], or the table that is indexed is missing from it. *)
Definition document_throws (p : DocumentPrintingParams)
    (rules : arg DocumentObject.t) : Prop :=
  match rules with
  | Undefined => False
  | Null => True
  | Object o => paperType p ≠ "" ∧ DocumentObject.paperTypes o = None
  end.

Definition tarpaulin_throws (rules : arg TarpaulinObject.t) : Prop :=
  match rules with
  | Null => True
  | _ => False
  end.

Definition lamination_throws (p : LaminationParams)
    (rules : arg LaminationObject.t) : Prop :=
  match rules with
  | Undefined => False
  | Null => True
  | Object o => size p ≠ "" ∧ LaminationObject.sizes o = None
  end.

End Terms.

(** The order number as section 4.2 of the specification writes it:
    [ORD-YYMMDD-NNNN], fixed-width decimal fields. *)

Module OrderNumber.

Import JsDate.

Definition digit (n : Z) : Ascii.ascii :=
  Ascii.ascii_of_nat (48 + Z.to_nat (n `mod` 10)).

Definition two_digits (n : Z) : string :=
  String (digit (n `div` 10)) (String (digit n) "").

Definition four_digits (n : Z) : string :=
  String (digit (n `div` 1000)) (String (digit (n `div` 100)) (two_digits n)).

Definition three_digits (n : Z) : string :=
  String (digit (n `div` 100)) (two_digits n).

Definition spec_YYMMDD (d : Date) : string :=
  two_digits (getFullYear d `mod` 100) +:+ two_digits (getMonth d + 1)
  +:+ two_digits (getDate d).

Definition spec_candidate (d : Date) (countToday : Z) : string :=
  "ORD-" +:+ spec_YYMMDD d +:+ "-" +:+ four_digits (countToday + 1).

(** A calendar date with a four-digit year. *)
Definition calendar (d : Date) : Prop :=
  (1000 ≤ getFullYear d ≤ 9999)%Z ∧ (0 ≤ getMonth d ≤ 11)%Z
  ∧ (1 ≤ getDate d ≤ 31)%Z.

(** Two timestamps of one calendar day. *)
Definition same_day (a b : Date) : Prop :=
  getFullYear a = getFullYear b ∧ getMonth a = getMonth b
  ∧ getDate a = getDate b.

#[global] Instance same_day_dec (a b : Date) : Decision (same_day a b).
Proof. unfold same_day. apply _. Defined.

(** The count of orders already created on the day of [d]. *)
Definition created_on (d : Date) (orders : list Order.t) : Z :=
  Z.of_nat (length (filter (λ o, same_day (Order.createdAt o) d) orders)).

(** A timestamp with a time of day, and one that is neither the first
    nor the last millisecond of its day. *)
Definition time_of_day (t : Date) : Prop :=
  (0 ≤ getHours t ≤ 23)%Z ∧ (0 ≤ getMinutes t ≤ 59)%Z
  ∧ (0 ≤ getSeconds t ≤ 59)%Z ∧ (0 ≤ getMilliseconds t ≤ 999)%Z.

Definition inside_day (t : Date) : Prop :=
  time_of_day t
  ∧ ¬ (getHours t = 0 ∧ getMinutes t = 0 ∧ getSeconds t = 0
       ∧ getMilliseconds t = 0)%Z
  ∧ ¬ (getHours t = 23 ∧ getMinutes t = 59 ∧ getSeconds t = 59
       ∧ getMilliseconds t = 999)%Z.

(** The sequential candidate [MemStorage.createOrder] proposes first. *)
Definition mem_candidate (this : Storage.MemStorage.t) (env : Storage.Env)
    : string :=
  let date := Storage.newDate env 1 in
  "ORD-" +:+ Storage.dateString date +:+ "-"
  +:+ Storage.sequentialNum (Storage.MemStorage.todayOrders this date).

(** The allocator of [MemStorage.createOrder] runs when no number was
    supplied or the supplied one is taken. *)
Definition allocates (this : Storage.MemStorage.t) (number : string) : Prop :=
  number = "" ∨ number ∈ Storage.MemStorage.orderNumbers this.

(** The stored orders carry pairwise distinct numbers, every one of them
    is recorded in [orderNumbers], and the ids in use lie below the
    counter. *)
Definition consistent (this : Storage.MemStorage.t) : Prop :=
  NoDup (Order.orderNumber
           <$> JsMap.values (Storage.MemStorage.orders this))
  ∧ (∀ o, o ∈ JsMap.values (Storage.MemStorage.orders this) →
          Order.orderNumber o ∈ Storage.MemStorage.orderNumbers this)
  ∧ Forall (λ e, (e.1 < Storage.MemStorage.orderCurrentId this)%Z)
           (Storage.MemStorage.orders this).

End OrderNumber.

(** Concrete stores and requests used as examples. *)

Module Scenario.

Import JsDate Storage.

(** 2 November 2026, 09:30 local time. *)
Definition morning : Date :=
  {| getFullYear := 2026; getMonth := 10; getDate := 2; getHours := 9;
     getMinutes := 30; getSeconds := 0; getMilliseconds := 0 |}.

(** 2 November 2026, 17:00. *)
Definition evening : Date :=
  {| getFullYear := 2026; getMonth := 10; getDate := 2; getHours := 17;
     getMinutes := 0; getSeconds := 0; getMilliseconds := 0 |}.

(** 1 November 2026, 16:45. *)
Definition day_before : Date :=
  {| getFullYear := 2026; getMonth := 10; getDate := 1; getHours := 16;
     getMinutes := 45; getSeconds := 0; getMilliseconds := 0 |}.

(** A call during which the clock stands at [morning] and
    [Math.random()] returns [random]. *)
Definition at_morning (random : Qc) : Env :=
  {| newDate := λ _, morning; mathRandom := random |}.

Definition request (number : string) : InsertOrder.t :=
  {| InsertOrder.orderNumber := number; InsertOrder.total := #100;
     InsertOrder.createdBy := 1 |}.

(** A store constructed that morning: its three sample orders are of
    today. *)
Definition seeded : MemStorage.t := MemStorage.new (at_morning 0).

(** Two more orders, whose numbers the client supplied. *)
Definition two_supplied : MemStorage.t :=
  (MemStorage.createOrder (at_morning 0) (request "ORD-261102-0006")
     (MemStorage.createOrder (at_morning 0) (request "ORD-261102-0006-007")
        seeded).1).1.

(** [Math.random()] returning 0.0075: the suffix is "007". *)
Definition third_call : MemStorage.t * (exn + Order.t) :=
  MemStorage.createOrder (at_morning (dec 75 10000)) (request "") two_supplied.

(** The tables before the first order. *)
Definition no_rows : DatabaseStorage.t :=
  {| DatabaseStorage.orders := []; DatabaseStorage.orderItems := [];
     DatabaseStorage.orders_id_seq := 1;
     DatabaseStorage.order_items_id_seq := 1;
     DatabaseStorage.services := {[ 1%Z; 2%Z ]};
     DatabaseStorage.users := {[ 1%Z; 2%Z; 7%Z ]} |}.

(** A database holding one order of today, under the number that the
    next sequential candidate will propose. *)
Definition one_row : DatabaseStorage.t :=
  {| DatabaseStorage.orders :=
       [ {| Order.id := 1; Order.orderNumber := "ORD-261102-0011";
            Order.total := #100; Order.createdBy := 1;
            Order.createdAt := morning |} ];
     DatabaseStorage.orderItems := [];
     DatabaseStorage.orders_id_seq := 2;
     DatabaseStorage.order_items_id_seq := 1;
     DatabaseStorage.services := {[ 1%Z; 2%Z ]};
     DatabaseStorage.users := {[ 1%Z; 2%Z; 7%Z ]} |}.

(** A database holding one order of the day before. *)
Definition since_yesterday : DatabaseStorage.t :=
  {| DatabaseStorage.orders :=
       [ {| Order.id := 1; Order.orderNumber := "ORD-261101-0001";
            Order.total := #100; Order.createdBy := 1;
            Order.createdAt := day_before |} ];
     DatabaseStorage.orderItems := [];
     DatabaseStorage.orders_id_seq := 2;
     DatabaseStorage.order_items_id_seq := 1;
     DatabaseStorage.services := {[ 1%Z; 2%Z ]};
     DatabaseStorage.users := {[ 1%Z; 2%Z; 7%Z ]} |}.

(** The same database after three orders of today, each created without
    a number. *)
Definition three_today : DatabaseStorage.t :=
  (DatabaseStorage.createOrder (at_morning 0) (request "")
     (DatabaseStorage.createOrder (at_morning 0) (request "")
        (DatabaseStorage.createOrder (at_morning 0) (request "")
           since_yesterday).1).1).1.

Definition good_item : Routes.RawItem :=
  {| Routes.serviceId := Some 1%Z; Routes.quantity := Some 2%Z;
     Routes.unitPrice := Some #50; Routes.amount := Some #100 |}.



Definition body (number : string) (items : list Routes.RawItem) : Routes.Body :=
  {| Routes.orderData :=
       {| Routes.orderNumber := Some number; Routes.total := Some #150 |};
     Routes.items := Some items |}.

(** An item that names order 7 and one that names no order. *)
Definition item_of_order_7 : InsertOrderItem.t :=
  {| InsertOrderItem.orderId := Some 7%Z; InsertOrderItem.serviceId := 1;
     InsertOrderItem.quantity := 2; InsertOrderItem.unitPrice := #50;
     InsertOrderItem.amount := #100 |}.

End Scenario.

(** ** Further functions of the same files *)

(** More arithmetic on JavaScript numbers. *)

Module JsNum.

Definition sub (a b : number) : number :=
  match a, b with
  | Num x, Num y => Num (x - y)
  | _, _ => NaN
  end.

(** [a < b]: false as soon as one side is NaN. *)
Definition lt (a b : number) : bool :=
  match a, b with
  | Num x, Num y => bool_decide (x < y)
  | _, _ => false
  end.

(** [a <= b]: false as soon as one side is NaN. *)
Definition le (a b : number) : bool :=
  match a, b with
  | Num x, Num y => bool_decide (x ≤ y)
  | _, _ => false
  end.

(** [Math.max(a, b)]: NaN as soon as one argument is NaN. *)
Definition max (a b : number) : number :=
  match a, b with
  | Num x, Num y => Num (if decide (x ≤ y) then y else x)
  | _, _ => NaN
  end.

End JsNum.

Infix "-j" := JsNum.sub (at level 50, left associativity).

(** *** The cart: [CartProvider] (the [useCart] hook),
    [applyDiscount] of ShoppingCart.tsx and [change] of the payment
    dialog

    A cart line keeps the fields the cart computes with; the state of
    the provider is the item array and the discount. *)

Module Cart.

Record CartItem : Type := {
  serviceId : Z;
  quantity : number;
  unitPrice : number;
  amount : number;
}.

Record t : Type := {
  items : list CartItem;
  discount : number;
}.

(** [useState([])], [useState(0)] *)
Definition empty : t := {| items := []; discount := Num 0 |}.

(** [setItems([...items, item])] *)
Definition addItem (item : CartItem) (c : t) : t :=
  {| items := items c ++ [item]; discount := discount c |}.

(** [items.filter((_, i) => i !== index)], with [i] the position of the
    head of [l]. *)
Fixpoint filter_index (i index : Z) (l : list CartItem) : list CartItem :=
  match l with
  | [] => []
  | item :: l' =>
    if bool_decide (i ≠ index) then item :: filter_index (i + 1) index l'
    else filter_index (i + 1) index l'
  end.

(** [setItems(items.filter((_, i) => i !== index))] *)
Definition removeItem (index : Z) (c : t) : t :=
  {| items := filter_index 0 index (items c); discount := discount c |}.

(** [setItems([]); setDiscount(0)] *)
Definition clearCart (c : t) : t := empty.

Definition setDiscount (d : number) (c : t) : t :=
  {| items := items c; discount := d |}.

(** [items.reduce((sum, item) => sum + item.amount, 0)] *)
Definition subtotal (c : t) : number :=
  foldl (λ sum item, sum +j amount item) (Num 0) (items c).

(** [Math.max(subtotal - discount, 0)] *)
Definition total (c : t) : number :=
  JsNum.max (subtotal c -j discount c) (Num 0).

Inductive DiscountType : Type := fixed | percentage.

(** [applyDiscount], with [value] the result of
    [parseFloat(discountValue)]. *)
Definition applyDiscount (value : number) (discountType : DiscountType)
    (c : t) : t :=
  if isNaN value || JsNum.lt value (Num 0) then c
  else
    match discountType with
    | fixed => setDiscount value c
    | percentage =>
      let percentageDiscount := (value /j Num #100) *j subtotal c in
      setDiscount percentageDiscount c
    end.

(** [Math.max(amountTendered - total, 0)] *)
Definition change (amountTendered : number) (c : t) : number :=
  JsNum.max (amountTendered -j total c) (Num 0).

End Cart.

(** *** Order numbers made on the client *)

Module ClientOrderNumber.

Import JsString JsDate.

(** The payment dialog, [mutationFn]: the temporary number sent with
    the request, [`ORD-${dateString}-${randomNum}`] with
    [randomNum = String(Math.floor(1000 + Math.random() * 9000))]. *)
Definition temporaryOrderNumber (date : Date) (random : Qc) : string :=
  let dateString := Storage.dateString date in
  let randomNum := toString (Qfloor (#1000 + random * #9000)%Qc) in
  "ORD-" +:+ dateString +:+ "-" +:+ randomNum.

(** lib/utils.ts: [orderNumber.startsWith("ORD-") ? orderNumber
    : `ORD-${orderNumber}`] *)
Definition formatOrderNumber (orderNumber : string) : string :=
  if String.prefix "ORD-" orderNumber then orderNumber
  else "ORD-" +:+ orderNumber.

(** lib/utils.ts: [`ORD-${timestamp.toString().substring(0, 10)}`], with
    [timestamp] the milliseconds of [new Date().getTime()]. *)
Definition generateOrderNumber (timestamp : Z) : string :=
  "ORD-" +:+ String.substring 0 10 (toString timestamp).

End ClientOrderNumber.

(** *** storage.ts: lookups by number, deletion, inventory *)

Module MemStorageMore.

Import JsDate Storage.

(** [Array.from(this.orders.values()).find(order =>
      order.orderNumber === orderNumber)] *)
Definition getOrderByNumber (orderNumber : string) (this : MemStorage.t)
    : option Order.t :=
  List.find (λ order, bool_decide (Order.orderNumber order = orderNumber))
            (JsMap.values (MemStorage.orders this)).

End MemStorageMore.

Module DatabaseStorageMore.

Import JsDate Storage.

(** [db.select().from(orders).where(eq(orders.orderNumber, orderNumber))],
    first row. *)
Definition getOrderByNumber (orderNumber : string) (db : DatabaseStorage.t)
    : option Order.t :=
  List.find (λ o, bool_decide (Order.orderNumber o = orderNumber))
            (DatabaseStorage.orders db).

(** [deleteOrder]: the items of the order go first, then the order row;
    the answer is whether a row was deleted. *)
Definition deleteOrder (orderId : Z) (db : DatabaseStorage.t)
    : DatabaseStorage.t * bool :=
  let items' :=
    filter (λ item, OrderItem.orderId item ≠ Some orderId)
           (DatabaseStorage.orderItems db) in
  let orders' :=
    filter (λ o, Order.id o ≠ orderId) (DatabaseStorage.orders db) in
  let rowCount :=
    length (filter (λ o, Order.id o = orderId) (DatabaseStorage.orders db)) in
  ({| DatabaseStorage.orders := orders';
      DatabaseStorage.orderItems := items';
      DatabaseStorage.orders_id_seq := DatabaseStorage.orders_id_seq db;
      DatabaseStorage.order_items_id_seq :=
        DatabaseStorage.order_items_id_seq db;
      DatabaseStorage.services := DatabaseStorage.services db;
      DatabaseStorage.users := DatabaseStorage.users db |},
   bool_decide (0 < rowCount)%nat).

End DatabaseStorageMore.

(** Inventory rows: the columns the stock functions read and write. *)

Module Inventory.
Record t : Type := {
  id : Z;
  name : string;
  currentStock : number;
  lowStockThreshold : number;
  lastRestocked : option JsDate.Date;
}.
End Inventory.

Module MemInventory.

Import JsDate.

(** The fields of [MemStorage] the inventory functions use. *)
Record t : Type := {
  inventoryItems : JsMap.t Inventory.t;
  inventoryCurrentId : Z;
}.

Definition getInventory (id : Z) (this : t) : option Inventory.t :=
  JsMap.get id (inventoryItems this).

(** [createInventory]: [{ ...insertInventory, id, lastRestocked: new Date() }] *)
Definition createInventory (now : Date) (name : string)
    (currentStock lowStockThreshold : number) (this : t) : t * Inventory.t :=
  let id := inventoryCurrentId this in
  let inventory := {|
    Inventory.id := id; Inventory.name := name;
    Inventory.currentStock := currentStock;
    Inventory.lowStockThreshold := lowStockThreshold;
    Inventory.lastRestocked := Some now |} in
  ({| inventoryItems := JsMap.set id inventory (inventoryItems this);
      inventoryCurrentId := id + 1 |}, inventory).

(** [updateInventoryStock]: the quantity is added to the stock;
    [lastRestocked] moves only when the quantity is positive. *)
Definition updateInventoryStock (now : Date) (id : Z) (quantity : number)
    (this : t) : t * option Inventory.t :=
  match JsMap.get id (inventoryItems this) with
  | None => (this, None)
  | Some item =>
    let updatedItem := {|
      Inventory.id := Inventory.id item;
      Inventory.name := Inventory.name item;
      Inventory.currentStock := Inventory.currentStock item +j quantity;
      Inventory.lowStockThreshold := Inventory.lowStockThreshold item;
      Inventory.lastRestocked :=
        if gt quantity (Num 0) then Some now
        else Inventory.lastRestocked item |} in
    ({| inventoryItems := JsMap.set id updatedItem (inventoryItems this);
        inventoryCurrentId := inventoryCurrentId this |},
     Some updatedItem)
  end.

(** [getLowStockItems]: [item.currentStock <= item.lowStockThreshold] *)
Definition getLowStockItems (this : t) : list Inventory.t :=
  filter (λ item, JsNum.le (Inventory.currentStock item)
                           (Inventory.lowStockThreshold item) = true)
         (JsMap.values (inventoryItems this)).

End MemInventory.

Module DatabaseInventory.

Import JsDate.

(** The [inventory] table. *)
Definition t : Type := list Inventory.t.

(** [DatabaseStorage.updateInventoryStock]: the stock is set to the
    quantity, and [last_restocked] to [now], the [new Date()] of this
    call, in every row with the id; the first such row is returned.
    The column is an integer, and so is the quantity; both the id and
    the quantity are taken to fit it. *)
Definition updateInventoryStock (now : Date) (id quantity : Z) (db : t)
    : t * option Inventory.t :=
  match List.find (λ item, bool_decide (Inventory.id item = id)) db with
  | None => (db, None)
  | Some _ =>
    let update item :=
      if bool_decide (Inventory.id item = id) then
        {| Inventory.id := Inventory.id item;
           Inventory.name := Inventory.name item;
           Inventory.currentStock := Num #quantity;
           Inventory.lowStockThreshold := Inventory.lowStockThreshold item;
           Inventory.lastRestocked := Some now |}
      else item in
    let db' := update <$> db in
    (db', List.find (λ item, bool_decide (Inventory.id item = id)) db')
  end.

End DatabaseInventory.

(** One stocked item, held by either storage. *)

Module Stock.

Definition paper : Inventory.t :=
  {| Inventory.id := 1; Inventory.name := "Bond Paper A4";
     Inventory.currentStock := Num #40;
     Inventory.lowStockThreshold := Num #50;
     Inventory.lastRestocked := None |}.

Definition shelf : MemInventory.t :=
  {| MemInventory.inventoryItems := [(1%Z, paper)];
     MemInventory.inventoryCurrentId := 2 |}.

Definition table : DatabaseInventory.t := [paper].

End Stock.

(** *** routes.ts: reading and deleting one order

    [id] is the integer [parseInt(req.params.id)] found. *)

Module RoutesMore.

Import Storage Routes.

Inductive Reply : Type :=
| Ok200 (order : Order.t) (items : list OrderItem.t)
| Deleted200
| NotFound404.

(** [GET /api/orders/:id] *)
Definition getOrderHandler {S : Type} `{!IStorage S} (id : Z) (s : S)
    : Reply :=
  match getOrder id s with
  | None => NotFound404
  | Some order => Ok200 order (getOrderItems (Order.id order) s)
  end.


End RoutesMore.

(** Vocabulary for the further properties. *)

Module MoreTerms.

(** Every line of the cart has a finite amount. *)
Definition priced (c : Cart.t) : Prop :=
  Forall (λ item, ∃ q, Cart.amount item = Num q) (Cart.items c).

(** The sum of finite amounts. *)
Fixpoint sum_amounts (l : list Cart.CartItem) : Qc :=
  match l with
  | [] => 0
  | item :: l' =>
    match Cart.amount item with
    | Num q => q + sum_amounts l'
    | NaN => sum_amounts l'
    end
  end.

(** The tables satisfy their constraints: order numbers and ids are
    unique, ids lie below the sequence, and every item names an order
    and a service that exist. *)
Definition db_wf (db : Storage.DatabaseStorage.t) : Prop :=
  NoDup (Order.orderNumber <$> Storage.DatabaseStorage.orders db)
  ∧ Forall (λ o, (Order.id o < Storage.DatabaseStorage.orders_id_seq db)%Z)
           (Storage.DatabaseStorage.orders db)
  ∧ NoDup (Order.id <$> Storage.DatabaseStorage.orders db)
  ∧ Forall (λ item,
              (∃ orderId, OrderItem.orderId item = Some orderId
                 ∧ orderId ∈ Order.id <$> Storage.DatabaseStorage.orders db)
              ∧ OrderItem.serviceId item
                  ∈ Storage.DatabaseStorage.services db)
           (Storage.DatabaseStorage.orderItems db).

(** The stored item [item] belongs to the order [orderId] and carries
    the service and the quantity of the request item [i]. *)
Definition carries (orderId : Z) (item : OrderItem.t) (i : Routes.RawItem)
    : Prop :=
  OrderItem.orderId item = Some orderId
  ∧ Routes.serviceId i = Some (OrderItem.serviceId item)
  ∧ Routes.quantity i = Some (OrderItem.quantity item).


End MoreTerms.

(** Closed decidable goals: evaluate the decision procedure. *)
Ltac by_decide := apply (bool_decide_unpack _); vm_compute; exact I.

(** Closed goals on rationals: evaluate, then compare the fractions. *)
Ltac qc_eval :=
  vm_compute;
  first [ reflexivity
        | f_equal; apply Qc_is_canon; reflexivity
        | repeat split; first [ reflexivity | f_equal; apply Qc_is_canon; reflexivity ] ].

(** * Properties *)

(** ** Coercion idioms *)

Section coercions.

Import Js.

Lemma safe_number_NaN (d : number) : safe_number NaN d = d.
Proof. reflexivity. Qed.

Lemma safe_number_zero (d : number) : safe_number (Num 0) d = d.
Proof. reflexivity. Qed.

Lemma safe_number_nonzero (q : Qc) (d : number) :
  q ≠ 0 → safe_number (Num q) d = Num q.
Proof.
  intros Hq. unfold safe_number; simpl.
  by rewrite bool_decide_eq_true_2.
Qed.

(** With the default [0] the idiom is the identity on finite numbers. *)
Lemma safe_number_default0 (q : Qc) : safe_number (Num q) (Num 0) = Num q.
Proof.
  destruct (decide (q = 0)) as [->|Hq].
  - reflexivity.
  - by apply safe_number_nonzero.
Qed.

(** With the default [1] a zero becomes one. *)
Lemma safe_number_default1 (q : Qc) :
  safe_number (Num q) (Num 1) = Num (if decide (q = 0) then 1 else q).
Proof.
  destruct (decide (q = 0)) as [->|Hq].
  - reflexivity.
  - by apply safe_number_nonzero.
Qed.

Lemma or_else_default0 (q : Qc) : or_else (Num q) (Num 0) = Num q.
Proof.
  destruct (decide (q = 0)) as [->|Hq].
  - reflexivity.
  - unfold or_else; simpl. by rewrite bool_decide_eq_true_2.
Qed.

End coercions.

(** ** Lookups in rule tables *)

Section lookups.

Import Pricing Terms.

Lemma member_own (table : gmap string Qc) (key : string) (q : Qc) :
  table !! key = Some q → member table key = Num q.
Proof. intros Hq. unfold member. by rewrite Hq. Qed.

Lemma member_absent (table : gmap string Qc) (key : string) :
  table !! key = None → key ∉ Object_prototype →
  member table key = VUndefined.
Proof.
  intros Hnone Hplain. unfold member.
  by rewrite Hnone, bool_decide_eq_false_2.
Qed.

Lemma member_inherited (table : gmap string Qc) (key : string) :
  table !! key = None → key ∈ Object_prototype →
  member table key = VObject.
Proof.
  intros Hnone Hin. unfold member.
  by rewrite Hnone, bool_decide_eq_true_2.
Qed.

(** On a key that is listed or names no inherited member, the lookup
    with its fallback is the table entry or the fallback. *)
Lemma member_or_default (table : gmap string Qc) (key : string) (d : Qc) :
  own_or_absent table key →
  (if decide (member table key = VUndefined) then VNumber (Num d)
   else member table key)
  = Num (default d (table !! key)).
Proof.
  intros [[q Hq]|Hplain].
  - rewrite (member_own _ _ _ Hq), Hq. by rewrite decide_False.
  - destruct (table !! key) as [q|] eqn:Hq.
    + rewrite (member_own _ _ _ Hq). by rewrite decide_False.
    + rewrite (member_absent _ _ Hq Hplain). by rewrite decide_True.
Qed.

Lemma paperTypeRate_plain (r : DocumentRules) (pt : string) :
  own_or_absent (paperTypes r) pt →
  paperTypeRate (Some (of_document r)) pt = inr (VNumber (Num (surcharge r pt))).
Proof.
  intros Hplain. unfold paperTypeRate, surcharge.
  destruct (truthy_str pt); [|done]. simpl.
  by rewrite member_or_default.
Qed.

Lemma sizeMultiplier_plain (r : LaminationRules) (sz : string) :
  own_or_absent (sizes r) sz →
  sizeMultiplier (Some (of_lamination r)) sz
  = inr (VNumber (Num (multiplier r sz))).
Proof.
  intros Hplain. unfold sizeMultiplier, multiplier.
  destruct (truthy_str sz); [|done]. simpl.
  by rewrite member_or_default.
Qed.

(** A name of [Object.prototype] is not empty. *)
Lemma inherited_truthy (key : string) :
  key ∈ Object_prototype → truthy_str key = true.
Proof.
  intros Hin. unfold truthy_str. apply bool_decide_eq_true_2.
  intros ->. revert Hin. apply (bool_decide_unpack _). by vm_compute.
Qed.

(** On an inherited name without an entry the lookup gives the member of
    [Object.prototype]. *)
Lemma paperTypeRate_inherited (r : DocumentRules) (pt : string) :
  paperTypes r !! pt = None → pt ∈ Object_prototype →
  paperTypeRate (Some (of_document r)) pt = inr VObject.
Proof.
  intros Hnone Hin. unfold paperTypeRate.
  rewrite (inherited_truthy _ Hin). simpl.
  by rewrite (member_inherited _ _ Hnone Hin).
Qed.

Lemma sizeMultiplier_inherited (r : LaminationRules) (sz : string) :
  sizes r !! sz = None → sz ∈ Object_prototype →
  sizeMultiplier (Some (of_lamination r)) sz = inr VObject.
Proof.
  intros Hnone Hin. unfold sizeMultiplier.
  rewrite (inherited_truthy _ Hin). simpl.
  by rewrite (member_inherited _ _ Hnone Hin).
Qed.

(** The keys of the default tables are looked up as they should be. *)
Lemma listed_own_or_absent (table : gmap string Qc) (key : string) :
  is_Some (table !! key) → own_or_absent table key.
Proof. by left. Qed.

End lookups.

(** ** Pricing formulas on finite numbers *)

Section pricing_formulas.

Import Pricing Terms.

(** The tarpaulin calculator on finite numbers of any sign. *)
Lemma tarpaulin_finite (r : TarpaulinRules) (w h e : Qc) (rp st : bool) :
  returns
    (calculateTarpaulinPrintingPrice
       (Some (mkTarp (Num w) (Num h) (Num e) rp st)) (tarpRules r))
    (λ res, total res = Num (tarpaulinTotal r w h e rp st)
            ∧ unitPrice res = Num (tarpaulinBase r w h)).
Proof.
  unfold calculateTarpaulinPrintingPrice; simpl.
  rewrite !safe_number_default0. by destruct rp, st.
Qed.

(** The lamination calculator on a finite quantity of any sign. *)
Lemma lamination_finite (r : LaminationRules) (sz : string) (q : Qc) :
  own_or_absent (sizes r) sz →
  returns
    (calculateLaminationPrice (Some (mkLam sz (Num q))) (lamRules r))
    (λ res, total res = Num (laminationUnit r sz * effective q)
            ∧ unitPrice res = Num (laminationUnit r sz)).
Proof.
  intros Hplain. unfold calculateLaminationPrice; simpl.
  rewrite (sizeMultiplier_plain r sz Hplain), safe_number_default1.
  by simpl.
Qed.

(** The auto-detect branch on finite page counts and copies. *)
Lemma document_auto_finite (r : DocumentRules) (ps pt : string)
    (pc : number) (c cp bw : Qc) :
  own_or_absent (paperTypes r) pt →
  returns
    (calculateDocumentPrintingPrice
       (Some (mkDoc ps pt (Num c) "Auto Detect")) (docRules r)
       (Some (mkAnalysis pc (Num cp) (Num bw))))
    (λ res, total res = Num (perCopyTotal r pt cp bw * effective c)
            ∧ unitPrice res
              = VNumber (if decide (0 < cp + bw)
                         then Num (perCopyTotal r pt cp bw / (cp + bw))
                         else Num 0)).
Proof.
  intros Hplain. unfold calculateDocumentPrintingPrice; simpl.
  rewrite (paperTypeRate_plain r pt Hplain).
  rewrite safe_number_default1, !or_else_default0. simpl.
  split; [done|].
  destruct (decide (0 < cp + bw)) as [Hpos|Hnpos].
  - rewrite bool_decide_eq_true_2 by done. unfold divide; simpl.
    destruct (decide (cp + bw = 0)) as [Hz|_]; [|done].
    rewrite Hz in Hpos. by apply Qclt_not_eq in Hpos.
  - by rewrite bool_decide_eq_false_2.
Qed.

(** The branch without page analysis: one page per copy. *)
Lemma document_flat_finite (r : DocumentRules) (ps pt cm : string) (c : Qc)
    (a : option DocumentAnalysis) :
  own_or_absent (paperTypes r) pt →
  cm ≠ "Auto Detect" ∨ a = None →
  returns
    (calculateDocumentPrintingPrice
       (Some (mkDoc ps pt (Num c) cm)) (docRules r) a)
    (λ res, total res = Num (pageRate r pt cm * effective c)
            ∧ unitPrice res = Num (pageRate r pt cm)).
Proof.
  intros Hplain Hflat. unfold calculateDocumentPrintingPrice.
  cbv zeta. cbn [default_parameter docRules mkDoc paperType colorMode copies].
  rewrite (paperTypeRate_plain r pt Hplain), safe_number_default1.
  assert (Hauto : match bool_decide (cm = "Auto Detect"), a with
                  | true, Some _ => False | _, _ => True end).
  { destruct Hflat as [Hne| ->]; [by rewrite bool_decide_eq_false_2|].
    by destruct (bool_decide _). }
  unfold pageRate, baseRate.
  destruct (bool_decide (cm = "Auto Detect")), a as [a'|]; try done;
    repeat case_bool_decide; repeat case_decide; try done; simpl;
    unfold times, effective; simpl; by case_decide.
Qed.

Lemma effective_nonzero (c : Qc) : c ≠ 0 → effective c = c.
Proof. intros Hc. unfold effective. by case_decide. Qed.

(** Whole page counts: a positive total is at least one page. *)
Lemma pages_max (cp bw : Z) :
  (0 ≤ cp)%Z → (0 ≤ bw)%Z → 0 < #cp + #bw → Qcmax (#cp + #bw) 1 = #cp + #bw.
Proof.
  intros Hcp Hbw Hpos. unfold Qcmax.
  rewrite <- Z2Qc_inj_add, <- Z2Qc_inj_0 in Hpos. apply Z2Qc_inj_lt in Hpos.
  case_decide as Hle; [|done].
  rewrite <- Z2Qc_inj_add, <- Z2Qc_inj_1 in Hle. apply Z2Qc_inj_le in Hle.
  rewrite <- Z2Qc_inj_add, <- Z2Qc_inj_1. f_equal. lia.
Qed.

Lemma pages_none (cp bw : Z) :
  (0 ≤ cp)%Z → (0 ≤ bw)%Z → ¬ 0 < #cp + #bw → cp = 0%Z ∧ bw = 0%Z.
Proof.
  intros Hcp Hbw Hnpos.
  rewrite <- Z2Qc_inj_add, <- Z2Qc_inj_0, <- Z2Qc_inj_lt in Hnpos. lia.
Qed.

(** What [returns] says, as an equation. *)
Lemma returns_inv {A : Type} (o : thrown + A) (P : A → Prop) :
  returns o P → ∃ a, o = inr a ∧ P a.
Proof. destruct o as [e|a]; [done|]. intros HP. by exists a. Qed.

End pricing_formulas.

(** ** The pricing claims *)

Section pricing_claims.

Import Pricing Terms.

(** C5.  Document pricing with colour mode "Auto Detect" and a page
    analysis.  For whole, non-negative page counts, a non-zero number of
    copies and a paper type whose lookup finds the table's entry or
    nothing, [total = (colorPages * (colorPageRate + surcharge)
    + bwPages * (blackPageRate + surcharge)) * copies] and
    [unitPrice = perCopyTotal / max(totalPages, 1)]; with rates 2 and 1,
    Glossy at 1, one copy, 4 colour and 6 black-and-white pages the
    total is 24 and the unit price 2.4.  For the paper type
    "constructor", which the default table does not list, the formula
    gives 14 and 1.4 (surcharge 0), but the calculator returns NaN for
    both: the lookup finds [Object.prototype.constructor]. *)
Theorem document_auto_detect_price :
  (∀ (r : DocumentRules) (ps pt : string) (pc : number) (c : Qc) (cp bw : Z),
     c ≠ 0 → (0 ≤ cp)%Z → (0 ≤ bw)%Z → own_or_absent (paperTypes r) pt →
     let perCopy := #cp * (colorPageRate r + surcharge r pt)
                    + #bw * (blackPageRate r + surcharge r pt) in
     returns
       (calculateDocumentPrintingPrice
          (Some (mkDoc ps pt (Num c) "Auto Detect")) (docRules r)
          (Some (mkAnalysis pc (Num #cp) (Num #bw))))
       (λ res, total res = Num (perCopy * c)
               ∧ unitPrice res = Num (perCopy / Qcmax (#cp + #bw) 1)))
  ∧ returns
      (calculateDocumentPrintingPrice
         (Some (mkDoc "A4" "Glossy" (Num #1) "Auto Detect"))
         (docRules {| colorPageRate := #2; blackPageRate := #1;
                      paperTypes := {[ "Glossy" := #1 ]};
                      paperSizes := ∅; colorModes := ∅;
                      doc_basePrice := #0 |})
         (Some (mkAnalysis (Num #10) (Num #4) (Num #6))))
      (λ ex, total ex = Num #24 ∧ unitPrice ex = Num (dec 24 10))
  ∧ (paperTypes defaultPricingRules.document !! "constructor" = None
     ∧ perCopyTotal defaultPricingRules.document "constructor" #4 #6 * #1
       = #14
     ∧ returns
         (calculateDocumentPrintingPrice
            (Some (mkDoc "A4" "constructor" (Num #1) "Auto Detect"))
            (docRules defaultPricingRules.document)
            (Some (mkAnalysis (Num #10) (Num #4) (Num #6))))
         (λ res, total res = NaN ∧ unitPrice res = NaN)).
Proof.
  split; [|split; [|split; [|split]]].
  - intros r ps pt pc c cp bw Hc Hcp Hbw Hplain. cbv zeta.
    pose proof (document_auto_finite r ps pt pc c #cp #bw Hplain) as Hres.
    destruct (calculateDocumentPrintingPrice _ _ _) as [e|res]; [done|].
    simpl in *. destruct Hres as [Ht Hu].
    rewrite Ht, Hu, effective_nonzero by done. split; [done|].
    fold (perCopyTotal r pt #cp #bw).
    case_decide as Hpos.
    + by rewrite pages_max.
    + destruct (pages_none cp bw) as [-> ->]; [done..|].
      do 2 f_equal; unfold perCopyTotal; rewrite ?Z2Qc_inj_0; unfold Qcdiv; ring.
  - vm_compute. split; f_equal; f_equal; apply Qc_is_canon; reflexivity.
  - by vm_compute.
  - vm_compute. apply Qc_is_canon. reflexivity.
  - by vm_compute.
Qed.

Lemma document_auto_detect_price_witness :
  returns
    (calculateDocumentPrintingPrice
       (Some (mkDoc "A4" "Matte" (Num #3) "Auto Detect"))
       (docRules defaultPricingRules.document)
       (Some (mkAnalysis NaN (Num #2) (Num #0))))
    (λ res, total res = Num #21 ∧ unitPrice res = Num (dec 35 10)).
Proof.
  destruct document_auto_detect_price as [Hgen _].
  pose proof (Hgen defaultPricingRules.document "A4" "Matte" NaN #3 2%Z 0%Z)
    as Hres.
  cbv zeta in Hres.
  destruct (calculateDocumentPrintingPrice _ _ _) as [e|res].
  - apply Hres; [by vm_compute | lia | lia | left; by eexists].
  - simpl in *. destruct Hres as [Ht Hu];
      [by vm_compute | lia | lia | left; by eexists |].
    rewrite Ht, Hu. split; f_equal; f_equal; apply Qc_is_canon; reflexivity.
Defined.

(** C6.  Tarpaulin pricing: [total = width * height * basePrice
    + eyelets * eyeletPrice + (rope ? ropePrice : 0)
    + (stand ? standPrice : 0)] and the unit price is the dimensional
    base cost alone; a 3 by 4 tarpaulin with 6 eyelets and a rope costs
    410 under the default rules (25 per square foot, 10 per eyelet,
    rope 50, stand 200). *)
Theorem tarpaulin_price (r : TarpaulinRules) (w h e : Qc) (rp st : bool) :
  returns
    (calculateTarpaulinPrintingPrice
       (Some (mkTarp (Num w) (Num h) (Num e) rp st)) (tarpRules r))
    (λ res,
       total res = Num (w * h * tarp_basePrice r + e * tarp_eyelets r
                        + (if rp then tarp_rope r else 0)
                        + (if st then tarp_stand r else 0))
       ∧ unitPrice res = Num (w * h * tarp_basePrice r))
  ∧ returns
      (calculateTarpaulinPrintingPrice
         (Some (mkTarp (Num #3) (Num #4) (Num #6) true false))
         (tarpRules {| tarp_basePrice := #25; tarp_eyelets := #10;
                       tarp_rope := #50; tarp_stand := #200 |}))
      (λ res, total res = Num #410).
Proof.
  split; [apply tarpaulin_finite|].
  vm_compute. f_equal; f_equal; apply Qc_is_canon; reflexivity.
Qed.

(** A missing paper type prices like an explicit zero surcharge. *)
Lemma paperTypeRate_neutral (r : DocumentRules) (pt : string) :
  paperTypes r !! pt = None → pt ∉ Object_prototype →
  paperTypeRate
    (Some (of_document (with_paperTypes r (<[pt := 0]> (paperTypes r))))) pt
  = paperTypeRate (Some (of_document r)) pt.
Proof.
  intros Hmiss Hplain.
  rewrite !paperTypeRate_plain by (by right).
  unfold surcharge; simpl. rewrite lookup_insert_eq, Hmiss.
  by destruct (truthy_str pt).
Qed.

(** A missing lamination size prices like an explicit multiplier 1. *)
Lemma sizeMultiplier_neutral (r : LaminationRules) (sz : string) :
  sizes r !! sz = None → sz ∉ Object_prototype →
  sizeMultiplier
    (Some (of_lamination (with_sizes r (<[sz := 1]> (sizes r))))) sz
  = sizeMultiplier (Some (of_lamination r)) sz.
Proof.
  intros Hmiss Hplain.
  rewrite !sizeMultiplier_plain by (by right).
  unfold multiplier; simpl. rewrite lookup_insert_eq, Hmiss.
  by destruct (truthy_str sz).
Qed.

(** With a typed rule set the calculators return. *)
Lemma document_returns (r : DocumentRules) (p : DocumentPrintingParams)
    (a : option DocumentAnalysis) :
  returns (calculateDocumentPrintingPrice (Some p) (docRules r) a)
          (λ _, True).
Proof.
  unfold calculateDocumentPrintingPrice, paperTypeRate; simpl.
  destruct (truthy_str (paperType p)); simpl;
    destruct (bool_decide (colorMode p = "Auto Detect")), a; simpl;
    try done; repeat case_bool_decide; done.
Qed.

Lemma lamination_returns (r : LaminationRules) (p : LaminationParams) :
  returns (calculateLaminationPrice (Some p) (lamRules r)) (λ _, True).
Proof.
  unfold calculateLaminationPrice, sizeMultiplier; simpl.
  by destruct (truthy_str (size p)).
Qed.

(** C7.  Neutral defaults.  When the paper type of a document
    specification has no entry in [rules.paperTypes] and names no member
    of [Object.prototype], the calculator returns the same result
    (total, unit price and breakdown) as under the rule set with that
    key set to 0, and it returns without error; likewise for a
    lamination size without entry in [rules.sizes] and the key set
    to 1.  For a key that names such a member the claim fails: under the
    default rules the paper type "constructor", which has no entry,
    gives a NaN total (and a string as unit price) where the key set to
    0 gives 4, and the lamination size "toString" gives NaN where the
    key set to 1 gives 50. *)
Theorem missing_key_is_neutral :
  (∀ (r : DocumentRules) (p : DocumentPrintingParams)
     (a : option DocumentAnalysis),
     paperTypes r !! paperType p = None →
     paperType p ∉ Object_prototype →
     calculateDocumentPrintingPrice (Some p) (docRules r) a
     = calculateDocumentPrintingPrice (Some p)
         (docRules (with_paperTypes r (<[paperType p := 0]> (paperTypes r))))
         a
     ∧ returns (calculateDocumentPrintingPrice (Some p) (docRules r) a)
               (λ _, True))
  ∧ (∀ (r : LaminationRules) (p : LaminationParams),
       sizes r !! size p = None →
       size p ∉ Object_prototype →
       calculateLaminationPrice (Some p) (lamRules r)
       = calculateLaminationPrice (Some p)
           (lamRules (with_sizes r (<[size p := 1]> (sizes r))))
       ∧ returns (calculateLaminationPrice (Some p) (lamRules r))
                 (λ _, True))
  ∧ (paperTypes defaultPricingRules.document !! "constructor" = None
     ∧ returns
         (calculateDocumentPrintingPrice
            (Some (mkDoc "A4" "constructor" (Num #2) "Color"))
            (docRules defaultPricingRules.document) None)
         (λ res, total res = NaN ∧ unitPrice res = VString)
     ∧ returns
         (calculateDocumentPrintingPrice
            (Some (mkDoc "A4" "constructor" (Num #2) "Color"))
            (docRules (with_paperTypes defaultPricingRules.document
                         (<["constructor" := 0]>
                            (paperTypes defaultPricingRules.document))))
            None)
         (λ res, total res = Num #4 ∧ unitPrice res = Num #2))
  ∧ (sizes defaultPricingRules.lamination !! "toString" = None
     ∧ returns
         (calculateLaminationPrice (Some (mkLam "toString" (Num #2)))
            (lamRules defaultPricingRules.lamination))
         (λ res, total res = NaN ∧ unitPrice res = NaN)
     ∧ returns
         (calculateLaminationPrice (Some (mkLam "toString" (Num #2)))
            (lamRules (with_sizes defaultPricingRules.lamination
                         (<["toString" := 1]>
                            (sizes defaultPricingRules.lamination)))))
         (λ res, total res = Num #50 ∧ unitPrice res = Num #25)).
Proof.
  split; [|split; [|split]].
  - intros r p a Hmiss Hplain. split; [|apply document_returns].
    unfold calculateDocumentPrintingPrice.
    cbv zeta. cbn [default_parameter docRules].
    rewrite (paperTypeRate_neutral r _ Hmiss Hplain). reflexivity.
  - intros r p Hmiss Hplain. split; [|apply lamination_returns].
    unfold calculateLaminationPrice.
    cbv zeta. cbn [default_parameter lamRules].
    rewrite (sizeMultiplier_neutral r _ Hmiss Hplain). reflexivity.
  - split; [by vm_compute|]. split; [by vm_compute|].
    vm_compute. split; f_equal; f_equal; apply Qc_is_canon; reflexivity.
  - split; [by vm_compute|]. split; [by vm_compute|].
    vm_compute. split; f_equal; f_equal; apply Qc_is_canon; reflexivity.
Qed.

Lemma missing_key_is_neutral_witness :
  calculateDocumentPrintingPrice
    (Some (mkDoc "A4" "Recycled" (Num #2) "Color"))
    (docRules defaultPricingRules.document) None
  = calculateDocumentPrintingPrice
      (Some (mkDoc "A4" "Recycled" (Num #2) "Color"))
      (docRules (with_paperTypes defaultPricingRules.document
                   (<["Recycled" := 0]>
                      (paperTypes defaultPricingRules.document)))) None
  ∧ calculateLaminationPrice (Some (mkLam "A3" (Num #4)))
      (lamRules defaultPricingRules.lamination)
    = calculateLaminationPrice (Some (mkLam "A3" (Num #4)))
        (lamRules (with_sizes defaultPricingRules.lamination
                     (<["A3" := 1]>
                        (sizes defaultPricingRules.lamination)))).
Proof.
  destruct missing_key_is_neutral as (Hdoc & Hlam & _). split.
  - apply (Hdoc defaultPricingRules.document
             (mkDoc "A4" "Recycled" (Num #2) "Color") None);
      [by vm_compute | by_decide].
  - apply (Hlam defaultPricingRules.lamination (mkLam "A3" (Num #4)));
      [by vm_compute | by_decide].
Defined.

(** A rule set can make the calculators throw.  With the rule set
    [null], and with the rule set [{}] when a paper type or a size is
    named, the calculators raise a TypeError; the tarpaulin calculator
    returns NaN prices on [{}]. *)
Lemma rules_make_calculators_throw :
  calculateLaminationPrice (Some (mkLam "A4" (Num #2)))
    (Object no_lamination_rules) = inl TypeError
  ∧ calculateDocumentPrintingPrice
      (Some (mkDoc "A4" "Glossy" (Num #1) "Color"))
      (Object no_document_rules) None = inl TypeError
  ∧ calculateDocumentPrintingPrice
      (Some (mkDoc "A4" "Glossy" (Num #1) "Color")) Null None
    = inl TypeError
  ∧ calculateTarpaulinPrintingPrice
      (Some (mkTarp (Num #3) (Num #4) (Num #0) false false)) Null
    = inl TypeError
  ∧ calculateLaminationPrice (Some (mkLam "" (Num #2))) Null
    = inl TypeError
  ∧ returns
      (calculateTarpaulinPrintingPrice
         (Some (mkTarp (Num #3) (Num #4) (Num #0) false false))
         (Object no_tarpaulin_rules))
      (λ res, total res = NaN ∧ unitPrice res = NaN).
Proof. repeat split. Qed.

Lemma document_throws_iff (p : DocumentPrintingParams)
    (rules : arg DocumentObject.t) (a : option DocumentAnalysis) :
  calculateDocumentPrintingPrice (Some p) rules a = inl TypeError
  ↔ document_throws p rules.
Proof.
  unfold calculateDocumentPrintingPrice, paperTypeRate, truthy_str.
  destruct rules as [| |o]; simpl.
  - case_bool_decide; simpl;
      destruct (bool_decide (colorMode p = "Auto Detect")), a; simpl;
      repeat case_bool_decide; done.
  - case_bool_decide; simpl; [done|].
    destruct (bool_decide (colorMode p = "Auto Detect")), a; simpl;
      repeat case_bool_decide; done.
  - case_bool_decide as Hpt; simpl.
    + destruct (DocumentObject.paperTypes o) as [table|]; simpl.
      * split; [|by intros [_ ?]].
        destruct (bool_decide (colorMode p = "Auto Detect")), a; simpl;
          repeat case_bool_decide; done.
      * done.
    + split; [|by intros [? _]].
      destruct (bool_decide (colorMode p = "Auto Detect")), a; simpl;
        repeat case_bool_decide; done.
Qed.

Lemma tarpaulin_throws_iff (p : TarpaulinPrintingParams)
    (rules : arg TarpaulinObject.t) :
  calculateTarpaulinPrintingPrice (Some p) rules = inl TypeError
  ↔ tarpaulin_throws rules.
Proof.
  unfold calculateTarpaulinPrintingPrice.
  destruct rules as [| |o]; simpl; destruct (rope p), (stand p); done.
Qed.

Lemma lamination_throws_iff (p : LaminationParams)
    (rules : arg LaminationObject.t) :
  calculateLaminationPrice (Some p) rules = inl TypeError
  ↔ lamination_throws p rules.
Proof.
  unfold calculateLaminationPrice, sizeMultiplier, truthy_str.
  destruct rules as [| |o]; simpl.
  - by case_bool_decide.
  - by case_bool_decide.
  - case_bool_decide as Hsz; simpl.
    + destruct (LaminationObject.sizes o) as [table|]; simpl; [|done].
      split; [done | by intros [_ ?]].
    + split; [done | by intros [? _]].
Qed.

(** C10, as the code has it.  A null or undefined [params] gives
    [{ unitPrice: 0, total: 0, breakdown: {} }] from each of the three
    calculators, whatever the other arguments; a NaN [copies] or
    [quantity] gives the outcome of the value 1, and a NaN [width],
    [height] or [eyelets] the outcome of the value 0.  With [params]
    present a calculator throws, and then a TypeError, exactly when the
    rule set is [null] or, for documents and lamination, when a paper
    type or size is named and the rule set lacks the table; so with the
    rule set omitted or typed as pricing.ts types it, no [params] makes
    a calculator raise. *)
Theorem calculators_total_on_malformed_input :
  (∀ r a, calculateDocumentPrintingPrice None r a = inr zero_result)
  ∧ (∀ r, calculateTarpaulinPrintingPrice None r = inr zero_result)
  ∧ (∀ r, calculateLaminationPrice None r = inr zero_result)
  ∧ zero_result = {| unitPrice := Num 0; total := Num 0; breakdown := [] |}
  ∧ (∀ ps pt cm r a,
       calculateDocumentPrintingPrice (Some (mkDoc ps pt NaN cm)) r a
       = calculateDocumentPrintingPrice (Some (mkDoc ps pt (Num 1) cm)) r a)
  ∧ (∀ sz r,
       calculateLaminationPrice (Some (mkLam sz NaN)) r
       = calculateLaminationPrice (Some (mkLam sz (Num 1))) r)
  ∧ (∀ h e rp st r,
       calculateTarpaulinPrintingPrice (Some (mkTarp NaN h e rp st)) r
       = calculateTarpaulinPrintingPrice (Some (mkTarp (Num 0) h e rp st)) r)
  ∧ (∀ w e rp st r,
       calculateTarpaulinPrintingPrice (Some (mkTarp w NaN e rp st)) r
       = calculateTarpaulinPrintingPrice (Some (mkTarp w (Num 0) e rp st)) r)
  ∧ (∀ w h rp st r,
       calculateTarpaulinPrintingPrice (Some (mkTarp w h NaN rp st)) r
       = calculateTarpaulinPrintingPrice (Some (mkTarp w h (Num 0) rp st)) r)
  ∧ (∀ p rules a,
       calculateDocumentPrintingPrice (Some p) rules a = inl TypeError
       ↔ document_throws p rules)
  ∧ (∀ p rules,
       calculateTarpaulinPrintingPrice (Some p) rules = inl TypeError
       ↔ tarpaulin_throws rules)
  ∧ (∀ p rules,
       calculateLaminationPrice (Some p) rules = inl TypeError
       ↔ lamination_throws p rules)
  ∧ (∀ p a (r : DocumentRules),
       returns (calculateDocumentPrintingPrice p Undefined a) (λ _, True)
       ∧ returns (calculateDocumentPrintingPrice p (docRules r) a)
                 (λ _, True))
  ∧ (∀ p (r : TarpaulinRules),
       returns (calculateTarpaulinPrintingPrice p Undefined) (λ _, True)
       ∧ returns (calculateTarpaulinPrintingPrice p (tarpRules r))
                 (λ _, True))
  ∧ (∀ p (r : LaminationRules),
       returns (calculateLaminationPrice p Undefined) (λ _, True)
       ∧ returns (calculateLaminationPrice p (lamRules r)) (λ _, True)).
Proof.
  assert (Hnot : ∀ (A : Type) (o : thrown + A),
            o ≠ inl TypeError → returns o (λ _, True)).
  { intros A [[]|a] Ho; done. }
  do 9 (split; [reflexivity|]).
  split; [apply document_throws_iff|].
  split; [apply tarpaulin_throws_iff|].
  split; [apply lamination_throws_iff|].
  split; [|split].
  - intros [p|] a r; [|done]. split; apply Hnot; intros Hthrow;
      apply document_throws_iff in Hthrow; [done|].
    simpl in Hthrow. by destruct Hthrow as [_ ?].
  - intros [p|] r; [|done]. split; apply Hnot; intros Hthrow;
      by apply tarpaulin_throws_iff in Hthrow.
  - intros [p|] r; [|done]. split; apply Hnot; intros Hthrow;
      apply lamination_throws_iff in Hthrow; [done|].
    simpl in Hthrow. by destruct Hthrow as [_ ?].
Qed.

(** The calculators have no error outcome for a specification: a
    non-positive dimension or count is priced like any other number.
    Default rules: a -3 by 4 tarpaulin costs -300; one with -2 eyelets
    has -20 of eyelet cost; 0 copies and 0 pieces are priced as one;
    -2 copies are priced as -2. *)
Lemma nonpositive_values_are_priced :
  calculateTarpaulinPrintingPrice
    (Some (mkTarp (Num (- #3)) (Num #4) (Num #0) false false)) Undefined
  = inr {| unitPrice := Num (- #300); total := Num (- #300);
           breakdown :=
             [("dimensions", BDimensions (Num (- #3)) (Num #4));
              ("area", BVal (Num (- #12)));
              ("baseCost", BVal (Num (- #300)));
              ("eyeletCost", BVal (Num #0));
              ("eyelets", BVal (Num #0));
              ("ropeCost", BVal (Num #0));
              ("standCost", BVal (Num #0))] |}
  ∧ returns
      (calculateTarpaulinPrintingPrice
         (Some (mkTarp (Num #3) (Num #4) (Num (- #2)) false false))
         Undefined)
      (λ res, total res = Num #280)
  ∧ returns
      (calculateDocumentPrintingPrice
         (Some (mkDoc "A4" "Standard" (Num #0) "Color")) Undefined None)
      (λ res, total res = Num #2)
  ∧ returns
      (calculateDocumentPrintingPrice
         (Some (mkDoc "A4" "Standard" (Num (- #2)) "Color")) Undefined None)
      (λ res, total res = Num (- #4))
  ∧ returns
      (calculateLaminationPrice (Some (mkLam "ID Size" (Num #0))) Undefined)
      (λ res, total res = Num #25).
Proof.
  repeat split; vm_compute;
    repeat (f_equal; try (apply Qc_is_canon; reflexivity)).
Qed.

(** C4, as the code has it.  For every tarpaulin specification with a
    width or height that is not positive or with a negative eyelet
    count, and for every document or lamination specification with a
    non-positive number of copies or quantity, the calculator returns a
    price and no error: the tarpaulin total and unit price follow the
    usual formula on the values as given, and, for a paper type or size
    whose lookup finds the table's entry or nothing, the document and
    lamination totals are the per-copy (per-piece) price times the
    count, where a count of 0 is read as 1. *)
Theorem invalid_specification_is_priced :
  (∀ (r : TarpaulinRules) (w h e : Qc) (rp st : bool),
     w ≤ 0 ∨ h ≤ 0 ∨ e < 0 →
     returns
       (calculateTarpaulinPrintingPrice
          (Some (mkTarp (Num w) (Num h) (Num e) rp st)) (tarpRules r))
       (λ res,
          total res = Num (w * h * tarp_basePrice r + e * tarp_eyelets r
                           + (if rp then tarp_rope r else 0)
                           + (if st then tarp_stand r else 0))
          ∧ unitPrice res = Num (w * h * tarp_basePrice r)))
  ∧ (∀ (r : DocumentRules) (ps pt cm : string) (c : Qc)
       (a : option DocumentAnalysis),
       c ≤ 0 → cm ≠ "Auto Detect" ∨ a = None →
       own_or_absent (paperTypes r) pt →
       returns
         (calculateDocumentPrintingPrice
            (Some (mkDoc ps pt (Num c) cm)) (docRules r) a)
         (λ res, total res
                 = Num (pageRate r pt cm * (if decide (c = 0) then 1 else c))))
  ∧ (∀ (r : DocumentRules) (ps pt : string) (pc : number) (c cp bw : Qc),
       c ≤ 0 → own_or_absent (paperTypes r) pt →
       returns
         (calculateDocumentPrintingPrice
            (Some (mkDoc ps pt (Num c) "Auto Detect")) (docRules r)
            (Some (mkAnalysis pc (Num cp) (Num bw))))
         (λ res, total res
                 = Num (perCopyTotal r pt cp bw
                        * (if decide (c = 0) then 1 else c))))
  ∧ (∀ (r : LaminationRules) (sz : string) (q : Qc),
       q ≤ 0 → own_or_absent (sizes r) sz →
       returns
         (calculateLaminationPrice (Some (mkLam sz (Num q))) (lamRules r))
         (λ res, total res
                 = Num (lam_basePrice r * multiplier r sz
                        * (if decide (q = 0) then 1 else q))))
  ∧ (∀ (r : DocumentRules) (p : DocumentPrintingParams)
       (a : option DocumentAnalysis),
       returns (calculateDocumentPrintingPrice (Some p) (docRules r) a)
               (λ _, True))
  ∧ (∀ (r : LaminationRules) (p : LaminationParams),
       returns (calculateLaminationPrice (Some p) (lamRules r)) (λ _, True)).
Proof.
  split; [|split; [|split; [|split; [|split]]]].
  - intros r w h e rp st _. apply tarpaulin_finite.
  - intros r ps pt cm c a _ Hflat Hplain.
    pose proof (document_flat_finite r ps pt cm c a Hplain Hflat) as Hres.
    destruct (calculateDocumentPrintingPrice _ _ _); [done|]. apply Hres.
  - intros r ps pt pc c cp bw _ Hplain.
    pose proof (document_auto_finite r ps pt pc c cp bw Hplain) as Hres.
    destruct (calculateDocumentPrintingPrice _ _ _); [done|]. apply Hres.
  - intros r sz q _ Hplain.
    pose proof (lamination_finite r sz q Hplain) as Hres.
    destruct (calculateLaminationPrice _ _); [done|]. apply Hres.
  - apply document_returns.
  - apply lamination_returns.
Qed.

Lemma invalid_specification_is_priced_witness :
  returns
    (calculateTarpaulinPrintingPrice
       (Some (mkTarp (Num (- #3)) (Num #4) (Num (- #1)) true false))
       (tarpRules defaultPricingRules.tarpaulin))
    (λ res, total res = Num (- #260))
  ∧ returns
      (calculateDocumentPrintingPrice
         (Some (mkDoc "A4" "Glossy" (Num #0) "Color"))
         (docRules defaultPricingRules.document) None)
      (λ res, total res = Num #3)
  ∧ returns
      (calculateDocumentPrintingPrice
         (Some (mkDoc "A4" "Glossy" (Num (- #1)) "Auto Detect"))
         (docRules defaultPricingRules.document)
         (Some (mkAnalysis NaN (Num #4) (Num #6))))
      (λ res, total res = Num (- #24))
  ∧ returns
      (calculateLaminationPrice (Some (mkLam "A4" (Num #0)))
         (lamRules defaultPricingRules.lamination))
      (λ res, total res = Num (dec 625 10)).
Proof.
  destruct invalid_specification_is_priced
    as (Htarp & Hflat & Hauto & Hlam & _).
  split; [|split; [|split]].
  - pose proof (Htarp defaultPricingRules.tarpaulin (- #3) #4 (- #1)
                  true false) as Hres.
    destruct (calculateTarpaulinPrintingPrice _ _) as [e|res].
    + apply Hres. left. by vm_compute.
    + simpl in *. destruct Hres as [Ht _]; [left; by vm_compute|].
      rewrite Ht. f_equal; f_equal; apply Qc_is_canon; reflexivity.
  - pose proof (Hflat defaultPricingRules.document "A4" "Glossy" "Color"
                  #0 None) as Hres.
    destruct (calculateDocumentPrintingPrice _ _ _) as [e|res].
    + apply Hres; [by vm_compute | by right | left; by eexists].
    + simpl in *. rewrite Hres;
        [| by vm_compute | by right | left; by eexists].
      f_equal; f_equal; apply Qc_is_canon; reflexivity.
  - pose proof (Hauto defaultPricingRules.document "A4" "Glossy" NaN
                  (- #1) #4 #6) as Hres.
    destruct (calculateDocumentPrintingPrice _ _ _) as [e|res].
    + apply Hres; [by vm_compute | left; by eexists].
    + simpl in *. rewrite Hres; [| by vm_compute | left; by eexists].
      f_equal; f_equal; apply Qc_is_canon; reflexivity.
  - pose proof (Hlam defaultPricingRules.lamination "A4" #0) as Hres.
    destruct (calculateLaminationPrice _ _) as [e|res].
    + apply Hres; [by vm_compute | left; by eexists].
    + simpl in *. rewrite Hres; [| by vm_compute | left; by eexists].
      f_equal; f_equal; apply Qc_is_canon; reflexivity.
Defined.

End pricing_claims.

(** ** Monotonicity of the totals *)

Section monotonicity.

Import Pricing Terms.

Lemma surcharge_nonneg (r : DocumentRules) (pt : string) :
  nonneg_document r → 0 ≤ surcharge r pt.
Proof.
  intros (_ & _ & Htab). unfold surcharge.
  destruct (truthy_str pt); [|done].
  destruct (paperTypes r !! pt) as [v|] eqn:Hv; [|done].
  exact (Htab pt v Hv).
Qed.

Lemma multiplier_nonneg (r : LaminationRules) (sz : string) :
  nonneg_lamination r → 0 ≤ multiplier r sz.
Proof.
  intros (_ & Htab). unfold multiplier.
  destruct (truthy_str sz); [|done].
  destruct (sizes r !! sz) as [v|] eqn:Hv; [|done].
  exact (Htab sz v Hv).
Qed.

Lemma half_nonneg (x : Qc) : 0 ≤ x → 0 ≤ x / #2.
Proof.
  intros Hx. unfold Qcdiv. apply Qcmult_nonneg_nonneg; [done|].
  by vm_compute.
Qed.

Lemma pageRate_nonneg (r : DocumentRules) (pt cm : string) :
  nonneg_document r → 0 ≤ pageRate r pt cm.
Proof.
  intros Hr. pose proof (surcharge_nonneg r pt Hr) as Hs.
  destruct Hr as (Hc & Hb & _). unfold pageRate, baseRate.
  apply Qcplus_nonneg_nonneg; [|done].
  repeat case_decide; [done..|].
  by apply half_nonneg, Qcplus_nonneg_nonneg.
Qed.

Lemma perCopyTotal_nonneg (r : DocumentRules) (pt : string) (cp bw : Qc) :
  nonneg_document r → 0 ≤ cp → 0 ≤ bw → 0 ≤ perCopyTotal r pt cp bw.
Proof.
  intros Hr Hcp Hbw. pose proof (surcharge_nonneg r pt Hr) as Hs.
  destruct Hr as (Hc & Hb & _). unfold perCopyTotal.
  apply Qcplus_nonneg_nonneg;
    apply Qcmult_nonneg_nonneg; try done; by apply Qcplus_nonneg_nonneg.
Qed.

Lemma addon_mono (p : Qc) (b1 b2 : bool) :
  0 ≤ p → (b1 = true → b2 = true) →
  (if b1 then p else 0) ≤ (if b2 then p else 0).
Proof.
  intros Hp Himp. destruct b1, b2; try done.
  by specialize (Himp eq_refl).
Qed.

(** Two calls that return: a property of the two results. *)
Lemma returns_both {A : Type} (o1 o2 : thrown + A) (P1 P2 : A → Prop)
    (Q : A → A → Prop) :
  returns o1 P1 → returns o2 P2 →
  (∀ a1 a2, P1 a1 → P2 a2 → Q a1 a2) →
  returns o1 (λ a1, returns o2 (λ a2, Q a1 a2)).
Proof. destruct o1, o2; simpl; try done. auto. Qed.

(** More eyelets, a rope or a stand never lower the tarpaulin total when
    the add-on prices are not negative. *)
Lemma tarpaulin_monotone (r : TarpaulinRules) (w h e1 e2 : Qc)
    (rp1 rp2 st1 st2 : bool) :
  nonneg_tarpaulin r → e1 ≤ e2 →
  (rp1 = true → rp2 = true) → (st1 = true → st2 = true) →
  returns
    (calculateTarpaulinPrintingPrice
       (Some (mkTarp (Num w) (Num h) (Num e1) rp1 st1)) (tarpRules r))
    (λ res1,
       returns
         (calculateTarpaulinPrintingPrice
            (Some (mkTarp (Num w) (Num h) (Num e2) rp2 st2)) (tarpRules r))
         (λ res2, le_num (total res1) (total res2))).
Proof.
  intros (He & Hrp & Hst) Hle Hrope Hstand.
  eapply returns_both; [apply tarpaulin_finite..|].
  intros res1 res2 [-> _] [-> _].
  unfold le_num, tarpaulinTotal.
  repeat apply Qcplus_le_compat; try by apply addon_mono.
  - done.
  - by apply Qcmult_le_mono_nonneg_r.
Qed.

(** More copies never lower the document total when the rates are not
    negative. *)
Lemma document_monotone (r : DocumentRules) (ps pt cm : string)
    (a : option DocumentAnalysis) (c1 c2 : Qc) :
  nonneg_document r → counts_pages a → own_or_absent (paperTypes r) pt →
  0 < c1 → c1 ≤ c2 →
  returns
    (calculateDocumentPrintingPrice
       (Some (mkDoc ps pt (Num c1) cm)) (docRules r) a)
    (λ res1,
       returns
         (calculateDocumentPrintingPrice
            (Some (mkDoc ps pt (Num c2) cm)) (docRules r) a)
         (λ res2, le_num (total res1) (total res2))).
Proof.
  intros Hr Ha Hplain Hc1 Hle.
  assert (Hc2 : 0 < c2) by (by apply Qclt_le_trans with c1).
  assert (Hn1 : c1 ≠ 0) by (by apply not_symmetry, Qclt_not_eq).
  assert (Hn2 : c2 ≠ 0) by (by apply not_symmetry, Qclt_not_eq).
  destruct (decide (cm = "Auto Detect")) as [->|Hcm]; [destruct a as [a|]|].
  - destruct a as [pc cpn bwn]. destruct Ha as (cp & bw & Hcp & Hbw & ? & ?).
    simpl in Hcp, Hbw. subst cpn bwn. fold (mkAnalysis pc (Num cp) (Num bw)).
    eapply returns_both; [by apply document_auto_finite..|].
    intros res1 res2 [-> _] [-> _].
    rewrite !effective_nonzero by done. unfold le_num.
    apply Qcmult_le_mono_nonneg_l; [by apply perCopyTotal_nonneg | done].
  - eapply returns_both;
      [apply document_flat_finite; [done | by right]..|].
    intros res1 res2 [-> _] [-> _].
    rewrite !effective_nonzero by done. unfold le_num.
    apply Qcmult_le_mono_nonneg_l; [by apply pageRate_nonneg | done].
  - eapply returns_both;
      [apply document_flat_finite; [done | by left]..|].
    intros res1 res2 [-> _] [-> _].
    rewrite !effective_nonzero by done. unfold le_num.
    apply Qcmult_le_mono_nonneg_l; [by apply pageRate_nonneg | done].
Qed.

(** A larger quantity never lowers the lamination total when base price
    and multipliers are not negative. *)
Lemma lamination_monotone (r : LaminationRules) (sz : string) (q1 q2 : Qc) :
  nonneg_lamination r → own_or_absent (sizes r) sz → 0 < q1 → q1 ≤ q2 →
  returns
    (calculateLaminationPrice (Some (mkLam sz (Num q1))) (lamRules r))
    (λ res1,
       returns
         (calculateLaminationPrice (Some (mkLam sz (Num q2))) (lamRules r))
         (λ res2, le_num (total res1) (total res2))).
Proof.
  intros Hr Hplain Hq1 Hle.
  assert (Hq2 : 0 < q2) by (by apply Qclt_le_trans with q1).
  eapply returns_both; [by apply lamination_finite..|].
  intros res1 res2 [-> _] [-> _].
  rewrite !effective_nonzero by (by apply not_symmetry, Qclt_not_eq).
  unfold le_num, laminationUnit.
  apply Qcmult_le_mono_nonneg_l; [|done].
  apply Qcmult_nonneg_nonneg; [by destruct Hr | by apply multiplier_nonneg].
Qed.

Lemma standard_monotone (basePrice q1 q2 : Qc) :
  0 ≤ basePrice → q1 ≤ q2 →
  le_num (standardTotal basePrice (Num q1)) (standardTotal basePrice (Num q2)).
Proof.
  intros Hb Hle. unfold standardTotal, le_num; simpl.
  by apply Qcmult_le_mono_nonneg_l.
Qed.

(** Under a rule set with a negative entry the totals can fall: with a
    rope priced at -50 adding the rope lowers a 3 by 4 tarpaulin from
    300 to 250, with eyelets priced at -10 six eyelets lower it to 240,
    and with a lamination base price of -25 two pieces cost -50, less
    than the -25 of one piece. *)
Lemma negative_rates_lower_totals :
  let r := {| tarp_basePrice := #25; tarp_eyelets := - #10;
              tarp_rope := - #50; tarp_stand := #200 |} in
  let l := {| sizes := ∅; lam_basePrice := - #25 |} in
  returns
    (calculateTarpaulinPrintingPrice
       (Some (mkTarp (Num #3) (Num #4) (Num #0) false false)) (tarpRules r))
    (λ res, total res = Num #300)
  ∧ returns
      (calculateTarpaulinPrintingPrice
         (Some (mkTarp (Num #3) (Num #4) (Num #0) true false)) (tarpRules r))
      (λ res, total res = Num #250)
  ∧ returns
      (calculateTarpaulinPrintingPrice
         (Some (mkTarp (Num #3) (Num #4) (Num #6) false false)) (tarpRules r))
      (λ res, total res = Num #240)
  ∧ returns
      (calculateLaminationPrice (Some (mkLam "A4" (Num #1))) (lamRules l))
      (λ res, total res = Num (- #25))
  ∧ returns
      (calculateLaminationPrice (Some (mkLam "A4" (Num #2))) (lamRules l))
      (λ res, total res = Num (- #50))
  ∧ ¬ le_num (Num #300) (Num #250)
  ∧ ¬ le_num (Num #300) (Num #240)
  ∧ ¬ le_num (Num (- #25)) (Num (- #50)).
Proof.
  cbv zeta.
  repeat split;
    try (vm_compute; f_equal; f_equal; apply Qc_is_canon; reflexivity);
    by vm_compute.
Qed.

(** C8, as the code has it.  Under a rule set whose rates, add-on
    prices, surcharges and multipliers are not negative: raising the
    eyelet count, or switching rope or stand on, never lowers the
    tarpaulin total; for a paper type or size whose lookup finds the
    table's entry or nothing, raising the positive number of copies
    never lowers the document total (with or without a page analysis
    that counts pages) and raising the positive quantity never lowers
    the lamination total; and raising the quantity never lowers the
    total of a standard service. *)
Theorem totals_monotone_under_nonnegative_rules :
  (∀ (r : TarpaulinRules) (w h e1 e2 : Qc) (rp1 rp2 st1 st2 : bool),
     nonneg_tarpaulin r → e1 ≤ e2 →
     (rp1 = true → rp2 = true) → (st1 = true → st2 = true) →
     returns
       (calculateTarpaulinPrintingPrice
          (Some (mkTarp (Num w) (Num h) (Num e1) rp1 st1)) (tarpRules r))
       (λ res1,
          returns
            (calculateTarpaulinPrintingPrice
               (Some (mkTarp (Num w) (Num h) (Num e2) rp2 st2))
               (tarpRules r))
            (λ res2, le_num (total res1) (total res2))))
  ∧ (∀ (r : DocumentRules) (ps pt cm : string)
       (a : option DocumentAnalysis) (c1 c2 : Qc),
       nonneg_document r → counts_pages a →
       own_or_absent (paperTypes r) pt → 0 < c1 → c1 ≤ c2 →
       returns
         (calculateDocumentPrintingPrice
            (Some (mkDoc ps pt (Num c1) cm)) (docRules r) a)
         (λ res1,
            returns
              (calculateDocumentPrintingPrice
                 (Some (mkDoc ps pt (Num c2) cm)) (docRules r) a)
              (λ res2, le_num (total res1) (total res2))))
  ∧ (∀ (r : LaminationRules) (sz : string) (q1 q2 : Qc),
       nonneg_lamination r → own_or_absent (sizes r) sz →
       0 < q1 → q1 ≤ q2 →
       returns
         (calculateLaminationPrice (Some (mkLam sz (Num q1))) (lamRules r))
         (λ res1,
            returns
              (calculateLaminationPrice
                 (Some (mkLam sz (Num q2))) (lamRules r))
              (λ res2, le_num (total res1) (total res2))))
  ∧ (∀ basePrice q1 q2 : Qc,
       0 ≤ basePrice → q1 ≤ q2 →
       le_num (standardTotal basePrice (Num q1))
              (standardTotal basePrice (Num q2))).
Proof.
  split; [|split; [|split]].
  - apply tarpaulin_monotone.
  - apply document_monotone.
  - apply lamination_monotone.
  - apply standard_monotone.
Qed.

Lemma nonneg_default_document : nonneg_document defaultPricingRules.document.
Proof.
  repeat split; try by vm_compute.
  unfold defaultPricingRules.document; simpl.
  repeat (apply map_Forall_insert_2; [by vm_compute|]).
  apply map_Forall_empty.
Qed.

Lemma nonneg_default_lamination :
  nonneg_lamination defaultPricingRules.lamination.
Proof.
  split; [by vm_compute|].
  unfold defaultPricingRules.lamination; simpl.
  repeat (apply map_Forall_insert_2; [by vm_compute|]).
  apply map_Forall_empty.
Qed.

Lemma totals_monotone_under_nonnegative_rules_witness :
  returns
    (calculateTarpaulinPrintingPrice
       (Some (mkTarp (Num #3) (Num #4) (Num #2) false false))
       (tarpRules defaultPricingRules.tarpaulin))
    (λ res1,
       returns
         (calculateTarpaulinPrintingPrice
            (Some (mkTarp (Num #3) (Num #4) (Num #6) true true))
            (tarpRules defaultPricingRules.tarpaulin))
         (λ res2, le_num (total res1) (total res2)))
  ∧ returns
      (calculateDocumentPrintingPrice
         (Some (mkDoc "A4" "Glossy" (Num #1) "Auto Detect"))
         (docRules defaultPricingRules.document)
         (Some (mkAnalysis (Num #10) (Num #4) (Num #6))))
      (λ res1,
         returns
           (calculateDocumentPrintingPrice
              (Some (mkDoc "A4" "Glossy" (Num #5) "Auto Detect"))
              (docRules defaultPricingRules.document)
              (Some (mkAnalysis (Num #10) (Num #4) (Num #6))))
           (λ res2, le_num (total res1) (total res2)))
  ∧ returns
      (calculateLaminationPrice (Some (mkLam "A4" (Num #1)))
         (lamRules defaultPricingRules.lamination))
      (λ res1,
         returns
           (calculateLaminationPrice (Some (mkLam "A4" (Num #10)))
              (lamRules defaultPricingRules.lamination))
           (λ res2, le_num (total res1) (total res2)))
  ∧ le_num (standardTotal #125 (Num #1)) (standardTotal #125 (Num #5)).
Proof.
  destruct totals_monotone_under_nonnegative_rules
    as (Htarp & Hdoc & Hlam & Hstd).
  split; [|split; [|split]].
  - apply Htarp; [repeat split; by vm_compute | by vm_compute | done..].
  - apply Hdoc;
      [apply nonneg_default_document | | left; by eexists | by vm_compute..].
    exists #4, #6. repeat split; by vm_compute.
  - apply Hlam;
      [apply nonneg_default_lamination | left; by eexists | by vm_compute..].
  - apply Hstd; by vm_compute.
Defined.

End monotonicity.

(** ** Order numbers: the code's strings and the specified format *)

Section order_number_format.

Import JsString JsDate Storage OrderNumber.

Lemma string_app_cons (x : Ascii.ascii) (a b : string) :
  String x a +:+ b = String x (a +:+ b).
Proof. reflexivity. Qed.

Lemma string_app_assoc (a b c : string) : (a +:+ b) +:+ c = a +:+ (b +:+ c).
Proof.
  induction a as [|x a IH]; [done|].
  rewrite !string_app_cons. by rewrite IH.
Qed.

Lemma pretty_N_go_app (x : N) (s : string) :
  pretty_N_go x s = pretty_N_go x "" +:+ s.
Proof.
  revert s. induction (N.lt_wf_0 x) as [x _ IH]; intros s.
  destruct (decide (x = 0)%N) as [->|Hx].
  - by rewrite !pretty_N_go_0.
  - rewrite !(pretty_N_go_step x) by lia.
    rewrite (IH (x `div` 10)%N) by (apply N.div_lt; lia).
    rewrite (IH (x `div` 10)%N ltac:(apply N.div_lt; lia) (String _ "")).
    by rewrite string_app_assoc.
Qed.

(** A boolean test that holds on a whole range holds at each point. *)
Lemma range_forallb (P : Z → bool) (lo n z : Z) :
  forallb P (seqZ lo n) = true → (lo ≤ z < lo + n)%Z → P z = true.
Proof.
  intros Hall Hz. rewrite forallb_forall in Hall. apply Hall.
  by apply list_elem_of_In, elem_of_seqZ.
Qed.

Lemma pretty_N_char_digit (x : N) :
  (x < 10)%N → pretty_N_char x = digit (Z.of_N x).
Proof.
  intros Hx.
  set (P := λ z : Z, bool_decide (pretty_N_char (Z.to_N z) = digit z)).
  assert (Hall : forallb P (seqZ 0 10) = true) by reflexivity.
  assert (Hin : (0 ≤ Z.of_N x < 0 + 10)%Z) by lia.
  pose proof (range_forallb P 0 10 (Z.of_N x) Hall Hin) as Hp.
  apply bool_decide_eq_true_1 in Hp. by rewrite N2Z.id in Hp.
Qed.

Lemma digit_mod (n : Z) : digit (n `mod` 10) = digit n.
Proof. unfold digit. by rewrite Z.mod_mod. Qed.

Lemma toString_digit (n : Z) : (0 ≤ n < 10)%Z → toString n = String (digit n) "".
Proof.
  intros Hn.
  set (P := λ z : Z, bool_decide (toString z = String (digit z) "")).
  assert (Hall : forallb P (seqZ 0 10) = true) by reflexivity.
  assert (Hin : (0 ≤ n < 0 + 10)%Z) by lia.
  pose proof (range_forallb P 0 10 n Hall Hin) as Hp.
  by apply bool_decide_eq_true_1 in Hp.
Qed.

Lemma toString_step (n : Z) :
  (10 ≤ n)%Z → toString n = toString (n `div` 10) +:+ String (digit n) "".
Proof.
  intros Hn. unfold toString, pretty, pretty_Z.
  destruct n as [|p|p]; try lia.
  assert (Hq : (0 < Z.pos p `div` 10)%Z) by (apply Z.div_str_pos; lia).
  destruct (Z.pos p `div` 10)%Z as [|q|q] eqn:Hdiv; try lia.
  unfold pretty, pretty_positive, pretty, pretty_N.
  rewrite !decide_False by done.
  rewrite pretty_N_go_step by lia.
  rewrite pretty_N_go_app.
  assert (Hd : (N.pos p `div` 10)%N = N.pos q).
  { apply (inj Z.of_N). rewrite N2Z.inj_div. simpl. done. }
  rewrite Hd. f_equal. f_equal.
  rewrite pretty_N_char_digit by (apply N.mod_lt; lia).
  rewrite N2Z.inj_mod. simpl Z.of_N. apply digit_mod.
Qed.

Lemma toString_two (n : Z) : (10 ≤ n < 100)%Z → toString n = two_digits n.
Proof.
  intros Hn. rewrite toString_step by lia.
  rewrite toString_digit by (split; [apply Z.div_pos | apply Z.div_lt_upper_bound]; lia).
  reflexivity.
Qed.

Lemma toString_three (n : Z) : (100 ≤ n < 1000)%Z → toString n = three_digits n.
Proof.
  intros Hn. rewrite toString_step by lia.
  rewrite toString_two by (split; [apply Z.div_le_lower_bound | apply Z.div_lt_upper_bound]; lia).
  unfold three_digits, two_digits. rewrite Z.div_div by lia. reflexivity.
Qed.

Lemma toString_four (n : Z) : (1000 ≤ n < 10000)%Z → toString n = four_digits n.
Proof.
  intros Hn. rewrite toString_step by lia.
  rewrite toString_three by (split; [apply Z.div_le_lower_bound | apply Z.div_lt_upper_bound]; lia).
  unfold four_digits, three_digits, two_digits. rewrite !Z.div_div by lia. reflexivity.
Qed.

Lemma digit_zero (n : Z) : (n = 0)%Z → digit n = "0"%char.
Proof. by intros ->. Qed.

Lemma pad2_two_digits (n : Z) :
  (0 ≤ n ≤ 99)%Z → padStart 2 "0"%char (toString n) = two_digits n.
Proof.
  intros Hn. destruct (decide (n < 10)%Z).
  - rewrite toString_digit by lia. unfold two_digits.
    rewrite (digit_zero (n `div` 10)) by (apply Z.div_small; lia). reflexivity.
  - by rewrite toString_two by lia.
Qed.

Lemma pad3_three_digits (n : Z) :
  (0 ≤ n ≤ 999)%Z → padStart 3 "0"%char (toString n) = three_digits n.
Proof.
  intros Hn. unfold three_digits.
  destruct (decide (n < 100)%Z).
  - rewrite (digit_zero (n `div` 100)) by (apply Z.div_small; lia).
    rewrite <- pad2_two_digits by lia.
    destruct (decide (n < 10)%Z).
    + rewrite toString_digit by lia. reflexivity.
    + rewrite toString_two by lia. reflexivity.
  - rewrite toString_three by lia. reflexivity.
Qed.

Lemma pad4_four_digits (n : Z) :
  (0 ≤ n ≤ 9999)%Z → padStart 4 "0"%char (toString n) = four_digits n.
Proof.
  intros Hn. unfold four_digits.
  destruct (decide (n < 1000)%Z).
  - rewrite (digit_zero (n `div` 1000)) by (apply Z.div_small; lia).
    change (String (digit (n `div` 100)) (two_digits n)) with (three_digits n).
    rewrite <- pad3_three_digits by lia.
    destruct (decide (n < 10)%Z); [|destruct (decide (n < 100)%Z)].
    + rewrite toString_digit by lia. reflexivity.
    + rewrite toString_two by lia. reflexivity.
    + rewrite toString_three by lia. reflexivity.
  - rewrite toString_four by lia. reflexivity.
Qed.

Lemma digit_ext (n m : Z) : (n `mod` 10 = m `mod` 10)%Z → digit n = digit m.
Proof. unfold digit. by intros ->. Qed.

Lemma year_last_two (y : Z) :
  (1000 ≤ y ≤ 9999)%Z → substr_last 2 (toString y) = two_digits (y `mod` 100).
Proof.
  intros Hy. rewrite toString_four by lia.
  unfold four_digits, two_digits, substr_last. simpl.
  f_equal; [|f_equal]; apply digit_ext; Z.div_mod_to_equations; lia.
Qed.

Lemma dateString_YYMMDD (d : Date) : calendar d → dateString d = spec_YYMMDD d.
Proof.
  intros (Hy & Hm & Hd). unfold dateString, spec_YYMMDD.
  rewrite year_last_two, !pad2_two_digits by lia. reflexivity.
Qed.

Lemma sequentialNum_four_digits (count : Z) :
  (0 ≤ count < 9999)%Z → sequentialNum count = four_digits (count + 1).
Proof. intros Hc. unfold sequentialNum. by rewrite pad4_four_digits by lia. Qed.

End order_number_format.

(** ** Insertion-ordered maps *)

Lemma JsMap_get_set {V : Type} (k : Z) (v : V) (m : JsMap.t V) :
  JsMap.get k (JsMap.set k v m) = Some v.
Proof.
  unfold JsMap.get. induction m as [|[k' v'] m IH]; simpl.
  - by rewrite bool_decide_eq_true_2.
  - case_bool_decide as Hk; simpl.
    + by rewrite bool_decide_eq_true_2.
    + by rewrite bool_decide_eq_false_2.
Qed.

Lemma JsMap_set_values {V : Type} (k : Z) (v : V) (m : JsMap.t V) :
  v ∈ JsMap.values (JsMap.set k v m).
Proof.
  unfold JsMap.values. induction m as [|[k' v'] m IH]; simpl.
  - apply list_elem_of_here.
  - case_bool_decide; simpl; [apply list_elem_of_here|].
    by apply list_elem_of_further.
Qed.

(** ** The allocator of [MemStorage.createOrder] *)

Section allocation.

Import JsString JsDate Storage OrderNumber.

Lemma allocates_test (this : MemStorage.t) (n : string) :
  allocates this n →
  negb (truthy_str n) || bool_decide (n ∈ MemStorage.orderNumbers this) = true.
Proof.
  intros [->|Hin]; [reflexivity|].
  rewrite (bool_decide_eq_true_2 _ Hin). apply orb_true_r.
Qed.

(** A supplied number that is free is kept. *)
Lemma allocate_supplied (this : MemStorage.t) (env : Env) (n : string) :
  n ≠ "" → n ∉ MemStorage.orderNumbers this →
  MemStorage.allocate this env n = n.
Proof.
  intros Hn Hfree. unfold MemStorage.allocate, truthy_str.
  by rewrite (bool_decide_eq_true_2 _ Hn), (bool_decide_eq_false_2 _ Hfree).
Qed.

(** Without collision the allocator settles on the candidate. *)
Lemma allocate_candidate (this : MemStorage.t) (env : Env) (n : string) :
  allocates this n →
  mem_candidate this env ∉ MemStorage.orderNumbers this →
  MemStorage.allocate this env n = mem_candidate this env.
Proof.
  intros Hrun Hfree. unfold MemStorage.allocate.
  rewrite (allocates_test this n Hrun). cbv zeta.
  fold (mem_candidate this env).
  by rewrite (bool_decide_eq_false_2 _ Hfree).
Qed.

(** On collision it appends one suffix and looks no further. *)
Lemma allocate_suffixed (this : MemStorage.t) (env : Env) (n : string) :
  allocates this n →
  mem_candidate this env ∈ MemStorage.orderNumbers this →
  MemStorage.allocate this env n
  = mem_candidate this env +:+ "-" +:+ randomSuffix (mathRandom env).
Proof.
  intros Hrun Htaken. unfold MemStorage.allocate.
  rewrite (allocates_test this n Hrun). cbv zeta.
  fold (mem_candidate this env).
  rewrite (bool_decide_eq_true_2 _ Htaken).
  unfold mem_candidate. by rewrite !string_app_assoc.
Qed.

Lemma todayOrders_nonneg (this : MemStorage.t) (date : Date) :
  (0 ≤ MemStorage.todayOrders this date)%Z.
Proof. unfold MemStorage.todayOrders. lia. Qed.

(** [toDateString] agrees on two dates exactly when they are of one day:
    the count of [MemStorage.createOrder] is the count of the orders
    created today. *)
Lemma todayOrders_created_on (this : MemStorage.t) (date : Date) :
  MemStorage.todayOrders this date
  = created_on date (JsMap.values (MemStorage.orders this)).
Proof.
  unfold MemStorage.todayOrders, created_on. do 2 f_equal.
  apply list_filter_iff. intros o. unfold toDateString, same_day.
  split; [intros [= -> -> ->]; done | intros (-> & -> & ->); done].
Qed.

(** The candidate of the code is the specified [ORD-YYMMDD-NNNN]. *)
Lemma mem_candidate_format (this : MemStorage.t) (env : Env) :
  calendar (newDate env 1) →
  (created_on (newDate env 1) (JsMap.values (MemStorage.orders this))
   < 9999)%Z →
  mem_candidate this env
  = spec_candidate (newDate env 1)
      (created_on (newDate env 1) (JsMap.values (MemStorage.orders this))).
Proof.
  intros Hcal Hcount. unfold mem_candidate, spec_candidate.
  rewrite dateString_YYMMDD by done.
  rewrite <- todayOrders_created_on in *.
  rewrite sequentialNum_four_digits;
    [done | split; [apply todayOrders_nonneg | done]].
Qed.

(** Between the first and the last millisecond of a day lie the
    timestamps of that day, those two apart. *)
Lemma between_day_bounds (d1 d2 t : Date) :
  same_day d1 d2 → time_of_day t →
  before (setHours d1 0 0 0 0) t && before t (setHours d2 23 59 59 999) = true
  ↔ same_day t d1
    ∧ ¬ (getHours t = 0 ∧ getMinutes t = 0 ∧ getSeconds t = 0
         ∧ getMilliseconds t = 0)%Z
    ∧ ¬ (getHours t = 23 ∧ getMinutes t = 59 ∧ getSeconds t = 59
         ∧ getMilliseconds t = 999)%Z.
Proof.
  intros (Hy & Hm & Hd) (Hh & Hmi & Hs & Hms).
  unfold same_day, before, fields, setHours. simpl.
  rewrite <- Hy, <- Hm, <- Hd. rewrite andb_true_iff.
  repeat case_bool_decide; split; intros; lia.
Qed.

(** The rows counted by [countToday] are the orders created today, when
    none of them was created in the first or the last millisecond of
    its day. *)
Lemma countToday_created_on (db : DatabaseStorage.t) (d1 d2 : Date) :
  same_day d1 d2 →
  Forall (λ o, inside_day (Order.createdAt o)) (DatabaseStorage.orders db) →
  DatabaseStorage.countToday db (setHours d1 0 0 0 0)
    (setHours d2 23 59 59 999)
  = toString (created_on d1 (DatabaseStorage.orders db)).
Proof.
  intros Hday Hrows. unfold DatabaseStorage.countToday, created_on.
  do 3 f_equal.
  induction Hrows as [|o l (Htime & Hfirst & Hlast) _ IH]; [done|].
  rewrite !filter_cons, IH.
  pose proof (between_day_bounds d1 d2 (Order.createdAt o) Hday Htime) as Hiff.
  destruct (decide (before _ _ && before _ _ = true)) as [Hin|Hout];
    destruct (decide (same_day (Order.createdAt o) d1)) as [Hon|Hoff];
    try done.
  - apply Hiff in Hin. by destruct Hin.
  - destruct Hout. by apply Hiff.
Qed.

Lemma toString_nonempty (n : Z) : (0 ≤ n)%Z → toString n ≠ "".
Proof.
  intros Hn. destruct (decide (n < 10)%Z).
  - by rewrite toString_digit by lia.
  - rewrite toString_step by lia. by destruct (toString (n `div` 10)).
Qed.

(** A count string followed by the character 1, padded: the four digits
    of ten times the count plus one. *)
Lemma db_sequentialNum_four_digits (c : Z) :
  (0 ≤ c ≤ 999)%Z →
  DatabaseStorage.sequentialNum (DatabaseStorage.count_or_0 (toString c))
  = four_digits (10 * c + 1)%Z.
Proof.
  intros Hc. unfold DatabaseStorage.count_or_0, truthy_str.
  rewrite bool_decide_eq_true_2 by (apply toString_nonempty; lia).
  unfold DatabaseStorage.sequentialNum.
  destruct (decide (c = 0)%Z) as [->|Hpos]; [reflexivity|].
  rewrite <- pad4_four_digits by lia. f_equal.
  rewrite (toString_step (10 * c + 1)) by lia.
  replace ((10 * c + 1) `div` 10)%Z with c by (Z.div_mod_to_equations; lia).
  f_equal. rewrite (toString_digit 1) by lia. f_equal.
  apply digit_ext. Z.div_mod_to_equations; lia.
Qed.

(** The number [DatabaseStorage.createOrder] makes up, read against the
    specified format: it is the number of a day with ten times as many
    orders. *)
Lemma db_candidate_format (db : DatabaseStorage.t) (env : Env) :
  calendar (newDate env 0) →
  same_day (newDate env 1) (newDate env 2) →
  Forall (λ o, inside_day (Order.createdAt o)) (DatabaseStorage.orders db) →
  (created_on (newDate env 1) (DatabaseStorage.orders db) ≤ 999)%Z →
  DatabaseStorage.candidate env db
  = spec_candidate (newDate env 0)
      (10 * created_on (newDate env 1) (DatabaseStorage.orders db))%Z.
Proof.
  intros Hcal Hday Hrows Hcount.
  unfold DatabaseStorage.candidate, spec_candidate. cbv zeta.
  rewrite dateString_YYMMDD by done.
  rewrite countToday_created_on by done.
  rewrite db_sequentialNum_four_digits; [done|].
  split; [unfold created_on; lia | done].
Qed.

(** [DatabaseStorage.createOrder] without a supplied number inserts
    under the candidate. *)
Lemma db_createOrder_unsupplied (db : DatabaseStorage.t) (env : Env)
    (io : InsertOrder.t) :
  InsertOrder.orderNumber io = "" →
  DatabaseStorage.createOrder env io db
  = DatabaseStorage.insert_order env
      {| InsertOrder.orderNumber := DatabaseStorage.candidate env db;
         InsertOrder.total := InsertOrder.total io;
         InsertOrder.createdBy := InsertOrder.createdBy io |} db.
Proof.
  intros Hempty. unfold DatabaseStorage.createOrder. by rewrite Hempty.
Qed.

Lemma string_app_inv_l (a b c : string) : a +:+ b = a +:+ c → b = c.
Proof.
  induction a as [|x a IH]; [done|]. rewrite !string_app_cons.
  intros [= Heq]. by apply IH.
Qed.

Lemma digit_inj_mod (n m : Z) : digit n = digit m → (n `mod` 10 = m `mod` 10)%Z.
Proof.
  unfold digit. intros Heq.
  apply (f_equal Ascii.nat_of_ascii) in Heq.
  rewrite !Ascii.nat_ascii_embedding in Heq
    by (pose proof (Z.mod_pos_bound n 10); pose proof (Z.mod_pos_bound m 10);
        lia).
  pose proof (Z.mod_pos_bound n 10). pose proof (Z.mod_pos_bound m 10). lia.
Qed.

(** With an order already counted, that number is not the specified
    one. *)
Lemma tenfold_count_differs (d : Date) (c : Z) :
  (1 ≤ c ≤ 999)%Z → spec_candidate d (10 * c)%Z ≠ spec_candidate d c.
Proof.
  intros Hc Heq. unfold spec_candidate in Heq.
  do 3 apply string_app_inv_l in Heq.
  unfold four_digits, two_digits in Heq.
  injection Heq as H1 H2 H3 H4.
  apply (f_equal Ascii.nat_of_ascii) in H1, H2, H3, H4.
  unfold digit in *.
  rewrite !Ascii.nat_ascii_embedding in H1, H2, H3, H4
    by (match goal with
        | |- (48 + Z.to_nat (?x `mod` 10) < 256)%nat =>
          pose proof (Z.mod_pos_bound x 10); lia
        end).
  Z.div_mod_to_equations. lia.
Qed.

(** The suffix is the three decimal digits of a number below 1000. *)
Lemma randomSuffix_three_digits (random : Qc) :
  0 ≤ random → random < 1 →
  ∃ k : Z, (0 ≤ k ≤ 999)%Z ∧ randomSuffix random = three_digits k.
Proof.
  intros Hlo Hhi. exists (Qfloor (random * #1000)%Qc).
  assert (Hk0 : 0 ≤ random * #1000).
  { apply Qcmult_nonneg_nonneg; [done | by vm_compute]. }
  assert (Hk1 : random * #1000 < #1000).
  { rewrite <- (Qcmult_1_l #1000) at 2.
    apply Qcmult_lt_mono_pos_r; [by vm_compute | done]. }
  assert (Hrange : (0 ≤ Qfloor (random * #1000)%Qc ≤ 999)%Z).
  { split.
    - change 0%Z with (Qfloor 0). by apply Qfloor_resp_le.
    - cut (Qfloor (random * #1000)%Qc < 1000)%Z; [lia|].
      rewrite Zlt_Qlt.
      eapply Qle_lt_trans; [apply Qfloor_le | exact Hk1]. }
  split; [done|]. unfold randomSuffix. by apply pad3_three_digits.
Qed.

End allocation.

(** ** The order-number claims *)

Section order_number_claims.

Import JsString JsDate Storage OrderNumber Scenario.

(** C9.  Format of the proposed number.  [MemStorage.createOrder]
    follows the claim: whenever its allocator runs (no number supplied,
    or the supplied one taken) and meets no collision, the order is
    created under ["ORD-" + YYMMDD + "-" + NNNN], with YYMMDD the current
    date and NNNN the count of orders already created today plus one,
    zero-padded to four digits; a store constructed on 2 November 2026,
    whose three sample orders are of that day, creates ORD-261102-0004.
    [DatabaseStorage.createOrder] does not: it receives the count as a
    string, appends the character 1 to it, and so proposes the number of
    a day with ten times as many orders, which differs from the
    specified one as soon as an order was counted; with 3 orders created
    today it creates ORD-261102-0031, where the claim has
    ORD-261102-0004. *)
Theorem candidate_order_number_format :
  (∀ (this : MemStorage.t) (env : Env) (io : InsertOrder.t),
     let today := newDate env 1 in
     let count := created_on today (JsMap.values (MemStorage.orders this)) in
     calendar today → (count < 9999)%Z →
     allocates this (InsertOrder.orderNumber io) →
     spec_candidate today count ∉ MemStorage.orderNumbers this →
     ∃ order : Order.t,
       (MemStorage.createOrder env io this).2 = inr order
       ∧ Order.orderNumber order = spec_candidate today count)
  ∧ (∀ (db : DatabaseStorage.t) (env : Env) (io : InsertOrder.t),
       let today := newDate env 0 in
       let count := created_on today (DatabaseStorage.orders db) in
       calendar today →
       same_day (newDate env 1) today → same_day (newDate env 2) today →
       Forall (λ o, inside_day (Order.createdAt o))
              (DatabaseStorage.orders db) →
       (count ≤ 999)%Z →
       InsertOrder.orderNumber io = "" →
       DatabaseStorage.createOrder env io db
       = DatabaseStorage.insert_order env
           {| InsertOrder.orderNumber := spec_candidate today (10 * count)%Z;
              InsertOrder.total := InsertOrder.total io;
              InsertOrder.createdBy := InsertOrder.createdBy io |} db
       ∧ ((1 ≤ count)%Z →
          spec_candidate today (10 * count)%Z ≠ spec_candidate today count))
  ∧ (∀ d : Date,
       spec_candidate d 3 = "ORD-" +:+ spec_YYMMDD d +:+ "-" +:+ "0004")
  ∧ (created_on morning (JsMap.values (MemStorage.orders seeded)) = 3%Z
     ∧ ∃ order : Order.t,
         (MemStorage.createOrder (at_morning 0) (request "") seeded).2
         = inr order
         ∧ Order.orderNumber order = "ORD-261102-0004")
  ∧ (created_on morning (DatabaseStorage.orders three_today) = 3%Z
     ∧ ∃ order : Order.t,
         (DatabaseStorage.createOrder (at_morning 0) (request "")
            three_today).2 = inr order
         ∧ Order.orderNumber order = "ORD-261102-0031").
Proof.
  split; [|split; [|split; [|split]]].
  - intros this env io today count Hcal Hcount Hrun Hfree.
    subst today count.
    rewrite <- mem_candidate_format in * by done.
    eexists. split; [reflexivity|]. simpl.
    by apply allocate_candidate.
  - intros db env io today count Hcal Hday1 Hday2 Hrows Hcount Hempty.
    subst today count.
    assert (Hsame : created_on (newDate env 1) (DatabaseStorage.orders db)
                    = created_on (newDate env 0) (DatabaseStorage.orders db)).
    { unfold created_on. do 2 f_equal. apply list_filter_iff. intros o.
      destruct Hday1 as (Hy & Hm & Hd). unfold same_day.
      rewrite Hy, Hm, Hd. done. }
    split.
    + rewrite db_createOrder_unsupplied by done.
      rewrite db_candidate_format; try done.
      * by rewrite Hsame.
      * destruct Hday1 as (Hy1 & Hm1 & Hd1), Hday2 as (Hy2 & Hm2 & Hd2).
        repeat split; congruence.
      * by rewrite Hsame.
    + intros Hpos. apply tenfold_count_differs. lia.
  - reflexivity.
  - split; [by vm_compute|].
    eexists. split; [reflexivity|]. by vm_compute.
  - split; [by vm_compute|].
    eexists. split; by vm_compute.
Qed.

Lemma candidate_order_number_format_witness :
  (∃ order : Order.t,
     (MemStorage.createOrder (at_morning 0) (request "") seeded).2 = inr order
     ∧ Order.orderNumber order = "ORD-261102-0004")
  ∧ DatabaseStorage.createOrder (at_morning 0) (request "") three_today
    = DatabaseStorage.insert_order (at_morning 0)
        (request "ORD-261102-0031") three_today
  ∧ "ORD-261102-0031" ≠ "ORD-261102-0004".
Proof.
  destruct candidate_order_number_format as (Hmem & Hdb & _).
  split.
  - destruct (Hmem seeded (at_morning 0) (request "")) as (order & Hres & Hnum);
      [ vm_compute; repeat split; discriminate
      | by vm_compute
      | by left
      | by_decide
      | ].
    exists order. split; [exact Hres|]. rewrite Hnum. by vm_compute.
  - destruct (Hdb three_today (at_morning 0) (request "")) as (Hcreate & Hne);
      [ vm_compute; repeat split; discriminate
      | done
      | done
      | by_decide
      | by vm_compute
      | reflexivity
      | ].
    split.
    + rewrite Hcreate. f_equal.
    + assert (Hthree : created_on (newDate (at_morning 0) 0)
                         (DatabaseStorage.orders three_today) = 3%Z)
        by (by vm_compute).
      rewrite Hthree in Hne. apply Hne. lia.
Defined.

(** A taken candidate is not retried.  [DatabaseStorage.createOrder]
    proposes ORD-261102-0011, which exists, and fails at once with the
    violation of the unique constraint, although ORD-261102-0011-000 was
    free.  [MemStorage.createOrder], with ORD-261102-0006 and
    ORD-261102-0006-007 both taken and a draw of 0.0075, returns an
    order numbered ORD-261102-0006-007 and raises nothing. *)
Lemma taken_candidate_is_not_retried :
  (DatabaseStorage.candidate (at_morning 0) one_row = "ORD-261102-0011"
   ∧ (DatabaseStorage.createOrder (at_morning 0) (request "") one_row).2
     = inl (UniqueViolation "order_number")
   ∧ "ORD-261102-0011-000"
       ∉ Order.orderNumber <$> DatabaseStorage.orders one_row)
  ∧ (mem_candidate two_supplied (at_morning (dec 75 10000)) = "ORD-261102-0006"
     ∧ "ORD-261102-0006" ∈ MemStorage.orderNumbers two_supplied
     ∧ "ORD-261102-0006-007" ∈ MemStorage.orderNumbers two_supplied
     ∧ ∃ order : Order.t,
         third_call.2 = inr order
         ∧ Order.orderNumber order = "ORD-261102-0006-007").
Proof.
  split; [split; [|split]|split; [|split; [|split]]].
  - by vm_compute.
  - by vm_compute.
  - by_decide.
  - by vm_compute.
  - by_decide.
  - by_decide.
  - eexists. split; [reflexivity|]. by vm_compute.
Qed.

(** C1, as the code has it.  When the candidate collides with an
    existing number: [MemStorage.createOrder] appends ["-"] and the
    three decimal digits of [floor(random * 1000)] to the candidate,
    once, and, that number being free, stores and returns the order
    under it and records it as used; it has no retry loop and returns
    no error.  [DatabaseStorage.createOrder] appends nothing: the call
    fails, with the violation of the unique constraint on
    [order_number] or, when a value does not fit its column, with the
    range error, and the [orders] table keeps its rows. *)
Theorem collision_appends_one_suffix :
  (∀ (this : MemStorage.t) (env : Env) (io : InsertOrder.t),
     let suffixed :=
       mem_candidate this env +:+ "-" +:+ randomSuffix (mathRandom env) in
     0 ≤ mathRandom env → mathRandom env < 1 →
     allocates this (InsertOrder.orderNumber io) →
     mem_candidate this env ∈ MemStorage.orderNumbers this →
     suffixed ∉ MemStorage.orderNumbers this →
     ∃ (k : Z) (order : Order.t) (this' : MemStorage.t),
       (0 ≤ k ≤ 999)%Z
       ∧ suffixed = mem_candidate this env +:+ "-" +:+ three_digits k
       ∧ MemStorage.createOrder env io this = (this', inr order)
       ∧ Order.orderNumber order = suffixed
       ∧ MemStorage.getOrder (Order.id order) this' = Some order
       ∧ MemStorage.orderNumbers this'
         = {[ suffixed ]} ∪ MemStorage.orderNumbers this)
  ∧ (∀ (db : DatabaseStorage.t) (env : Env) (io : InsertOrder.t),
       InsertOrder.orderNumber io = "" →
       DatabaseStorage.candidate env db
         ∈ Order.orderNumber <$> DatabaseStorage.orders db →
       ∃ (db' : DatabaseStorage.t) (e : exn),
         DatabaseStorage.createOrder env io db = (db', inl e)
         ∧ (e = UniqueViolation "order_number" ∨ e = NumericValueOutOfRange)
         ∧ DatabaseStorage.orders db' = DatabaseStorage.orders db).
Proof.
  split.
  - intros this env io suffixed Hlo Hhi Hrun Htaken Hfree.
    destruct (randomSuffix_three_digits (mathRandom env) Hlo Hhi)
      as (k & Hk & Hsuffix).
    exists k. eexists. eexists.
    split; [exact Hk|].
    split; [unfold suffixed; by rewrite Hsuffix|].
    split; [reflexivity|]. simpl.
    rewrite (allocate_suffixed this env _ Hrun Htaken).
    split; [reflexivity|]. split; [|reflexivity].
    apply JsMap_get_set.
  - intros db env io Hempty Htaken.
    rewrite db_createOrder_unsupplied by done.
    unfold DatabaseStorage.insert_order. simpl.
    case_bool_decide as Hfits; simpl.
    + rewrite (bool_decide_eq_true_2 _ Htaken).
      eexists. eexists. split; [reflexivity|]. auto.
    + eexists. eexists. split; [reflexivity|].
      split; [by right | reflexivity].
Qed.

Lemma collision_appends_one_suffix_witness :
  (∃ order : Order.t,
     (MemStorage.createOrder (at_morning (dec 1234 10000)) (request "")
        two_supplied).2 = inr order
     ∧ Order.orderNumber order = "ORD-261102-0006-123")
  ∧ (DatabaseStorage.createOrder (at_morning 0) (request "") one_row).2
    = inl (UniqueViolation "order_number").
Proof.
  destruct collision_appends_one_suffix as (Hmem & Hdb).
  split.
  - destruct (Hmem two_supplied (at_morning (dec 1234 10000)) (request ""))
      as (k & order & this' & _ & _ & Hres & Hnum & _);
      [ by vm_compute | by vm_compute | by left | by_decide | by_decide | ].
    exists order. rewrite Hres. split; [reflexivity|].
    rewrite Hnum. by vm_compute.
  - destruct (Hdb one_row (at_morning 0) (request ""))
      as (db' & e & Hres & _ & _);
      [ reflexivity | by_decide | ].
    rewrite Hres. vm_compute in Hres. by injection Hres as _ <-.
Defined.

(** [DatabaseStorage.createOrder] keeps the order numbers of the table
    pairwise distinct: the unique constraint rejects a duplicate. *)
Lemma database_numbers_stay_distinct (db : DatabaseStorage.t) (env : Env)
    (io : InsertOrder.t) :
  NoDup (Order.orderNumber <$> DatabaseStorage.orders db) →
  NoDup (Order.orderNumber
           <$> DatabaseStorage.orders (DatabaseStorage.createOrder env io db).1).
Proof.
  intros Hdistinct. unfold DatabaseStorage.createOrder.
  set (io' := if negb _ then _ else io).
  unfold DatabaseStorage.insert_order.
  repeat case_bool_decide; simpl; try done.
  rewrite fmap_app. simpl. apply NoDup_app. split; [done|].
  split; [|apply NoDup_singleton].
  intros n Hn Hn'. apply list_elem_of_singleton in Hn'. by subst n.
Qed.

(** Setting a key that is not in use appends the entry. *)
Lemma JsMap_set_fresh {V : Type} (k : Z) (v : V) (m : JsMap.t V) :
  Forall (λ e, e.1 ≠ k) m → JsMap.set k v m = m ++ [(k, v)].
Proof.
  induction 1 as [|[k' v'] m Hk _ IH]; simpl; [done|].
  simpl in Hk. by rewrite bool_decide_eq_false_2, IH.
Qed.

(** The number the allocator settles on is free, unless the candidate
    and its suffixed form are both taken. *)
Lemma allocate_free_or_both_taken (this : MemStorage.t) (env : Env)
    (n : string) :
  MemStorage.allocate this env n ∉ MemStorage.orderNumbers this
  ∨ (mem_candidate this env ∈ MemStorage.orderNumbers this
     ∧ mem_candidate this env +:+ "-" +:+ randomSuffix (mathRandom env)
         ∈ MemStorage.orderNumbers this).
Proof.
  destruct (decide (allocates this n)) as [Hrun|Hkeep].
  - destruct (decide (mem_candidate this env ∈ MemStorage.orderNumbers this))
      as [Htaken|Hfree].
    + rewrite (allocate_suffixed this env n Hrun Htaken).
      destruct (decide (mem_candidate this env +:+ "-"
                          +:+ randomSuffix (mathRandom env)
                          ∈ MemStorage.orderNumbers this)); auto.
    + rewrite (allocate_candidate this env n Hrun Hfree). auto.
  - left. unfold allocates in Hkeep.
    rewrite allocate_supplied; intros ?; apply Hkeep; auto.
Qed.

(** [MemStorage.createOrder] keeps the store consistent whenever the
    number it settles on is free. *)
Lemma memstorage_numbers_stay_distinct (this : MemStorage.t) (env : Env)
    (io : InsertOrder.t) :
  consistent this →
  MemStorage.allocate this env (InsertOrder.orderNumber io)
    ∉ MemStorage.orderNumbers this →
  consistent (MemStorage.createOrder env io this).1.
Proof.
  intros (Hdistinct & Hrecorded & Hids) Hfree.
  unfold MemStorage.createOrder, consistent; simpl.
  set (n := MemStorage.allocate this env (InsertOrder.orderNumber io)) in *.
  rewrite JsMap_set_fresh
    by (eapply Forall_impl; [exact Hids | simpl; intros; lia]).
  unfold JsMap.values. rewrite !fmap_app. simpl.
  split; [|split].
  - apply NoDup_app. split; [done|]. split; [|apply NoDup_singleton].
    intros m Hm Hm'. apply list_elem_of_singleton in Hm'. subst m.
    apply list_elem_of_fmap in Hm as (o & Ho & Hin).
    apply Hfree. rewrite Ho. by apply Hrecorded.
  - intros o Ho. apply elem_of_app in Ho as [Ho|Ho].
    + apply elem_of_union_r. by apply Hrecorded.
    + apply list_elem_of_singleton in Ho. subst o. simpl.
      apply elem_of_union_l. by apply elem_of_singleton.
  - apply Forall_app. split.
    + eapply Forall_impl; [exact Hids | simpl; intros; lia].
    + apply Forall_singleton. simpl. lia.
Qed.

(** C2 fails in [MemStorage.createOrder].  On a store constructed on
    2 November 2026, whose three sample orders are of that day: the
    client supplies ORD-261102-0006-007, then ORD-261102-0006; the next
    call supplies no number, its candidate ORD-261102-0006 is taken, and
    with a draw of 0.0075 the suffixed number is ORD-261102-0006-007,
    which is stored without a further check.  Orders 4 and 6 now share
    their number. *)
Theorem memstorage_stores_duplicate_number :
  Order.orderNumber <$> JsMap.values (MemStorage.orders third_call.1)
  = ["ORD-2023-0041"; "ORD-2023-0040"; "ORD-2023-0039";
     "ORD-261102-0006-007"; "ORD-261102-0006"; "ORD-261102-0006-007"]
  ∧ Order.id <$> JsMap.values (MemStorage.orders third_call.1)
    = [1%Z; 2%Z; 3%Z; 4%Z; 5%Z; 6%Z]
  ∧ ¬ NoDup (Order.orderNumber
               <$> JsMap.values (MemStorage.orders third_call.1)).
Proof.
  split; [by vm_compute|]. split; [by vm_compute|].
  by_decide.
Qed.

End order_number_claims.

(** ** Order intake: [POST /api/orders] *)

Section order_intake.

Import JsDate Storage Routes Intake Scenario.












End order_intake.

(** * Further properties *)

(** ** The calculators: signs, averages and what is never read *)

Section pricing_more.

Import Pricing Terms.

Lemma Qcdiv_mult_cancel (p t : Qc) : t ≠ 0 → p / t * t = p.
Proof. intros Ht. field. exact Ht. Qed.

(** Bounds on a quotient by a positive number from bounds on the
    numerator. *)
Lemma Qcdiv_lower (p t lo : Qc) : 0 < t → lo * t ≤ p → lo ≤ p / t.
Proof.
  intros Ht Hlo.
  assert (Hne : t ≠ 0) by (by apply not_symmetry, Qclt_not_eq).
  apply (Qcmult_le_mono_pos_r _ _ t Ht). by rewrite Qcdiv_mult_cancel.
Qed.

Lemma Qcdiv_upper (p t hi : Qc) : 0 < t → p ≤ hi * t → p / t ≤ hi.
Proof.
  intros Ht Hhi.
  assert (Hne : t ≠ 0) by (by apply not_symmetry, Qclt_not_eq).
  apply (Qcmult_le_mono_pos_r _ _ t Ht). by rewrite Qcdiv_mult_cancel.
Qed.

Lemma effective_nonneg (c : Qc) : 0 ≤ c → 0 ≤ effective c.
Proof. intros Hc. unfold effective. case_decide; [by vm_compute | done]. Qed.

(** In a rule set without negative entries, with dimensions, counts and
    pages that are not negative, and a paper type or size whose lookup
    finds the table's entry or nothing, no calculator returns a negative
    unit price or total. *)
Theorem prices_are_not_negative :
  (∀ (r : TarpaulinRules) (w h e : Qc) (rp st : bool),
     0 ≤ tarp_basePrice r → nonneg_tarpaulin r → 0 ≤ w → 0 ≤ h → 0 ≤ e →
     returns
       (calculateTarpaulinPrintingPrice
          (Some (mkTarp (Num w) (Num h) (Num e) rp st)) (tarpRules r))
       (λ res, le_num (Num 0) (unitPrice res) ∧ le_num (Num 0) (total res)))
  ∧ (∀ (r : LaminationRules) (sz : string) (q : Qc),
       nonneg_lamination r → own_or_absent (sizes r) sz → 0 ≤ q →
       returns
         (calculateLaminationPrice (Some (mkLam sz (Num q))) (lamRules r))
         (λ res, le_num (Num 0) (unitPrice res)
                 ∧ le_num (Num 0) (total res)))
  ∧ (∀ (r : DocumentRules) (ps pt cm : string) (c : Qc)
       (a : option DocumentAnalysis),
       nonneg_document r → own_or_absent (paperTypes r) pt →
       counts_pages a → 0 ≤ c →
       returns
         (calculateDocumentPrintingPrice
            (Some (mkDoc ps pt (Num c) cm)) (docRules r) a)
         (λ res, le_num (Num 0) (unitPrice res)
                 ∧ le_num (Num 0) (total res))).
Proof.
  split; [|split].
  - intros r w h e rp st Hb (He & Hrp & Hst) Hw Hh Hee.
    pose proof (tarpaulin_finite r w h e rp st) as Hres.
    destruct (calculateTarpaulinPrintingPrice _ _) as [?|res]; [done|].
    simpl in *. destruct Hres as [-> ->].
    unfold le_num, tarpaulinTotal, tarpaulinBase.
    assert (0 ≤ w * h * tarp_basePrice r)
      by (repeat apply Qcmult_nonneg_nonneg; done).
    split; [done|].
    repeat apply Qcplus_nonneg_nonneg; try done.
    + by apply Qcmult_nonneg_nonneg.
    + by destruct rp.
    + by destruct st.
  - intros r sz q Hr Hplain Hq.
    pose proof (lamination_finite r sz q Hplain) as Hres.
    destruct (calculateLaminationPrice _ _) as [?|res]; [done|].
    simpl in *. destruct Hres as [-> ->].
    unfold le_num, laminationUnit.
    assert (0 ≤ lam_basePrice r * multiplier r sz).
    { apply Qcmult_nonneg_nonneg;
        [by destruct Hr | by apply multiplier_nonneg]. }
    split; [done|].
    apply Qcmult_nonneg_nonneg; [done | by apply effective_nonneg].
  - intros r ps pt cm c a Hr Hplain Ha Hc.
    destruct (decide (cm = "Auto Detect")) as [->|Hcm]; [destruct a as [a|]|].
    + destruct a as [pc cpn bwn]. destruct Ha as (cp & bw & Hcp & Hbw & ? & ?).
      simpl in Hcp, Hbw. subst cpn bwn. fold (mkAnalysis pc (Num cp) (Num bw)).
      pose proof (document_auto_finite r ps pt pc c cp bw Hplain) as Hres.
      destruct (calculateDocumentPrintingPrice _ _ _) as [?|res]; [done|].
      simpl in *. destruct Hres as [-> ->].
      pose proof (perCopyTotal_nonneg r pt cp bw Hr) as Hper.
      split.
      * case_decide as Hpos; [|done]. unfold le_num.
        apply Qcdiv_lower; [done|]. rewrite Qcmult_0_l. by apply Hper.
      * unfold le_num. apply Qcmult_nonneg_nonneg;
          [by apply Hper | by apply effective_nonneg].
    + pose proof (document_flat_finite r ps pt "Auto Detect" c None Hplain
                    (or_intror eq_refl)) as Hres.
      destruct (calculateDocumentPrintingPrice _ _ _) as [?|res]; [done|].
      simpl in *. destruct Hres as [-> ->].
      pose proof (pageRate_nonneg r pt "Auto Detect" Hr). unfold le_num.
      split; [done|].
      apply Qcmult_nonneg_nonneg; [done | by apply effective_nonneg].
    + pose proof (document_flat_finite r ps pt cm c a Hplain
                    (or_introl Hcm)) as Hres.
      destruct (calculateDocumentPrintingPrice _ _ _) as [?|res]; [done|].
      simpl in *. destruct Hres as [-> ->].
      pose proof (pageRate_nonneg r pt cm Hr). unfold le_num.
      split; [done|].
      apply Qcmult_nonneg_nonneg; [done | by apply effective_nonneg].
Qed.

Lemma prices_are_not_negative_witness :
  returns
    (calculateTarpaulinPrintingPrice
       (Some (mkTarp (Num #3) (Num #4) (Num #6) true false))
       (tarpRules defaultPricingRules.tarpaulin))
    (λ res, le_num (Num 0) (unitPrice res) ∧ le_num (Num 0) (total res))
  ∧ returns
      (calculateLaminationPrice (Some (mkLam "A4" (Num #0)))
         (lamRules defaultPricingRules.lamination))
      (λ res, le_num (Num 0) (unitPrice res) ∧ le_num (Num 0) (total res))
  ∧ returns
      (calculateDocumentPrintingPrice
         (Some (mkDoc "A4" "Matte" (Num #2) "Auto Detect"))
         (docRules defaultPricingRules.document)
         (Some (mkAnalysis NaN (Num #1) (Num #2))))
      (λ res, le_num (Num 0) (unitPrice res) ∧ le_num (Num 0) (total res)).
Proof.
  destruct prices_are_not_negative as (Htarp & Hlam & Hdoc).
  split; [|split].
  - apply Htarp; [by vm_compute | repeat split; by vm_compute
                  | by vm_compute..].
  - apply Hlam;
      [apply nonneg_default_lamination | left; by eexists | by vm_compute].
  - apply Hdoc;
      [apply nonneg_default_document | left; by eexists | | by vm_compute].
    exists #1, #2. repeat split; by vm_compute.
Defined.

(** The document calculator reads neither [paperSize] nor the legacy
    tables [paperSizes], [colorModes] and [basePrice] of its rules, nor
    [pageCount]; and it reads the page analysis only in colour mode
    "Auto Detect". *)
Theorem document_price_ignores :
  (∀ (ps ps' pt cm : string) (c : number) (o o' : DocumentObject.t)
     (a : option DocumentAnalysis),
     DocumentObject.colorPageRate o = DocumentObject.colorPageRate o' →
     DocumentObject.blackPageRate o = DocumentObject.blackPageRate o' →
     DocumentObject.paperTypes o = DocumentObject.paperTypes o' →
     calculateDocumentPrintingPrice (Some (mkDoc ps pt c cm)) (Object o) a
     = calculateDocumentPrintingPrice (Some (mkDoc ps' pt c cm)) (Object o') a)
  ∧ (∀ (p : DocumentPrintingParams) (r : arg DocumentObject.t)
       (pc pc' cp bw : number),
       calculateDocumentPrintingPrice (Some p) r
         (Some (mkAnalysis pc cp bw))
       = calculateDocumentPrintingPrice (Some p) r
           (Some (mkAnalysis pc' cp bw)))
  ∧ (∀ (p : DocumentPrintingParams) (r : arg DocumentObject.t)
       (a : option DocumentAnalysis),
       colorMode p ≠ "Auto Detect" →
       calculateDocumentPrintingPrice (Some p) r a
       = calculateDocumentPrintingPrice (Some p) r None).
Proof.
  split; [|split].
  - intros ps ps' pt cm c o o' a Hc Hb Ht.
    unfold calculateDocumentPrintingPrice, paperTypeRate. simpl.
    by rewrite Hc, Hb, Ht.
  - reflexivity.
  - intros p r a Hcm. unfold calculateDocumentPrintingPrice.
    by rewrite (bool_decide_eq_false_2 _ Hcm).
Qed.

Lemma document_price_ignores_witness :
  calculateDocumentPrintingPrice
    (Some (mkDoc "A4" "Glossy" (Num #3) "Color"))
    (docRules defaultPricingRules.document) None
  = calculateDocumentPrintingPrice
      (Some (mkDoc "Long" "Glossy" (Num #3) "Color"))
      (docRules
         {| colorPageRate := #2; blackPageRate := #1;
            paperTypes := paperTypes defaultPricingRules.document;
            paperSizes := ∅; colorModes := ∅; doc_basePrice := #0 |}) None
  ∧ calculateDocumentPrintingPrice
      (Some (mkDoc "A4" "Glossy" (Num #3) "Color"))
      (docRules defaultPricingRules.document)
      (Some (mkAnalysis (Num #10) (Num #4) (Num #6)))
    = calculateDocumentPrintingPrice
        (Some (mkDoc "A4" "Glossy" (Num #3) "Color"))
        (docRules defaultPricingRules.document) None.
Proof.
  destruct document_price_ignores as (Hsize & _ & Hmode).
  split.
  - by apply Hsize.
  - by apply Hmode.
Defined.

(** Every colour mode other than "Color" and "Black & White" (among them
    "Auto Detect" without a page analysis) is priced half-way between
    the two: in exact arithmetic, and for a paper type whose lookup
    finds the table's entry or nothing, its total is the mean of the
    totals of the two named modes. *)
Theorem fallback_mode_is_the_mean (r : DocumentRules) (ps pt cm : string)
    (c : Qc) (a : option DocumentAnalysis) :
  own_or_absent (paperTypes r) pt →
  cm ≠ "Color" → cm ≠ "Black & White" → cm ≠ "Auto Detect" ∨ a = None →
  ∃ color bw : Qc,
    returns
      (calculateDocumentPrintingPrice
         (Some (mkDoc ps pt (Num c) "Color")) (docRules r) a)
      (λ res, total res = Num color)
    ∧ returns
        (calculateDocumentPrintingPrice
           (Some (mkDoc ps pt (Num c) "Black & White")) (docRules r) a)
        (λ res, total res = Num bw)
    ∧ returns
        (calculateDocumentPrintingPrice
           (Some (mkDoc ps pt (Num c) cm)) (docRules r) a)
        (λ res, total res = Num ((color + bw) / #2)).
Proof.
  intros Hplain Hcolor Hbw Hflat.
  assert (Hc : "Color" ≠ "Auto Detect") by done.
  assert (Hb : "Black & White" ≠ "Auto Detect") by done.
  pose proof (document_flat_finite r ps pt "Color" c a Hplain
                (or_introl Hc)) as Htc.
  pose proof (document_flat_finite r ps pt "Black & White" c a Hplain
                (or_introl Hb)) as Htb.
  pose proof (document_flat_finite r ps pt cm c a Hplain Hflat) as Ht.
  exists (pageRate r pt "Color" * effective c),
         (pageRate r pt "Black & White" * effective c).
  destruct (calculateDocumentPrintingPrice
              (Some (mkDoc ps pt (Num c) "Color")) _ _) as [?|rc]; [done|].
  destruct (calculateDocumentPrintingPrice
              (Some (mkDoc ps pt (Num c) "Black & White")) _ _) as [?|rb];
    [done|].
  destruct (calculateDocumentPrintingPrice
              (Some (mkDoc ps pt (Num c) cm)) _ _) as [?|rm]; [done|].
  simpl in *. destruct Htc as [-> _].
  destruct Htb as [-> _]. destruct Ht as [-> _].
  split; [done|]. split; [done|].
  do 2 f_equal. unfold pageRate, baseRate.
  repeat case_decide; try done. rewrite Z2Qc_inj_2. field. by vm_compute.
Qed.

Lemma fallback_mode_is_the_mean_witness :
  returns
    (calculateDocumentPrintingPrice
       (Some (mkDoc "A4" "Standard" (Num #4) "Auto Detect"))
       (docRules defaultPricingRules.document) None)
    (λ res, total res = Num #6).
Proof.
  destruct (fallback_mode_is_the_mean defaultPricingRules.document
              "A4" "Standard" "Auto Detect" #4 None)
    as (color & bw & Hc & Hb & Ht);
    [left; by eexists | done | done | by right |].
  vm_compute in Hc, Hb. simplify_eq.
  destruct (calculateDocumentPrintingPrice _ _ _) as [?|res]; [done|].
  simpl in *. rewrite Ht. f_equal; f_equal; apply Qc_is_canon; reflexivity.
Defined.

(** In the auto-detect branch the unit price is an average page rate: in
    exact arithmetic, for a paper type whose lookup finds the table's
    entry or nothing, page counts that are not negative, not both zero,
    and a black rate that does not exceed the colour rate, it lies
    between the rate of a black-and-white page and the rate of a colour
    page. *)
Theorem average_page_rate_is_between (r : DocumentRules) (ps pt : string)
    (pc : number) (c cp bw : Qc) :
  own_or_absent (paperTypes r) pt →
  blackPageRate r ≤ colorPageRate r → 0 ≤ cp → 0 ≤ bw → 0 < cp + bw →
  ∃ u : Qc,
    returns
      (calculateDocumentPrintingPrice
         (Some (mkDoc ps pt (Num c) "Auto Detect")) (docRules r)
         (Some (mkAnalysis pc (Num cp) (Num bw))))
      (λ res, unitPrice res = Num u)
    ∧ blackPageRate r + surcharge r pt ≤ u
    ∧ u ≤ colorPageRate r + surcharge r pt.
Proof.
  intros Hplain Hrates Hcp Hbw Hpos.
  pose proof (document_auto_finite r ps pt pc c cp bw Hplain) as Hres.
  exists (perCopyTotal r pt cp bw / (cp + bw)). split.
  { destruct (calculateDocumentPrintingPrice _ _ _) as [?|res]; [done|].
    simpl in *. destruct Hres as [_ ->]. by rewrite decide_True. }
  set (s := surcharge r pt).
  assert (Hlo : blackPageRate r + s ≤ colorPageRate r + s)
    by (by apply Qcplus_le_mono_r).
  unfold perCopyTotal. fold s. split.
  - apply Qcdiv_lower; [done|].
    replace ((blackPageRate r + s) * (cp + bw))
      with (cp * (blackPageRate r + s) + bw * (blackPageRate r + s)) by ring.
    apply Qcplus_le_mono_r. by apply Qcmult_le_mono_nonneg_l.
  - apply Qcdiv_upper; [done|].
    replace ((colorPageRate r + s) * (cp + bw))
      with (cp * (colorPageRate r + s) + bw * (colorPageRate r + s)) by ring.
    apply Qcplus_le_mono_l. by apply Qcmult_le_mono_nonneg_l.
Qed.

Lemma average_page_rate_is_between_witness :
  ∃ u : Qc,
    returns
      (calculateDocumentPrintingPrice
         (Some (mkDoc "A4" "Glossy" (Num #1) "Auto Detect"))
         (docRules defaultPricingRules.document)
         (Some (mkAnalysis (Num #10) (Num #4) (Num #6))))
      (λ res, unitPrice res = Num u)
    ∧ #2 ≤ u ∧ u ≤ #3.
Proof.
  destruct (average_page_rate_is_between defaultPricingRules.document
              "A4" "Glossy" (Num #10) #1 #4 #6)
    as (u & Hu & Hlo & Hhi); [left; by eexists | by vm_compute..|].
  exists u. split; [exact Hu|]. split.
  - eapply Qcle_trans; [|exact Hlo]. by vm_compute.
  - eapply Qcle_trans; [exact Hhi|]. by vm_compute.
Defined.



(** In exact arithmetic, and for a paper type whose lookup finds the
    table's entry or nothing: a document analysed as all colour costs
    its page count times the total of colour mode "Color", and one
    analysed as all black and white its page count times the total of
    "Black & White". *)
Theorem uniform_document_matches_named_mode (r : DocumentRules)
    (ps pt : string) (pc : number) (c n : Qc) :
  own_or_absent (paperTypes r) pt →
  ∃ color bw : Qc,
    returns
      (calculateDocumentPrintingPrice
         (Some (mkDoc ps pt (Num c) "Color")) (docRules r) None)
      (λ res, total res = Num color)
    ∧ returns
        (calculateDocumentPrintingPrice
           (Some (mkDoc ps pt (Num c) "Black & White")) (docRules r) None)
        (λ res, total res = Num bw)
    ∧ returns
        (calculateDocumentPrintingPrice
           (Some (mkDoc ps pt (Num c) "Auto Detect")) (docRules r)
           (Some (mkAnalysis pc (Num n) (Num 0))))
        (λ res, total res = Num (n * color))
    ∧ returns
        (calculateDocumentPrintingPrice
           (Some (mkDoc ps pt (Num c) "Auto Detect")) (docRules r)
           (Some (mkAnalysis pc (Num 0) (Num n))))
        (λ res, total res = Num (n * bw)).
Proof.
  intros Hplain.
  assert (Hc : "Color" ≠ "Auto Detect") by done.
  assert (Hb : "Black & White" ≠ "Auto Detect") by done.
  pose proof (document_flat_finite r ps pt "Color" c None Hplain
                (or_introl Hc)) as Htc.
  pose proof (document_flat_finite r ps pt "Black & White" c None Hplain
                (or_introl Hb)) as Htb.
  pose proof (document_auto_finite r ps pt pc c n 0 Hplain) as Hta.
  pose proof (document_auto_finite r ps pt pc c 0 n Hplain) as Htw.
  exists (pageRate r pt "Color" * effective c),
         (pageRate r pt "Black & White" * effective c).
  destruct (calculateDocumentPrintingPrice
              (Some (mkDoc ps pt (Num c) "Color")) _ _) as [?|rc]; [done|].
  destruct (calculateDocumentPrintingPrice
              (Some (mkDoc ps pt (Num c) "Black & White")) _ _) as [?|rb];
    [done|].
  destruct (calculateDocumentPrintingPrice _ _
              (Some (mkAnalysis pc (Num n) (Num 0)))) as [?|ra]; [done|].
  destruct (calculateDocumentPrintingPrice _ _
              (Some (mkAnalysis pc (Num 0) (Num n)))) as [?|rw]; [done|].
  simpl in *. destruct Htc as [-> _].
  destruct Htb as [-> _].
  destruct Hta as [-> _]. destruct Htw as [-> _].
  split; [done|]. split; [done|].
  unfold perCopyTotal, pageRate, baseRate.
  repeat case_decide; try done. split; do 2 f_equal; ring.
Qed.

Lemma uniform_document_matches_named_mode_witness :
  ∃ color : Qc,
    returns
      (calculateDocumentPrintingPrice
         (Some (mkDoc "A4" "Glossy" (Num #2) "Color"))
         (docRules defaultPricingRules.document) None)
      (λ res, total res = Num color)
    ∧ returns
        (calculateDocumentPrintingPrice
           (Some (mkDoc "A4" "Glossy" (Num #2) "Auto Detect"))
           (docRules defaultPricingRules.document)
           (Some (mkAnalysis NaN (Num #5) (Num 0))))
        (λ res, total res = Num (#5 * color)).
Proof.
  destruct (uniform_document_matches_named_mode defaultPricingRules.document
              "A4" "Glossy" NaN #2 #5)
    as (color & bw & Hc & _ & Ha & _); [left; by eexists|].
  by exists color.
Defined.

End pricing_more.

(** ** The cart *)

Section cart.

Import Cart MoreTerms.

Lemma add_assoc (a b c : number) : a +j b +j c = a +j (b +j c).
Proof. destruct a, b, c; simpl; try done. f_equal. ring. Qed.

Lemma add_comm (a b : number) : a +j b = b +j a.
Proof. destruct a, b; simpl; try done. f_equal. ring. Qed.

Lemma add_zero_l (a : number) : Num 0 +j a = a.
Proof. destruct a; simpl; [|done]. f_equal. ring. Qed.

(** The running sum of [reduce] started from [z]. *)
Lemma reduce_from (z : number) (l : list CartItem) :
  foldl (λ sum item, sum +j amount item) z l
  = z +j foldl (λ sum item, sum +j amount item) (Num 0) l.
Proof.
  revert z. induction l as [|x l IH]; intros z; cbn [foldl].
  - destruct z; simpl; [|done]. f_equal. ring.
  - rewrite (IH (z +j amount x)), (IH (Num 0 +j amount x)).
    by rewrite add_zero_l, add_assoc.
Qed.

Lemma subtotal_priced (c : t) :
  priced c → subtotal c = Num (sum_amounts (items c)).
Proof.
  unfold priced, subtotal. induction 1 as [|x l [q Hq] _ IH]; [done|].
  cbn [foldl sum_amounts]. rewrite reduce_from, IH, add_zero_l, Hq.
  reflexivity.
Qed.

Lemma filter_index_out (i index : Z) (l : list CartItem) :
  (index < i ∨ i + Z.of_nat (length l) ≤ index)%Z →
  filter_index i index l = l.
Proof.
  revert i. induction l as [|x l IH]; intros i Hout; simpl; [done|].
  simpl in Hout. rewrite bool_decide_eq_true_2 by lia.
  f_equal. apply IH. lia.
Qed.

Lemma filter_index_last (i : Z) (l : list CartItem) (x : CartItem) :
  filter_index i (i + Z.of_nat (length l)) (l ++ [x]) = l.
Proof.
  revert i. induction l as [|y l IH]; intros i; simpl.
  - by rewrite bool_decide_eq_false_2 by lia.
  - rewrite bool_decide_eq_true_2 by lia. f_equal.
    replace (i + Z.of_nat (S (length l)))%Z
      with ((i + 1) + Z.of_nat (length l))%Z by lia.
    apply IH.
Qed.

Lemma filter_index_at (i : Z) (l1 l2 : list CartItem) (x : CartItem) :
  filter_index i (i + Z.of_nat (length l1)) (l1 ++ x :: l2) = l1 ++ l2.
Proof.
  revert i. induction l1 as [|y l1 IH]; intros i; simpl.
  - rewrite bool_decide_eq_false_2 by lia.
    apply filter_index_out. lia.
  - rewrite bool_decide_eq_true_2 by lia. f_equal.
    replace (i + Z.of_nat (S (length l1)))%Z
      with ((i + 1) + Z.of_nat (length l1))%Z by lia.
    apply IH.
Qed.

(** The amount due is never negative: a discount within the subtotal is
    subtracted, a larger one brings the total to 0; likewise the change
    is the amount tendered beyond the total, or 0. *)
Theorem cart_total_is_clamped (c : t) (d tendered : Qc) :
  priced c → discount c = Num d →
  let s := sum_amounts (items c) in
  let t := if decide (s - d ≤ 0) then 0 else s - d in
  subtotal c = Num s
  ∧ total c = Num t
  ∧ 0 ≤ t
  ∧ change (Num tendered) c
    = Num (if decide (tendered - t ≤ 0) then 0 else tendered - t).
Proof.
  intros Hp Hd. cbv zeta.
  pose proof (subtotal_priced c Hp) as Hs.
  assert (Ht : total c
               = Num (if decide (sum_amounts (items c) - d ≤ 0) then 0
                      else sum_amounts (items c) - d)).
  { unfold total. rewrite Hs, Hd. reflexivity. }
  split; [done|]. split; [done|]. split.
  - case_decide as Hle; [done|]. apply Qcnot_le_lt in Hle.
    by apply Qclt_le_weak.
  - unfold change. rewrite Ht. reflexivity.
Qed.

Lemma cart_total_is_clamped_witness :
  let c := setDiscount (Num #500)
             (addItem {| serviceId := 1; quantity := Num #1;
                         unitPrice := Num #410; amount := Num #410 |} empty) in
  subtotal c = Num #410 ∧ total c = Num 0
  ∧ change (Num #100) c = Num #100.
Proof.
  cbv zeta.
  edestruct (cart_total_is_clamped
               (setDiscount (Num #500)
                  (addItem {| serviceId := 1; quantity := Num #1;
                              unitPrice := Num #410; amount := Num #410 |}
                     empty)) #500 #100)
    as (Hs & Ht & _ & Hc).
  { repeat constructor. by eexists. }
  { reflexivity. }
  rewrite Hs, Ht, Hc.
  repeat split; f_equal; apply Qc_is_canon; reflexivity.
Defined.

(** Adding a line adds its amount to the subtotal; removing the line at
    a position takes exactly that line out, so the old subtotal is the
    new one plus its amount; a position outside the cart removes
    nothing; and removing the line just added gives the cart back. *)
Theorem cart_lines_add_up :
  (∀ (item : CartItem) (c : t),
     subtotal (addItem item c) = subtotal c +j amount item)
  ∧ (∀ (l1 l2 : list CartItem) (item : CartItem) (d : number),
       let c := {| items := l1 ++ item :: l2; discount := d |} in
       let c' := removeItem (Z.of_nat (length l1)) c in
       items c' = l1 ++ l2
       ∧ subtotal c = subtotal c' +j amount item)
  ∧ (∀ (index : Z) (c : t),
       (index < 0 ∨ Z.of_nat (length (items c)) ≤ index)%Z →
       removeItem index c = c)
  ∧ (∀ (item : CartItem) (c : t),
       removeItem (Z.of_nat (length (items c))) (addItem item c) = c).
Proof.
  split; [|split; [|split]].
  - intros item c. unfold subtotal, addItem; simpl.
    by rewrite foldl_app.
  - intros l1 l2 item d. cbv zeta. unfold removeItem, subtotal; simpl.
    pose proof (filter_index_at 0 l1 l2 item) as Hat.
    rewrite Z.add_0_l in Hat. rewrite Hat. split; [done|].
    rewrite !foldl_app. simpl.
    rewrite (reduce_from (_ +j amount item)), (reduce_from (foldl _ _ l1) l2).
    rewrite !add_assoc. f_equal. apply add_comm.
  - intros index [l d] Hout. unfold removeItem; simpl in *.
    f_equal. apply filter_index_out. lia.
  - intros item [l d]. unfold removeItem, addItem; simpl.
    f_equal. pose proof (filter_index_last 0 l item) as Hlast.
    by rewrite Z.add_0_l in Hlast.
Qed.

Lemma cart_lines_add_up_witness :
  removeItem 5
    (addItem {| serviceId := 1; quantity := Num #1; unitPrice := Num #25;
                amount := Num #25 |} empty)
  = addItem {| serviceId := 1; quantity := Num #1; unitPrice := Num #25;
               amount := Num #25 |} empty.
Proof.
  destruct cart_lines_add_up as (_ & _ & Hout & _).
  apply Hout. simpl. lia.
Defined.

(** [applyDiscount] ignores a value that is NaN or negative; a fixed
    value becomes the discount; a percentage becomes that share of the
    subtotal of the moment and is not recomputed when a line is added
    afterwards. *)
Theorem discount_is_fixed_when_applied :
  (∀ (ty : DiscountType) (c : t), applyDiscount NaN ty c = c)
  ∧ (∀ (v : Qc) (ty : DiscountType) (c : t),
       v < 0 → applyDiscount (Num v) ty c = c)
  ∧ (∀ (v : Qc) (c : t),
       0 ≤ v → discount (applyDiscount (Num v) fixed c) = Num v)
  ∧ (∀ (v : Qc) (c : t) (item : CartItem),
       0 ≤ v →
       discount (addItem item (applyDiscount (Num v) percentage c))
       = Num (v / #100) *j subtotal c).
Proof.
  split; [|split; [|split]].
  - reflexivity.
  - intros v ty c Hv. unfold applyDiscount; simpl.
    by rewrite bool_decide_eq_true_2.
  - intros v c Hv. unfold applyDiscount; simpl.
    rewrite bool_decide_eq_false_2; [done|]. by apply Qcle_not_lt.
  - intros v c item Hv. unfold applyDiscount; simpl.
    rewrite bool_decide_eq_false_2 by (by apply Qcle_not_lt).
    reflexivity.
Qed.

Lemma discount_is_fixed_when_applied_witness :
  let line := {| serviceId := 1; quantity := Num #1; unitPrice := Num #100;
                 amount := Num #100 |} in
  let c := addItem line (applyDiscount (Num #50) percentage
                           (addItem line empty)) in
  discount c = Num #50 ∧ subtotal c = Num #200 ∧ total c = Num #150
  ∧ applyDiscount (Num (- #5)) fixed c = c.
Proof.
  cbv zeta.
  destruct discount_is_fixed_when_applied as (_ & Hneg & _ & Hpct).
  split; [|split; [|split]].
  - rewrite Hpct by (by vm_compute).
    vm_compute; f_equal; apply Qc_is_canon; reflexivity.
  - vm_compute; f_equal; apply Qc_is_canon; reflexivity.
  - vm_compute; f_equal; apply Qc_is_canon; reflexivity.
  - apply Hneg. by vm_compute.
Defined.

End cart.

(** ** Order numbers made on the client *)

Section client_numbers.

Import JsString JsDate Storage OrderNumber ClientOrderNumber.

Lemma string_length_app (a b : string) :
  String.length (a +:+ b) = (String.length a + String.length b)%nat.
Proof.
  induction a as [|x a IH]; [done|].
  rewrite string_app_cons. simpl. by rewrite IH.
Qed.

Lemma substring_prefix (a b : string) :
  String.substring 0 (String.length a) (a +:+ b) = a.
Proof.
  induction a as [|x a IH].
  - by destruct b.
  - rewrite string_app_cons. simpl. by rewrite IH.
Qed.

Lemma prefix_app (a b : string) : String.prefix a (a +:+ b) = true.
Proof.
  induction a as [|x a IH]; [by destruct b|].
  rewrite string_app_cons. simpl. by destruct (Ascii.ascii_dec x x).
Qed.

(** The decimal string of a number with [k + 1] digits has that length. *)
Lemma toString_length (k : nat) (n : Z) :
  (10 ^ Z.of_nat k ≤ n < 10 ^ Z.of_nat (S k))%Z →
  String.length (toString n) = S k.
Proof.
  revert n. induction k as [|k IH]; intros n Hn.
  - rewrite toString_digit; [done|].
    change (10 ^ Z.of_nat 0)%Z with 1%Z in Hn.
    change (10 ^ Z.of_nat 1)%Z with 10%Z in Hn. lia.
  - assert (Hp : (0 < 10 ^ Z.of_nat k)%Z) by (apply Z.pow_pos_nonneg; lia).
    assert (E1 : (10 ^ Z.of_nat (S k) = 10 * 10 ^ Z.of_nat k)%Z)
      by (rewrite Nat2Z.inj_succ, Z.pow_succ_r; lia).
    assert (E2 : (10 ^ Z.of_nat (S (S k)) = 10 * (10 * 10 ^ Z.of_nat k))%Z)
      by (rewrite Nat2Z.inj_succ, Z.pow_succ_r, E1; lia).
    rewrite E1, E2 in Hn.
    rewrite toString_step by lia.
    rewrite string_length_app, IH; [simpl; lia|].
    rewrite E1. split.
    + apply Z.div_le_lower_bound; lia.
    + apply Z.div_lt_upper_bound; lia.
Qed.

(** The temporary number the payment dialog sends has the shape of a
    server candidate, [ORD-YYMMDD-NNNN], with NNNN between 1000 and
    9999. *)
Theorem temporary_number_has_candidate_shape (date : Date) (random : Qc) :
  calendar date → 0 ≤ random → random < 1 →
  ∃ k : Z,
    (1000 ≤ k ≤ 9999)%Z
    ∧ temporaryOrderNumber date random
      = "ORD-" +:+ spec_YYMMDD date +:+ "-" +:+ four_digits k
    ∧ temporaryOrderNumber date random = spec_candidate date (k - 1).
Proof.
  intros Hcal Hlo Hhi.
  exists (Qfloor (#1000 + random * #9000)%Qc).
  assert (Hk0 : #1000 ≤ #1000 + random * #9000).
  { rewrite <- (Qcplus_0_r #1000) at 1. apply Qcplus_le_mono_l.
    apply Qcmult_nonneg_nonneg; [done | by vm_compute]. }
  assert (Hk1 : #1000 + random * #9000 < #10000).
  { replace #10000 with (#1000 + 1 * #9000)
      by (apply Qc_is_canon; reflexivity).
    apply Qcplus_lt_mono_l. apply Qcmult_lt_mono_pos_r; [by vm_compute|done]. }
  assert (Hrange : (1000 ≤ Qfloor (#1000 + random * #9000)%Qc ≤ 9999)%Z).
  { split.
    - change 1000%Z with (Qfloor (inject_Z 1000)).
      by apply Qfloor_resp_le.
    - cut (Qfloor (#1000 + random * #9000)%Qc < 10000)%Z; [lia|].
      rewrite Zlt_Qlt.
      eapply Qle_lt_trans; [apply Qfloor_le | exact Hk1]. }
  split; [done|].
  assert (Hshape : temporaryOrderNumber date random
                   = "ORD-" +:+ spec_YYMMDD date +:+ "-"
                     +:+ four_digits (Qfloor (#1000 + random * #9000)%Qc)).
  { unfold temporaryOrderNumber. cbv zeta.
    rewrite dateString_YYMMDD by done. by rewrite toString_four by lia. }
  split; [done|]. rewrite Hshape. unfold spec_candidate.
  by replace (Qfloor (#1000 + random * #9000)%Qc - 1 + 1)%Z
    with (Qfloor (#1000 + random * #9000)%Qc) by lia.
Qed.

Lemma temporary_number_has_candidate_shape_witness :
  ∃ k : Z,
    (1000 ≤ k ≤ 9999)%Z
    ∧ temporaryOrderNumber Scenario.morning (dec 1 2) = "ORD-261102-5500"
    ∧ temporaryOrderNumber Scenario.morning (dec 1 2)
      = spec_candidate Scenario.morning (k - 1).
Proof.
  destruct (temporary_number_has_candidate_shape Scenario.morning (dec 1 2))
    as (k & Hk & _ & Hcand);
    [vm_compute; repeat split; discriminate | by vm_compute..|].
  exists k. split; [exact Hk|]. split; [by vm_compute | exact Hcand].
Defined.

(** [formatOrderNumber] always yields a string that starts with "ORD-",
    leaves such a string alone (so it is idempotent), and in particular
    leaves every number of the form ORD-YYMMDD-NNNN alone. *)
Theorem formatOrderNumber_is_idempotent :
  (∀ s : string, String.prefix "ORD-" (formatOrderNumber s) = true)
  ∧ (∀ s : string,
       formatOrderNumber (formatOrderNumber s) = formatOrderNumber s)
  ∧ (∀ (d : Date) (n : Z),
       formatOrderNumber (spec_candidate d n) = spec_candidate d n).
Proof.
  assert (Hprefix : ∀ s, String.prefix "ORD-" (formatOrderNumber s) = true).
  { intros s. unfold formatOrderNumber.
    destruct (String.prefix "ORD-" s) eqn:Hs; [done|].
    apply (prefix_app "ORD-"). }
  split; [exact Hprefix|]. split.
  - intros s. unfold formatOrderNumber at 1. by rewrite Hprefix.
  - intros d n. unfold formatOrderNumber, spec_candidate.
    by rewrite (prefix_app "ORD-").
Qed.

(** For a 13-digit millisecond timestamp [generateOrderNumber] is "ORD-"
    followed by the seconds: two timestamps within one second give the
    same number. *)
Theorem generateOrderNumber_is_per_second (t t' : Z) :
  (10 ^ 12 ≤ t < 10 ^ 13)%Z → (t `div` 1000 = t' `div` 1000)%Z →
  (10 ^ 12 ≤ t' < 10 ^ 13)%Z →
  generateOrderNumber t = "ORD-" +:+ toString (t `div` 1000)
  ∧ generateOrderNumber t' = generateOrderNumber t.
Proof.
  assert (Hone : ∀ u, (10 ^ 12 ≤ u < 10 ^ 13)%Z →
            generateOrderNumber u = "ORD-" +:+ toString (u `div` 1000)).
  { intros u Hu. unfold generateOrderNumber. f_equal.
    assert (H1 : (10 ^ 11 ≤ u `div` 10 < 10 ^ 12)%Z).
    { split; [apply Z.div_le_lower_bound | apply Z.div_lt_upper_bound]; lia. }
    assert (H2 : (10 ^ 10 ≤ (u `div` 10) `div` 10 < 10 ^ 11)%Z).
    { split; [apply Z.div_le_lower_bound | apply Z.div_lt_upper_bound]; lia. }
    assert (H3 : (10 ^ 9 ≤ ((u `div` 10) `div` 10) `div` 10 < 10 ^ 10)%Z).
    { split; [apply Z.div_le_lower_bound | apply Z.div_lt_upper_bound]; lia. }
    rewrite (toString_step u) by lia.
    rewrite (toString_step (u `div` 10)) by lia.
    rewrite (toString_step ((u `div` 10) `div` 10)) by lia.
    replace (u `div` 1000)%Z with (((u `div` 10) `div` 10) `div` 10)%Z
      by (rewrite !Z.div_div by lia; reflexivity).
    rewrite !string_app_assoc.
    pose proof (toString_length 9 (((u `div` 10) `div` 10) `div` 10)) as Hlen.
    rewrite <- Hlen at 1 by (simpl; lia).
    apply substring_prefix. }
  intros Ht Hsame Ht'. split; [by apply Hone|].
  by rewrite !Hone, Hsame by done.
Qed.

Lemma generateOrderNumber_is_per_second_witness :
  generateOrderNumber 1793611800123 = "ORD-1793611800"
  ∧ generateOrderNumber 1793611800999 = generateOrderNumber 1793611800123.
Proof.
  destruct (generateOrderNumber_is_per_second 1793611800123 1793611800999)
    as [Hone Hsame]; [lia | reflexivity | lia |].
  split; [|exact Hsame]. rewrite Hone. by vm_compute.
Defined.

End client_numbers.

(** ** [MemStorage]: lookups, counters and the invariant *)

Section memstorage_more.

Import JsString JsDate Storage OrderNumber MemStorageMore.

Lemma find_snoc {A : Type} (f : A → bool) (l : list A) (x : A) :
  List.find f (l ++ [x])
  = match List.find f l with
    | Some y => Some y
    | None => if f x then Some x else None
    end.
Proof.
  induction l as [|y l IH]; simpl; [done|]. by destruct (f y).
Qed.

Lemma find_none_forall {A : Type} (f : A → bool) (l : list A) :
  Forall (λ x, f x = false) l → List.find f l = None.
Proof. induction 1 as [|x l Hx _ IH]; simpl; [done|]. by rewrite Hx. Qed.

Lemma JsMap_get_snoc {V : Type} (k k' : Z) (v : V) (m : JsMap.t V) :
  JsMap.get k (m ++ [(k', v)])
  = match JsMap.get k m with
    | Some x => Some x
    | None => if bool_decide (k' = k) then Some v else None
    end.
Proof.
  unfold JsMap.get. rewrite find_snoc. simpl.
  destruct (List.find _ m); simpl; [done|]. by case_bool_decide.
Qed.

Lemma JsMap_get_above {V : Type} (k bound : Z) (m : JsMap.t V) :
  Forall (λ e, (e.1 < bound)%Z) m → (bound ≤ k)%Z → JsMap.get k m = None.
Proof.
  intros Hm Hk. unfold JsMap.get. rewrite find_none_forall; [done|].
  eapply Forall_impl; [exact Hm|]. intros [k' v] Hlt; simpl in *.
  apply bool_decide_eq_false_2. lia.
Qed.

(** What [createOrder] does to the order map of a consistent store. *)
Lemma mem_createOrder_appends (this : MemStorage.t) (env : Env)
    (io : InsertOrder.t) :
  consistent this →
  ∃ order : Order.t,
    (MemStorage.createOrder env io this).2 = inr order
    ∧ Order.id order = MemStorage.orderCurrentId this
    ∧ Order.orderNumber order
      = MemStorage.allocate this env (InsertOrder.orderNumber io)
    ∧ Order.createdAt order = newDate env 0
    ∧ MemStorage.orders (MemStorage.createOrder env io this).1
      = MemStorage.orders this ++ [(MemStorage.orderCurrentId this, order)].
Proof.
  intros (_ & _ & Hids). eexists. split; [reflexivity|]. simpl.
  repeat split. apply JsMap_set_fresh.
  eapply Forall_impl; [exact Hids | simpl; intros; lia].
Qed.

(** An order created under a free number in a consistent store is the
    one found under its id and under its number, and every other lookup
    answers as before. *)
Theorem created_order_is_found (this : MemStorage.t) (env : Env)
    (io : InsertOrder.t) :
  consistent this →
  MemStorage.allocate this env (InsertOrder.orderNumber io)
    ∉ MemStorage.orderNumbers this →
  let this' := (MemStorage.createOrder env io this).1 in
  ∃ order : Order.t,
    (MemStorage.createOrder env io this).2 = inr order
    ∧ Order.id order = MemStorage.orderCurrentId this
    ∧ MemStorage.getOrder (Order.id order) this' = Some order
    ∧ getOrderByNumber (Order.orderNumber order) this' = Some order
    ∧ (∀ id, id ≠ Order.id order →
             MemStorage.getOrder id this' = MemStorage.getOrder id this)
    ∧ (∀ n, n ≠ Order.orderNumber order →
            getOrderByNumber n this' = getOrderByNumber n this).
Proof.
  intros Hc Hfree. cbv zeta.
  destruct (mem_createOrder_appends this env io Hc)
    as (order & Hres & Hid & Hnum & _ & Horders).
  destruct Hc as (_ & Hrecorded & Hids).
  exists order. split; [exact Hres|]. split; [exact Hid|].
  unfold MemStorage.getOrder, getOrderByNumber. rewrite Horders.
  unfold JsMap.values. rewrite fmap_app. simpl.
  split; [|split; [|split]].
  - rewrite JsMap_get_snoc, (JsMap_get_above _ _ _ Hids) by lia.
    by rewrite bool_decide_eq_true_2.
  - rewrite find_snoc, find_none_forall.
    + by rewrite bool_decide_eq_true_2.
    + apply Forall_forall. intros o Ho.
      apply bool_decide_eq_false_2. intros Heq.
      apply Hfree. rewrite <- Hnum, <- Heq. by apply Hrecorded.
  - intros id Hne. rewrite JsMap_get_snoc.
    destruct (JsMap.get id (MemStorage.orders this)); [done|].
    rewrite bool_decide_eq_false_2; [done|]. congruence.
  - intros n Hne. rewrite find_snoc.
    destruct (List.find _ _); [done|].
    by rewrite bool_decide_eq_false_2.
Qed.

(** The store the constructor builds, whatever the clock showed. *)
Lemma new_is_consistent (env : Env) : consistent (MemStorage.new env).
Proof.
  assert (Hnumbers : Order.orderNumber
                       <$> JsMap.values (MemStorage.orders (MemStorage.new env))
                     = ["ORD-2023-0041"; "ORD-2023-0040"; "ORD-2023-0039"])
    by (by vm_compute).
  split; [|split].
  - rewrite Hnumbers. by_decide.
  - intros o Ho.
    assert (Hin : Order.orderNumber o
                    ∈ ["ORD-2023-0041"; "ORD-2023-0040"; "ORD-2023-0039"]).
    { rewrite <- Hnumbers. apply list_elem_of_fmap. by exists o. }
    repeat (apply elem_of_cons in Hin as [->|Hin]; [by_decide|]).
    by apply elem_of_nil in Hin.
  - assert (Hids : (MemStorage.orders (MemStorage.new env)).*1
                   = [1%Z; 2%Z; 3%Z]) by (by vm_compute).
    assert (Hcounter : MemStorage.orderCurrentId (MemStorage.new env) = 4%Z)
      by (by vm_compute).
    rewrite Hcounter. apply (Forall_fmap fst (λ k, (k < 4)%Z)).
    rewrite Hids. repeat constructor.
Qed.

Lemma created_order_is_found_witness :
  ∃ order : Order.t,
    (MemStorage.createOrder (Scenario.at_morning 0)
       (Scenario.request "ORD-261102-4711") Scenario.seeded).2 = inr order
    ∧ getOrderByNumber "ORD-261102-4711"
        (MemStorage.createOrder (Scenario.at_morning 0)
           (Scenario.request "ORD-261102-4711") Scenario.seeded).1
      = Some order.
Proof.
  destruct (created_order_is_found Scenario.seeded (Scenario.at_morning 0)
              (Scenario.request "ORD-261102-4711"))
    as (order & Hres & _ & _ & Hfound & _);
    [apply new_is_consistent | by_decide |].
  exists order. split; [exact Hres|].
  assert (Hn : Order.orderNumber order = "ORD-261102-4711").
  { simpl in Hres. injection Hres as <-. by vm_compute. }
  rewrite Hn in Hfound. exact Hfound.
Defined.

(** Each order created in a consistent store raises by one the count of
    the day of its [createdAt], and of no other day: the sequence part of
    the next candidate of that day advances by one. *)
Theorem today_count_advances (this : MemStorage.t) (env : Env)
    (io : InsertOrder.t) (date : Date) :
  consistent this →
  MemStorage.todayOrders (MemStorage.createOrder env io this).1 date
  = (MemStorage.todayOrders this date
     + (if decide (toDateString (newDate env 0) = toDateString date)
        then 1 else 0))%Z.
Proof.
  intros Hc.
  destruct (mem_createOrder_appends this env io Hc)
    as (order & _ & _ & _ & Hat & Horders).
  unfold MemStorage.todayOrders. rewrite Horders.
  unfold JsMap.values. rewrite fmap_app, filter_app, length_app. simpl.
  rewrite filter_cons, filter_nil, Hat.
  destruct (decide (toDateString (newDate env 0) = toDateString date));
    simpl; lia.
Qed.

Lemma today_count_advances_witness :
  MemStorage.todayOrders
    (MemStorage.createOrder (Scenario.at_morning 0) (Scenario.request "")
       Scenario.seeded).1 Scenario.morning = 4%Z.
Proof.
  rewrite (today_count_advances Scenario.seeded (Scenario.at_morning 0)
             (Scenario.request "") Scenario.morning
             (new_is_consistent (Scenario.at_morning 0))).
  reflexivity.
Defined.

(** The store the constructor builds is consistent, and [createOrder]
    keeps a store consistent unless the candidate and its suffixed form
    are both taken already: short of that double collision the stored
    numbers stay pairwise distinct. *)
Theorem memstorage_stays_consistent :
  (∀ env : Env, consistent (MemStorage.new env))
  ∧ ∀ (this : MemStorage.t) (env : Env) (io : InsertOrder.t),
      consistent this →
      ¬ (mem_candidate this env ∈ MemStorage.orderNumbers this
         ∧ mem_candidate this env +:+ "-" +:+ randomSuffix (mathRandom env)
             ∈ MemStorage.orderNumbers this) →
      consistent (MemStorage.createOrder env io this).1.
Proof.
  split; [apply new_is_consistent|].
  intros this env io Hc Hnot.
  apply memstorage_numbers_stay_distinct; [done|].
  by destruct (allocate_free_or_both_taken this env
                 (InsertOrder.orderNumber io)).
Qed.

Lemma memstorage_stays_consistent_witness :
  consistent
    (MemStorage.createOrder (Scenario.at_morning 0) (Scenario.request "")
       Scenario.seeded).1.
Proof.
  destruct memstorage_stays_consistent as [Hnew Hstep].
  apply Hstep; [apply Hnew|].
  intros [Htaken _]. revert Htaken. by_decide.
Defined.

End memstorage_more.

(** ** [DatabaseStorage]: constraints, lookups and deletion *)

Section database_more.

Import JsString JsDate Storage OrderNumber MoreTerms DatabaseStorageMore.

Lemma NoDup_snoc {A : Type} (l : list A) (x : A) :
  NoDup l → x ∉ l → NoDup (l ++ [x]).
Proof.
  intros Hl Hx. apply NoDup_app. split; [done|].
  split; [|apply NoDup_singleton].
  intros y Hy Hy'. apply list_elem_of_singleton in Hy'. by subst y.
Qed.

Lemma NoDup_fmap_filter {A B : Type} (f : A → B) (P : A → Prop)
    `{!∀ x, Decision (P x)} (l : list A) :
  NoDup (f <$> l) → NoDup (f <$> filter P l).
Proof.
  induction l as [|x l IH]; [done|]. simpl.
  intros Hnd. apply NoDup_cons in Hnd as [Hx Hl].
  rewrite filter_cons. destruct (decide (P x)); [|by apply IH].
  simpl. apply NoDup_cons. split; [|by apply IH].
  intros Hin. apply Hx.
  apply list_elem_of_fmap in Hin as (y & -> & Hy).
  apply list_elem_of_fmap. exists y. split; [done|].
  by apply list_elem_of_filter in Hy as [_ Hy].
Qed.

(** What a successful [createOrder] leaves in the table. *)
Lemma db_createOrder_success (db db' : DatabaseStorage.t) (env : Env)
    (io : InsertOrder.t) (order : Order.t) :
  DatabaseStorage.createOrder env io db = (db', inr order) →
  Order.id order = DatabaseStorage.orders_id_seq db
  ∧ (Order.orderNumber order
       ∉ Order.orderNumber <$> DatabaseStorage.orders db)
  ∧ DatabaseStorage.orders db' = DatabaseStorage.orders db ++ [order]
  ∧ DatabaseStorage.orderItems db' = DatabaseStorage.orderItems db
  ∧ DatabaseStorage.orders_id_seq db' = (DatabaseStorage.orders_id_seq db + 1)%Z
  ∧ DatabaseStorage.services db' = DatabaseStorage.services db.
Proof.
  unfold DatabaseStorage.createOrder, DatabaseStorage.insert_order.
  intros Hcreate. repeat case_bool_decide; simplify_eq/=. done.
Qed.

Lemma db_createOrder_failure (db db' : DatabaseStorage.t) (env : Env)
    (io : InsertOrder.t) (e : exn) :
  DatabaseStorage.createOrder env io db = (db', inl e) →
  DatabaseStorage.orders db' = DatabaseStorage.orders db
  ∧ DatabaseStorage.orderItems db' = DatabaseStorage.orderItems db
  ∧ (DatabaseStorage.orders_id_seq db ≤ DatabaseStorage.orders_id_seq db')%Z
  ∧ DatabaseStorage.services db' = DatabaseStorage.services db.
Proof.
  unfold DatabaseStorage.createOrder, DatabaseStorage.insert_order.
  intros Hcreate. repeat case_bool_decide; simplify_eq/=;
    repeat split; lia.
Qed.

(** What [createOrderItem] leaves in the tables. *)
Lemma db_createOrderItem_success (v : InsertOrderItem.t)
    (db db' : DatabaseStorage.t) (item : OrderItem.t) :
  DatabaseStorage.createOrderItem v db = (db', inr item) →
  (∃ orderId, InsertOrderItem.orderId v = Some orderId
     ∧ OrderItem.orderId item = Some orderId
     ∧ orderId ∈ Order.id <$> DatabaseStorage.orders db)
  ∧ OrderItem.serviceId item = InsertOrderItem.serviceId v
  ∧ OrderItem.quantity item = InsertOrderItem.quantity v
  ∧ OrderItem.serviceId item ∈ DatabaseStorage.services db
  ∧ DatabaseStorage.orders db' = DatabaseStorage.orders db
  ∧ DatabaseStorage.orderItems db' = DatabaseStorage.orderItems db ++ [item]
  ∧ DatabaseStorage.orders_id_seq db' = DatabaseStorage.orders_id_seq db
  ∧ DatabaseStorage.services db' = DatabaseStorage.services db.
Proof.
  unfold DatabaseStorage.createOrderItem. intros Hcreate.
  destruct (negb _); [done|].
  destruct (InsertOrderItem.orderId v) as [orderId|]; [|done].
  repeat case_bool_decide; simplify_eq/=.
  split; [by exists orderId|]. done.
Qed.

Lemma db_createOrderItem_failure (v : InsertOrderItem.t)
    (db db' : DatabaseStorage.t) (e : exn) :
  DatabaseStorage.createOrderItem v db = (db', inl e) →
  DatabaseStorage.orders db' = DatabaseStorage.orders db
  ∧ DatabaseStorage.orderItems db' = DatabaseStorage.orderItems db
  ∧ DatabaseStorage.orders_id_seq db' = DatabaseStorage.orders_id_seq db
  ∧ DatabaseStorage.services db' = DatabaseStorage.services db.
Proof.
  unfold DatabaseStorage.createOrderItem. intros Hcreate.
  destruct (negb _); [by simplify_eq|].
  destruct (InsertOrderItem.orderId v) as [orderId|]; [|by simplify_eq].
  repeat case_bool_decide; by simplify_eq/=.
Qed.

Lemma db_createOrder_wf (db : DatabaseStorage.t) (env : Env)
    (io : InsertOrder.t) :
  db_wf db → db_wf (DatabaseStorage.createOrder env io db).1.
Proof.
  intros (Hnum & Hseq & Hids & Hitems).
  destruct (DatabaseStorage.createOrder env io db) as [db' [e|order]]
    eqn:Hcreate; simpl.
  - destruct (db_createOrder_failure _ _ _ _ _ Hcreate)
      as (Ho & Hi & Hs & Hsv).
    unfold db_wf. rewrite Ho, Hi, Hsv.
    repeat split; try done.
    eapply Forall_impl; [exact Hseq | simpl; intros; lia].
  - destruct (db_createOrder_success _ _ _ _ _ Hcreate)
      as (Hid & Hfresh & Ho & Hi & Hs & Hsv).
    unfold db_wf. rewrite Ho, Hi, Hs, Hsv, !fmap_app. simpl.
    split; [by apply NoDup_snoc|]. split; [|split].
    + apply Forall_app. split.
      * eapply Forall_impl; [exact Hseq | simpl; intros; lia].
      * apply Forall_singleton. lia.
    + apply NoDup_snoc; [done|]. intros Hin.
      apply list_elem_of_fmap in Hin as (o & Ho' & Hin).
      rewrite Forall_forall in Hseq. specialize (Hseq o Hin). lia.
    + eapply Forall_impl; [exact Hitems|]. simpl.
      intros item [(k & Hk & Hin) ?].
      split; [|done]. exists k. split; [done|].
      apply elem_of_app. by left.
Qed.

Lemma db_createOrderItem_wf (db : DatabaseStorage.t) (v : InsertOrderItem.t) :
  db_wf db → db_wf (DatabaseStorage.createOrderItem v db).1.
Proof.
  intros (Hnum & Hseq & Hids & Hitems).
  destruct (DatabaseStorage.createOrderItem v db) as [db' [e|item]]
    eqn:Hcreate; simpl.
  - destruct (db_createOrderItem_failure _ _ _ _ Hcreate)
      as (Ho & Hi & Hs & Hsv).
    unfold db_wf. by rewrite Ho, Hi, Hs, Hsv.
  - destruct (db_createOrderItem_success _ _ _ _ Hcreate)
      as ((k & _ & Hk & Hin) & _ & _ & Hservice & Ho & Hi & Hs & Hsv).
    unfold db_wf. rewrite Ho, Hi, Hs, Hsv.
    repeat split; try done. apply Forall_app. split; [done|].
    apply Forall_singleton. split; [by exists k | done].
Qed.

(** The three writers of the order tables keep the constraints: inserting
    an order, inserting an item and deleting an order. *)
Theorem database_constraints_are_kept :
  (∀ (db : DatabaseStorage.t) (env : Env) (io : InsertOrder.t),
     db_wf db → db_wf (DatabaseStorage.createOrder env io db).1)
  ∧ (∀ (db : DatabaseStorage.t) (v : InsertOrderItem.t),
       db_wf db → db_wf (DatabaseStorage.createOrderItem v db).1)
  ∧ (∀ (db : DatabaseStorage.t) (orderId : Z),
       db_wf db → db_wf (deleteOrder orderId db).1).
Proof.
  split; [|split].
  - apply db_createOrder_wf.
  - apply db_createOrderItem_wf.
  - intros db orderId (Hnum & Hseq & Hids & Hitems).
    unfold deleteOrder, db_wf; simpl.
    split; [by apply NoDup_fmap_filter|]. split; [|split].
    + apply Forall_forall. intros o Ho.
      apply list_elem_of_filter in Ho as [_ Ho].
      rewrite Forall_forall in Hseq. by apply Hseq.
    + by apply NoDup_fmap_filter.
    + apply Forall_forall. intros item Hitem.
      apply list_elem_of_filter in Hitem as [Hne Hitem].
      rewrite Forall_forall in Hitems.
      destruct (Hitems item Hitem) as [(k & Hk & Hin) Hsv]. split; [|done].
      exists k. split; [done|].
      apply list_elem_of_fmap in Hin as (o & Ho & Hin).
      apply list_elem_of_fmap. exists o. split; [done|].
      apply list_elem_of_filter. split; [congruence | done].
Qed.

Lemma no_rows_wf : db_wf Scenario.no_rows.
Proof.
  repeat split; simpl; try apply NoDup_nil_2; apply Forall_nil_2.
Qed.

Lemma since_yesterday_wf : db_wf Scenario.since_yesterday.
Proof.
  repeat split; simpl.
  - apply NoDup_singleton.
  - apply Forall_singleton. simpl. lia.
  - apply NoDup_singleton.
  - apply Forall_nil_2.
Qed.

Lemma database_constraints_are_kept_witness :
  db_wf (DatabaseStorage.createOrder (Scenario.at_morning 0)
           (Scenario.request "") Scenario.since_yesterday).1
  ∧ db_wf (deleteOrder 1 Scenario.since_yesterday).1.
Proof.
  destruct database_constraints_are_kept as (Hcreate & _ & Hdelete).
  split; [apply Hcreate | apply Hdelete]; apply since_yesterday_wf.
Defined.




Lemma filter_ne_id {A K : Type} `{!EqDecision K} (key : A → K) (k : K)
    (l : list A) :
  k ∉ key <$> l → filter (λ x, key x ≠ k) l = l.
Proof.
  induction l as [|x l IH]; [done|]. simpl. intros Hk.
  apply not_elem_of_cons in Hk as [Hx Hl].
  rewrite filter_cons, decide_True by congruence. by rewrite IH.
Qed.

Lemma filter_eq_nil_iff {A K : Type} `{!EqDecision K} (key : A → K) (k : K)
    (l : list A) :
  filter (λ x, key x = k) l = [] ↔ k ∉ key <$> l.
Proof.
  induction l as [|x l IH]; simpl.
  - split; [intros _; apply not_elem_of_nil | done].
  - rewrite filter_cons, not_elem_of_cons.
    destruct (decide (key x = k)) as [Hx|Hx].
    + split; [done | intros [Hne _]; congruence].
    + rewrite IH. split; [intros; split; [congruence | done] | by intros [_ ?]].
Qed.

(** On tables that satisfy their constraints, the order [createOrder]
    returns is the one both lookups find afterwards, it starts without
    items, and the orders found before are still found. *)
Theorem database_order_round_trip (db db' : DatabaseStorage.t) (env : Env)
    (io : InsertOrder.t) (order : Order.t) :
  db_wf db →
  DatabaseStorage.createOrder env io db = (db', inr order) →
  DatabaseStorage.getOrder (Order.id order) db' = Some order
  ∧ getOrderByNumber (Order.orderNumber order) db' = Some order
  ∧ DatabaseStorage.getOrderItems (Order.id order) db' = []
  ∧ ∀ (id : Z) (o : Order.t),
      DatabaseStorage.getOrder id db = Some o →
      DatabaseStorage.getOrder id db' = Some o.
Proof.
  intros (Hnum & Hseq & Hids & Hitems) Hcreate.
  destruct (db_createOrder_success _ _ _ _ _ Hcreate)
    as (Hid & Hfresh & Ho & Hi & Hs & Hsv).
  unfold DatabaseStorage.getOrder, getOrderByNumber,
    DatabaseStorage.getOrderItems.
  rewrite Ho, Hi, !find_snoc. split; [|split; [|split]].
  - rewrite find_none_forall, bool_decide_eq_true_2; [done..|].
    eapply Forall_impl; [exact Hseq|]. simpl. intros o Hlt.
    apply bool_decide_eq_false_2. lia.
  - rewrite find_none_forall, bool_decide_eq_true_2; [done..|].
    apply Forall_forall. intros o Hin. apply bool_decide_eq_false_2.
    intros Heq. apply Hfresh. apply list_elem_of_fmap. by exists o.
  - apply (filter_eq_nil_iff OrderItem.orderId). intros Hin.
    apply list_elem_of_fmap in Hin as (item & Hitem & Hin).
    rewrite Forall_forall in Hitems.
    destruct (Hitems item Hin) as [(k & Hk & Hex) _].
    apply list_elem_of_fmap in Hex as (o & Ho' & Hex).
    rewrite Forall_forall in Hseq. specialize (Hseq o Hex).
    rewrite Hk in Hitem. simplify_eq. lia.
  - intros id o Hfind. by rewrite find_snoc, Hfind.
Qed.

Lemma database_order_round_trip_witness :
  ∃ (db' : DatabaseStorage.t) (order : Order.t),
    DatabaseStorage.createOrder (Scenario.at_morning 0) (Scenario.request "")
      Scenario.no_rows = (db', inr order)
    ∧ DatabaseStorage.getOrder 1 db' = Some order
    ∧ getOrderByNumber "ORD-261102-0001" db' = Some order.
Proof.
  destruct (DatabaseStorage.createOrder (Scenario.at_morning 0)
              (Scenario.request "") Scenario.no_rows) as [db' res] eqn:Hcreate.
  assert (Hres : ∃ order, res = inr order
                          ∧ Order.id order = 1%Z
                          ∧ Order.orderNumber order = "ORD-261102-0001").
  { vm_compute in Hcreate. injection Hcreate as _ <-. by eexists. }
  destruct Hres as (order & -> & Hid & Hn).
  destruct (database_order_round_trip _ _ _ _ _ no_rows_wf Hcreate)
    as (Hfound & Hnumber & _).
  rewrite Hid in Hfound. rewrite Hn in Hnumber. by exists db', order.
Defined.










End database_more.

(** ** Items of an order, and the order routes *)

Section items_and_routes.

Import JsString JsDate Storage Routes Intake OrderNumber MoreTerms.





(** [DatabaseStorage.createOrderItem] stores an item only of an order
    and of a service that exist, with a quantity that fits its column;
    then [getOrderItems] of its order lists it last.  An item that
    names no order, or an order that does not exist, is refused; and
    whenever the call fails the table keeps its rows. *)
Theorem database_item_needs_its_order (v : InsertOrderItem.t)
    (db : DatabaseStorage.t) :
  (∀ item, (DatabaseStorage.createOrderItem v db).2 = inr item →
     ∃ orderId : Z,
       InsertOrderItem.orderId v = Some orderId
       ∧ orderId ∈ Order.id <$> DatabaseStorage.orders db
       ∧ InsertOrderItem.serviceId v ∈ DatabaseStorage.services db
       ∧ Pg.int4 (InsertOrderItem.quantity v)
       ∧ DatabaseStorage.getOrderItems orderId
           (DatabaseStorage.createOrderItem v db).1
         = DatabaseStorage.getOrderItems orderId db ++ [item])
  ∧ ((∀ orderId, InsertOrderItem.orderId v = Some orderId →
        orderId ∉ Order.id <$> DatabaseStorage.orders db) →
     ∃ e, (DatabaseStorage.createOrderItem v db).2 = inl e)
  ∧ (∀ e, (DatabaseStorage.createOrderItem v db).2 = inl e →
       DatabaseStorage.orderItems (DatabaseStorage.createOrderItem v db).1
       = DatabaseStorage.orderItems db).
Proof.
  unfold DatabaseStorage.createOrderItem, DatabaseStorage.getOrderItems.
  destruct (Pg.binds _ && _ && _) eqn:Hfit; simpl.
  - apply andb_true_iff in Hfit as [_ Hq].
    apply bool_decide_eq_true_1 in Hq.
    destruct (InsertOrderItem.orderId v) as [orderId|]; simpl.
    + case_bool_decide as Horder; simpl.
      * case_bool_decide as Hservice; simpl.
        -- split; [|split].
           ++ intros item [= <-]. exists orderId.
              do 4 (split; [done|]).
              by rewrite filter_app, filter_cons, decide_True, filter_nil.
           ++ intros Hnone. by destruct (Hnone orderId).
           ++ by intros e [=].
        -- split; [|split]; [by intros item [=] | by eexists | done].
      * split; [|split]; [by intros item [=] | by eexists | done].
    + split; [|split]; [by intros item [=] | by eexists | done].
  - split; [|split]; [by intros item [=] | by eexists | done].
Qed.

Lemma database_item_needs_its_order_witness :
  (∃ item : OrderItem.t,
     (DatabaseStorage.createOrderItem
        {| InsertOrderItem.orderId := Some 1%Z; InsertOrderItem.serviceId := 2;
           InsertOrderItem.quantity := 3; InsertOrderItem.unitPrice := #50;
           InsertOrderItem.amount := #150 |} Scenario.one_row).2 = inr item
     ∧ DatabaseStorage.getOrderItems 1
         (DatabaseStorage.createOrderItem
            {| InsertOrderItem.orderId := Some 1%Z;
               InsertOrderItem.serviceId := 2;
               InsertOrderItem.quantity := 3; InsertOrderItem.unitPrice := #50;
               InsertOrderItem.amount := #150 |} Scenario.one_row).1 = [item])
  ∧ (∃ e, (DatabaseStorage.createOrderItem Scenario.item_of_order_7
             Scenario.one_row).2 = inl e).
Proof.
  split.
  - destruct (database_item_needs_its_order
                {| InsertOrderItem.orderId := Some 1%Z;
                   InsertOrderItem.serviceId := 2;
                   InsertOrderItem.quantity := 3;
                   InsertOrderItem.unitPrice := #50;
                   InsertOrderItem.amount := #150 |} Scenario.one_row)
      as (Hstored & _ & _).
    eexists. split; [by vm_compute|].
    destruct (Hstored _ ltac:(by vm_compute)) as (k & Hk & _ & _ & _ & Hlist).
    simpl in Hk. injection Hk as <-. exact Hlist.
  - destruct (database_item_needs_its_order Scenario.item_of_order_7
                Scenario.one_row) as (_ & Hrefused & _).
    apply Hrefused. intros k [= <-]. by_decide.
Defined.

(** The item loop on the database leaves the [orders] table, the
    sequences of orders and the services alone, and keeps the rows of
    [order_items]. *)
Lemma db_createItems_frame (order : Order.t) (items : list RawItem) :
  ∀ (acc : list OrderItem.t) (db db' : DatabaseStorage.t)
    (res : exn + list OrderItem.t),
    createItems order items acc db = (db', res) →
    DatabaseStorage.orders db' = DatabaseStorage.orders db
    ∧ DatabaseStorage.orders_id_seq db' = DatabaseStorage.orders_id_seq db
    ∧ DatabaseStorage.services db' = DatabaseStorage.services db
    ∧ (db_wf db → db_wf db').
Proof.
  induction items as [|i items IH]; intros acc db db' res Hloop.
  - by injection Hloop as <- <-.
  - cbn [createItems] in Hloop. unfold bind at 1 in Hloop.
    unfold insertOrderItemSchema_parse in Hloop.
    destruct (serviceId i) as [sv|]; [|by injection Hloop as <- <-].
    destruct (quantity i) as [q|]; [|by injection Hloop as <- <-].
    destruct (unitPrice i) as [u|]; [|by injection Hloop as <- <-].
    destruct (amount i) as [a|]; [|by injection Hloop as <- <-].
    unfold ret at 1 in Hloop. unfold bind at 1 in Hloop.
    set (v := {| InsertOrderItem.orderId := Some (Order.id order);
                 InsertOrderItem.serviceId := sv;
                 InsertOrderItem.quantity := q;
                 InsertOrderItem.unitPrice := u;
                 InsertOrderItem.amount := a |}) in Hloop.
    change (createOrderItem v db)
      with (DatabaseStorage.createOrderItem v db) in Hloop.
    pose proof (db_createOrderItem_wf db v) as Hwf1.
    destruct (DatabaseStorage.createOrderItem v db) as [db1 [e|item]]
      eqn:Hitem; simpl in Hwf1.
    + injection Hloop as <- <-.
      by destruct (db_createOrderItem_failure _ _ _ _ Hitem)
        as (Ho & _ & Hs & Hsv).
    + destruct (db_createOrderItem_success _ _ _ _ Hitem)
        as (_ & _ & _ & _ & Ho & _ & Hs & Hsv).
      destruct (IH _ _ _ _ Hloop) as (Ho' & Hs' & Hsv' & Hwf').
      rewrite Ho', Hs', Hsv'. do 3 (split; [done|]).
      intros Hwf. by apply Hwf', Hwf1.
Qed.

(** When the loop returns, it has appended one row per request item, in
    the order of the request. *)
Lemma db_createItems_success (order : Order.t) (items : list RawItem) :
  ∀ (acc out : list OrderItem.t) (db db' : DatabaseStorage.t),
    createItems order items acc db = (db', inr out) →
    ∃ created : list OrderItem.t,
      out = acc ++ created
      ∧ Forall2 (carries (Order.id order)) created items
      ∧ DatabaseStorage.orderItems db'
        = DatabaseStorage.orderItems db ++ created.
Proof.
  induction items as [|i items IH]; intros acc out db db' Hloop.
  - injection Hloop as <- <-. exists []. by rewrite !app_nil_r.
  - cbn [createItems] in Hloop. unfold bind at 1 in Hloop.
    unfold insertOrderItemSchema_parse in Hloop.
    destruct (serviceId i) as [sv|] eqn:Hsv; [|done].
    destruct (quantity i) as [q|] eqn:Hq; [|done].
    destruct (unitPrice i) as [u|]; [|done].
    destruct (amount i) as [a|]; [|done].
    unfold ret at 1 in Hloop. unfold bind at 1 in Hloop.
    set (v := {| InsertOrderItem.orderId := Some (Order.id order);
                 InsertOrderItem.serviceId := sv;
                 InsertOrderItem.quantity := q;
                 InsertOrderItem.unitPrice := u;
                 InsertOrderItem.amount := a |}) in Hloop.
    change (createOrderItem v db)
      with (DatabaseStorage.createOrderItem v db) in Hloop.
    destruct (DatabaseStorage.createOrderItem v db) as [db1 [e|item]]
      eqn:Hitem; [done|].
    destruct (db_createOrderItem_success _ _ _ _ Hitem)
      as ((k & Hk & Hitem_order & _) & Hservice & Hquantity & _ & _ & Happ & _).
    destruct (IH _ _ _ _ Hloop) as (created & -> & Hcarry & Happ').
    exists (item :: created). split; [by rewrite <- app_assoc|].
    split.
    + apply Forall2_cons. split; [|done].
      unfold carries. simpl in Hk. injection Hk as <-.
      rewrite Hitem_order, Hservice, Hquantity. by subst v.
    + by rewrite Happ', Happ, <- app_assoc.
Qed.

Lemma db_createOrder_columns (db db' : DatabaseStorage.t) (env : Env)
    (io : InsertOrder.t) (order : Order.t) :
  DatabaseStorage.createOrder env io db = (db', inr order) →
  Order.createdBy order = InsertOrder.createdBy io
  ∧ Order.orderNumber order
    = if decide (InsertOrder.orderNumber io = "")
      then DatabaseStorage.candidate env db
      else InsertOrder.orderNumber io.
Proof.
  unfold DatabaseStorage.createOrder, truthy_str.
  destruct (decide (InsertOrder.orderNumber io = "")) as [Hempty|Hsupplied].
  - rewrite Hempty. simpl. unfold DatabaseStorage.insert_order. simpl.
    intros Hcreate. repeat case_bool_decide; by simplify_eq/=.
  - rewrite (bool_decide_eq_true_2 _ Hsupplied). simpl.
    unfold DatabaseStorage.insert_order.
    intros Hcreate. repeat case_bool_decide; by simplify_eq/=.
Qed.

(** When [POST /api/orders] answers 201 on tables that satisfy their
    constraints: the order was created by the user of the session,
    under the number of the request when there is one; the items
    returned are of that order and carry the service and the quantity
    of the request items, in their order; [GET /api/orders/:id] of the
    new id answers with the same order and the same items; and the
    tables still satisfy their constraints. *)
Theorem posted_order_can_be_read_back (db db' : DatabaseStorage.t)
    (env : Env) (userId : Z) (b : Body) (order : Order.t)
    (created : list OrderItem.t) :
  db_wf db →
  postOrders env userId b db = (db', Status201 order created) →
  Order.createdBy order = userId
  ∧ (∃ n, orderNumber (orderData b) = Some n
          ∧ Order.orderNumber order
            = if decide (n = "") then DatabaseStorage.candidate env db else n)
  ∧ Forall2 (carries (Order.id order)) created (default [] (items b))
  ∧ RoutesMore.getOrderHandler (Order.id order) db'
    = RoutesMore.Ok200 order created
  ∧ db_wf db'.
Proof.
  intros Hwf Hpost.
  unfold postOrders, insertOrderSchema_parse in Hpost.
  unfold bind at 1 in Hpost.
  destruct (orderNumber (orderData b)) as [n|] eqn:Hn; [|done].
  destruct (total (orderData b)) as [t|] eqn:Ht; [|done].
  unfold ret at 1 in Hpost. unfold bind at 1 in Hpost.
  set (io := {| InsertOrder.orderNumber := n; InsertOrder.total := t;
                InsertOrder.createdBy := userId |}) in Hpost.
  change (createOrder env io db)
    with (DatabaseStorage.createOrder env io db) in Hpost.
  pose proof (db_createOrder_wf db env io Hwf) as Hwf1.
  destruct (DatabaseStorage.createOrder env io db) as [db1 [e|order1]]
    eqn:Hcreate; [by destruct e|].
  simpl in Hwf1. unfold bind at 1 in Hpost.
  destruct (createItems order1 (default [] (items b)) [] db1)
    as [db2 [e|out]] eqn:Hloop; [by destruct e|].
  unfold ret in Hpost. injection Hpost as -> -> ->.
  destruct (db_createItems_frame _ _ _ _ _ _ Hloop) as (Ho & Hs & Hsv & Hkeep).
  destruct (db_createItems_success _ _ _ _ _ _ Hloop)
    as (created' & -> & Hcarry & Happ).
  simpl in *.
  destruct (db_createOrder_success _ _ _ _ _ Hcreate)
    as (Hid & Hfresh & Ho1 & Hi1 & Hs1 & Hsv1).
  destruct Hwf as (Hnum & Hseq & Hids & Hitems).
  destruct (db_createOrder_columns _ _ _ _ _ Hcreate) as (Hby & Hnumber).
  split; [done|]. split; [by exists n|]. split; [done|].
  split; [|by apply Hkeep].
  - unfold RoutesMore.getOrderHandler.
    change (getOrder (Order.id order) db')
      with (DatabaseStorage.getOrder (Order.id order) db').
    unfold DatabaseStorage.getOrder. rewrite Ho, Ho1, find_snoc.
    rewrite find_none_forall, bool_decide_eq_true_2; [|done|].
    2:{ eapply Forall_impl; [exact Hseq|]. simpl. intros o Hlt.
        apply bool_decide_eq_false_2. lia. }
    f_equal.
    change (getOrderItems (Order.id order) db')
      with (DatabaseStorage.getOrderItems (Order.id order) db').
    unfold DatabaseStorage.getOrderItems. rewrite Happ, Hi1, filter_app.
    assert (Hold : filter (λ item, OrderItem.orderId item
                                   = Some (Order.id order))
                     (DatabaseStorage.orderItems db) = []).
    { apply (filter_eq_nil_iff OrderItem.orderId). intros Hin.
      apply list_elem_of_fmap in Hin as (item & Hitem & Hin).
      rewrite Forall_forall in Hitems.
      destruct (Hitems item Hin) as [(k & Hk & Hex) _].
      apply list_elem_of_fmap in Hex as (o & Ho' & Hex).
      rewrite Forall_forall in Hseq. specialize (Hseq o Hex).
      rewrite Hk in Hitem. simplify_eq. lia. }
    rewrite Hold. simpl.
    clear -Hcarry. induction Hcarry as [|item i created items' Hc _ IH];
      [done|].
    rewrite filter_cons, decide_True by apply Hc. by rewrite IH.
Qed.

Lemma posted_order_can_be_read_back_witness :
  ∃ (db' : DatabaseStorage.t) (order : Order.t) (created : list OrderItem.t),
    postOrders (Scenario.at_morning 0) 1
      (Scenario.body "" [Scenario.good_item; Scenario.good_item])
      Scenario.since_yesterday = (db', Status201 order created)
    ∧ Order.orderNumber order = "ORD-261102-0001"
    ∧ length created = 2%nat
    ∧ RoutesMore.getOrderHandler (Order.id order) db'
      = RoutesMore.Ok200 order created.
Proof.
  destruct (postOrders (Scenario.at_morning 0) 1
              (Scenario.body "" [Scenario.good_item; Scenario.good_item])
              Scenario.since_yesterday) as [db' res] eqn:Hpost.
  assert (Hres : ∃ order created, res = Status201 order created).
  { vm_compute in Hpost. injection Hpost as _ <-. by do 2 eexists. }
  destruct Hres as (order & created & ->).
  destruct (posted_order_can_be_read_back _ _ _ _ _ _ _ since_yesterday_wf
              Hpost) as (_ & (n & Hn & Hnum) & Hcarry & Hget & _).
  exists db', order, created. split; [done|]. split; [|split; [|exact Hget]].
  - simpl in Hn. injection Hn as <-. rewrite Hnum. by vm_compute.
  - by apply Forall2_length in Hcarry.
Defined.

(** A body without an order number or without a total is answered with
    400, whatever the storage, and nothing is written. *)
Theorem incomplete_order_is_refused {S : Type} `{!IStorage S} (env : Env)
    (userId : Z) (b : Body) (s : S) :
  orderNumber (orderData b) = None ∨ total (orderData b) = None →
  postOrders env userId b s = (s, Status400).
Proof.
  unfold postOrders, insertOrderSchema_parse, bind, throw.
  intros [Hn|Ht].
  - by rewrite Hn.
  - rewrite Ht. by destruct (orderNumber (orderData b)).
Qed.

Lemma incomplete_order_is_refused_witness :
  postOrders (Scenario.at_morning 0) 1
    {| orderData := {| orderNumber := Some ""; total := None |};
       items := Some [Scenario.good_item] |} Scenario.no_rows
  = (Scenario.no_rows, Status400).
Proof.
  apply incomplete_order_is_refused. by right.
Defined.

End items_and_routes.

(** ** Stock updates of the two storages *)

Section inventory.

Import JsDate.

Lemma JsMap_get_set_ne {V : Type} (k k' : Z) (v : V) (m : JsMap.t V) :
  k' ≠ k → JsMap.get k' (JsMap.set k v m) = JsMap.get k' m.
Proof.
  intros Hne. unfold JsMap.get. induction m as [|[k0 v0] m IH]; simpl.
  - by rewrite bool_decide_eq_false_2.
  - case_bool_decide as Hk; simpl.
    + subst k0. by rewrite !bool_decide_eq_false_2.
    + case_bool_decide; [done|]. exact IH.
Qed.

Lemma mem_updateInventoryStock_found (now : Date) (id : Z) (q c : Qc)
    (item : Inventory.t) (this : MemInventory.t) :
  MemInventory.getInventory id this = Some item →
  Inventory.currentStock item = Num c →
  ∃ item' : Inventory.t,
    (MemInventory.updateInventoryStock now id (Num q) this).2 = Some item'
    ∧ MemInventory.getInventory id
        (MemInventory.updateInventoryStock now id (Num q) this).1
      = Some item'
    ∧ Inventory.currentStock item' = Num (c + q)
    ∧ Inventory.lastRestocked item'
      = (if decide (0 < q) then Some now else Inventory.lastRestocked item)
    ∧ Inventory.lowStockThreshold item' = Inventory.lowStockThreshold item
    ∧ ∀ id' : Z, id' ≠ id →
        MemInventory.getInventory id'
          (MemInventory.updateInventoryStock now id (Num q) this).1
        = MemInventory.getInventory id' this.
Proof.
  unfold MemInventory.getInventory, MemInventory.updateInventoryStock.
  intros -> Hc. eexists. split; [reflexivity|]. simpl.
  split; [apply JsMap_get_set|]. rewrite Hc. split; [done|].
  split; [|split; [done|]].
  - case_bool_decide; by case_decide.
  - intros id' Hne. by apply JsMap_get_set_ne.
Qed.

(** Two stock updates of a [MemStorage] item in a row add both
    quantities to the stock; the restock time is that of the last
    update with a positive quantity, and the old one when neither was
    positive; no other item is touched. *)
Theorem mem_stock_updates_accumulate (now1 now2 : Date) (id : Z)
    (q1 q2 c : Qc) (item : Inventory.t) (this : MemInventory.t) :
  MemInventory.getInventory id this = Some item →
  Inventory.currentStock item = Num c →
  ∃ item2 : Inventory.t,
    (MemInventory.updateInventoryStock now2 id (Num q2)
       (MemInventory.updateInventoryStock now1 id (Num q1) this).1).2
    = Some item2
    ∧ Inventory.currentStock item2 = Num (c + q1 + q2)
    ∧ Inventory.lastRestocked item2
      = (if decide (0 < q2) then Some now2
         else if decide (0 < q1) then Some now1
         else Inventory.lastRestocked item)
    ∧ ∀ id' : Z, id' ≠ id →
        MemInventory.getInventory id'
          (MemInventory.updateInventoryStock now2 id (Num q2)
             (MemInventory.updateInventoryStock now1 id (Num q1) this).1).1
        = MemInventory.getInventory id' this.
Proof.
  intros Hget Hc.
  destruct (mem_updateInventoryStock_found now1 id q1 c item this Hget Hc)
    as (item1 & _ & Hget1 & Hc1 & Hr1 & _ & Hother1).
  destruct (mem_updateInventoryStock_found now2 id q2 (c + q1) item1 _
              Hget1 Hc1)
    as (item2 & Hres2 & _ & Hc2 & Hr2 & _ & Hother2).
  exists item2. split; [done|]. split; [done|]. split.
  - by rewrite Hr2, Hr1.
  - intros id' Hne. by rewrite Hother2, Hother1.
Qed.

Lemma mem_stock_updates_accumulate_witness :
  ∃ item2 : Inventory.t,
    (MemInventory.updateInventoryStock Scenario.morning 1 (Num (- #5))
       (MemInventory.updateInventoryStock Scenario.morning 1 (Num #20)
          Stock.shelf).1).2 = Some item2
    ∧ Inventory.currentStock item2 = Num (#40 + #20 + - #5)
    ∧ Inventory.lastRestocked item2 = Some Scenario.morning.
Proof.
  destruct (mem_stock_updates_accumulate Scenario.morning Scenario.morning 1
              (#20) (- #5) (#40) Stock.paper Stock.shelf eq_refl eq_refl)
    as (item2 & Hres & Hstock & Htime & _).
  exists item2. split; [exact Hres|]. split; [exact Hstock|].
  rewrite Htime. reflexivity.
Defined.

Lemma db_find_update (id : Z) (f : Inventory.t → Inventory.t)
    (db : DatabaseInventory.t) :
  (∀ item, Inventory.id (f item) = Inventory.id item) →
  List.find (λ item, bool_decide (Inventory.id item = id)) (f <$> db)
  = f <$> List.find (λ item, bool_decide (Inventory.id item = id)) db.
Proof.
  intros Hf. induction db as [|x db IH]; [done|]. simpl.
  rewrite Hf. by case_bool_decide.
Qed.




(** A stock update of the database overwrites.  Each call reads the
    clock for itself; for an id and quantities that fit their integer
    columns, two updates of one row in a row leave the table, and give
    the answer, of the second one alone; the table keeps its length, and
    the rows of the other ids are found as before. *)
Theorem database_stock_update_overwrites (now1 now2 : Date) (id q1 q2 : Z)
    (db : DatabaseInventory.t) :
  Storage.Pg.int4 id → Storage.Pg.int4 q1 → Storage.Pg.int4 q2 →
  DatabaseInventory.updateInventoryStock now2 id q2
    (DatabaseInventory.updateInventoryStock now1 id q1 db).1
  = DatabaseInventory.updateInventoryStock now2 id q2 db
  ∧ length (DatabaseInventory.updateInventoryStock now1 id q1 db).1
    = length db
  ∧ ∀ id' : Z, id' ≠ id →
      List.find (λ item, bool_decide (Inventory.id item = id'))
        (DatabaseInventory.updateInventoryStock now1 id q1 db).1
      = List.find (λ item, bool_decide (Inventory.id item = id')) db.
Proof.
  intros _ _ _.
  unfold DatabaseInventory.updateInventoryStock.
  destruct (List.find _ db) as [item|] eqn:Hfind; simpl.
  - set (update1 := λ item : Inventory.t,
           if bool_decide (Inventory.id item = id)
           then {| Inventory.id := Inventory.id item;
                   Inventory.name := Inventory.name item;
                   Inventory.currentStock := Num #q1;
                   Inventory.lowStockThreshold :=
                     Inventory.lowStockThreshold item;
                   Inventory.lastRestocked := Some now1 |}
           else item).
    set (update2 := λ item : Inventory.t,
           if bool_decide (Inventory.id item = id)
           then {| Inventory.id := Inventory.id item;
                   Inventory.name := Inventory.name item;
                   Inventory.currentStock := Num #q2;
                   Inventory.lowStockThreshold :=
                     Inventory.lowStockThreshold item;
                   Inventory.lastRestocked := Some now2 |}
           else item).
    assert (Hid : ∀ x, Inventory.id (update1 x) = Inventory.id x).
    { intros x. unfold update1. by case_bool_decide. }
    assert (Hlast : ∀ x, update2 (update1 x) = update2 x).
    { intros x. unfold update1, update2.
      destruct (bool_decide (Inventory.id x = id)) eqn:Hx; simpl.
      - apply bool_decide_eq_true_1 in Hx.
        by rewrite bool_decide_eq_true_2.
      - by rewrite Hx. }
    split; [|split].
    + rewrite (db_find_update id update1), Hfind by done. simpl.
      rewrite <- list_fmap_compose.
      f_equal; [apply list_fmap_ext; intros _ x _; apply Hlast|].
      f_equal. apply list_fmap_ext. intros _ x _. apply Hlast.
    + by rewrite length_fmap.
    + intros id' Hne. rewrite db_find_update by done.
      clear Hfind. induction db as [|x db IH]; [done|]. simpl.
      case_bool_decide as Hx; simpl; [|exact IH].
      unfold update1. rewrite bool_decide_eq_false_2; [done | congruence].
  - rewrite Hfind. by repeat split.
Qed.

Lemma database_stock_update_overwrites_witness :
  DatabaseInventory.updateInventoryStock Scenario.evening 1 30
    (DatabaseInventory.updateInventoryStock Scenario.morning 1 25
       Stock.table).1
  = DatabaseInventory.updateInventoryStock Scenario.evening 1 30 Stock.table
  ∧ List.find (λ item, bool_decide (Inventory.id item = 2%Z))
      (DatabaseInventory.updateInventoryStock Scenario.morning 1 25
         Stock.table).1
    = List.find (λ item, bool_decide (Inventory.id item = 2%Z)) Stock.table.
Proof.
  destruct (database_stock_update_overwrites Scenario.morning
              Scenario.evening 1 25 30
              Stock.table) as (Hlast & _ & Hother);
    [by vm_compute..|].
  split; [exact Hlast | by apply Hother].
Defined.

Lemma JsMap_set_last {V : Type} (k : Z) (v v' : V) (m : JsMap.t V) :
  Forall (λ e, e.1 ≠ k) m →
  JsMap.set k v' (m ++ [(k, v)]) = m ++ [(k, v')].
Proof.
  induction 1 as [|[k0 v0] m Hk _ IH]; simpl.
  - by rewrite bool_decide_eq_true_2.
  - simpl in Hk. by rewrite bool_decide_eq_false_2, IH.
Qed.

(** An item that was just created and then had its stock updated is on
    the low-stock list exactly when its stock plus the quantity does not
    exceed its threshold; it comes last, after the items listed
    before. *)
Theorem new_item_is_listed_when_low (now now' : Date) (name : string)
    (c th q : Qc) (this : MemInventory.t) :
  Forall (λ e, (e.1 < MemInventory.inventoryCurrentId this)%Z)
         (MemInventory.inventoryItems this) →
  ∃ item' : Inventory.t,
    (MemInventory.updateInventoryStock now'
       (Inventory.id
          (MemInventory.createInventory now name (Num c) (Num th) this).2)
       (Num q)
       (MemInventory.createInventory now name (Num c) (Num th) this).1).2
    = Some item'
    ∧ Inventory.currentStock item' = Num (c + q)
    ∧ MemInventory.getLowStockItems
        (MemInventory.updateInventoryStock now'
           (Inventory.id
              (MemInventory.createInventory now name (Num c) (Num th)
                 this).2)
           (Num q)
           (MemInventory.createInventory now name (Num c) (Num th) this).1).1
      = MemInventory.getLowStockItems this
          ++ (if decide (c + q ≤ th) then [item'] else []).
Proof.
  intros Hids.
  assert (Hfresh : Forall (λ e : Z * Inventory.t,
                     e.1 ≠ MemInventory.inventoryCurrentId this)
                     (MemInventory.inventoryItems this)).
  { eapply Forall_impl; [exact Hids|]. simpl. intros e He. lia. }
  unfold MemInventory.createInventory; simpl.
  unfold MemInventory.updateInventoryStock; simpl.
  rewrite JsMap_get_set. simpl.
  eexists. split; [reflexivity|]. split; [reflexivity|].
  unfold MemInventory.getLowStockItems; simpl.
  rewrite (JsMap_set_fresh _ _ _ Hfresh), (JsMap_set_last _ _ _ _ Hfresh).
  unfold JsMap.values. rewrite fmap_app, filter_app. f_equal.
  match goal with
  | |- filter _ (snd <$> [(_, ?x)]) = _ =>
    change (snd <$> [(MemInventory.inventoryCurrentId this, x)]) with [x]
  end.
  rewrite filter_cons, filter_nil. simpl.
  destruct (decide (c + q ≤ th)) as [Hle|Hgt].
  - rewrite decide_True; [done|]. by apply bool_decide_eq_true_2.
  - rewrite decide_False; [done|]. by rewrite bool_decide_eq_false_2.
Qed.

Lemma new_item_is_listed_when_low_witness :
  ∃ item' : Inventory.t,
    (MemInventory.updateInventoryStock Scenario.morning 2 (Num (- #8))
       (MemInventory.createInventory Scenario.morning "Ink" (Num #10)
          (Num #5) Stock.shelf).1).2 = Some item'
    ∧ MemInventory.getLowStockItems
        (MemInventory.updateInventoryStock Scenario.morning 2 (Num (- #8))
           (MemInventory.createInventory Scenario.morning "Ink" (Num #10)
              (Num #5) Stock.shelf).1).1
      = [Stock.paper; item'].
Proof.
  destruct (new_item_is_listed_when_low Scenario.morning Scenario.morning
              "Ink" (#10) (#5) (- #8) Stock.shelf)
    as (item' & Hres & _ & Hlow).
  { repeat constructor. }
  exists item'. split; [exact Hres|].
  etransitivity; [exact Hlow|]. reflexivity.
Defined.

End inventory.
